(** * Host-config emitters of the vtk-h, ascent, babelflow and pmt recipes

    A shallow embedding of the four package recipes
    [var/spack/repos/builtin/packages/{vtk-h,ascent,babelflow,pmt}/package.py]
    and the properties of the host-config file they generate.

    The recipes are straight-line Python: they read the process environment
    and the resolved build specification, write text to one file and launch
    the build tool.  They are embedded in a state-and-exception monad over a
    record [World] that holds what the code can observe or change. *)

From Stdlib Require Import Ascii.
From stdpp Require Import gmap strings list.

Local Open Scope stdpp_scope.

(** * Part I: the recipes *)

(** ** Strings *)

(** The two characters of the source text that a literal here cannot hold. *)
Definition nl : string := String "010"%char EmptyString.
Definition dq : string := String "034"%char EmptyString.

(** Python truthiness of a [str]: the empty string is false. *)
Definition str_truthy (s : string) : bool :=
  match s with EmptyString => false | String _ _ => true end.

(** Python truthiness of an optional string ([None] or a [str]). *)
Definition opt_truthy (o : option string) : bool :=
  match o with None => false | Some s => str_truthy s end.

(** [sep.join(l)]. *)
Definition str_join (sep : string) (l : list string) : string :=
  String.concat sep l.

(** [s.startswith(p)]. *)
Fixpoint startswith (p s : string) : bool :=
  match p, s with
  | EmptyString, _ => true
  | String a p', String b s' => if Ascii.eqb a b then startswith p' s' else false
  | String _ _, EmptyString => false
  end.

(** [s.count(sub)]: the number of non-overlapping occurrences of [sub] in
    [s], scanning from the left.  [skip] is the number of characters still
    covered by the occurrence found last. *)
Fixpoint count_from (sub s : string) (skip : nat) : nat :=
  match s with
  | EmptyString =>
      match skip with
      | O => if startswith sub EmptyString then 1 else 0
      | S _ => 0
      end
  | String _ s' =>
      match skip with
      | O => if startswith sub s
             then S (count_from sub s' (String.length sub - 1))
             else count_from sub s' 0
      | S k => count_from sub s' k
      end
  end.

Definition str_count (s sub : string) : nat := count_from sub s 0.

(** [sub in s], as a proposition: [sub] starts at some position of [s]. *)
Definition occurs_in (sub s : string) : Prop :=
  ∃ pre post, s = pre +:+ sub +:+ post.

(** ** Paths ([os.path], POSIX flavour) *)

Definition is_abs (p : string) : bool := startswith "/" p.

Fixpoint endswith_slash (s : string) : bool :=
  match s with
  | EmptyString => false
  | String c EmptyString => Ascii.eqb c "/"%char
  | String _ s' => endswith_slash s'
  end.

(** [os.path.join(a, b)]; [join_path] of the recipes is the same function. *)
Definition os_path_join (a b : string) : string :=
  if is_abs b then b
  else if negb (str_truthy a) || endswith_slash a then a +:+ b
  else a +:+ "/" +:+ b.

Definition join_path := os_path_join.

(** ** Exceptions and results *)

Inductive command : Type :=
  | Cmake (args : list string)
  | Make (args : list string).

Inductive exn : Type :=
  | KeyError (key : string)
  | NameError (name : string)
  | TypeError (what : string)
  | AttributeError (what : string)
  | ValueError (what : string)
  | RuntimeError (msg : string)
  | OSError (path : string)
  | ProcessError (c : command).

Inductive result (A : Type) : Type :=
  | Ok (a : A)
  | Raise (e : exn).
Arguments Ok {A} a.
Arguments Raise {A} e.

(** ** The build specification *)

(** A resolved dependency, [spec['name']]: the attributes the recipes read. *)
Record DepSpec : Type := {
  dep_prefix : string;            (* .prefix *)
  command_path : string;          (* .command.path *)
  mpicc : string;
  mpicxx : string;
  mpifc : string;
  satisfies : string → bool;      (* .satisfies(constraint) *)
}.

(** [prefix.bin] *)
Definition prefix_bin (p : string) : string := join_path p "bin".

(** The build specification handed over by the orchestrator.  [holds] is the
    set of constraints [c] for which the membership test [c in spec]
    answers true (for instance the text [+cuda]). *)
Record Spec : Type := {
  holds : gset string;
  architecture : string;          (* str(spec.architecture) *)
  compiler : string;              (* str(spec.compiler) *)
  compiler_flags : gmap string (list string);
  deps : gmap string DepSpec;
}.

(** [c in spec] *)
Definition spec_contains (spec : Spec) (c : string) : bool :=
  bool_decide (c ∈ holds spec).

(** The package object [self]. *)
Record Package : Type := {
  self_spec : Spec;               (* self.spec *)
  compiler_fc : option string;    (* self.compiler.fc *)
}.

(** A module-level Python value, as far as the recipes use them. *)
Inductive pyval : Type :=
  | PStr (s : string)
  | PList (l : list string).

(** ** The world *)

(** Files are kept as the sequence of chunks written to them; the bytes of a
    file are the concatenation of its chunks.  [files] holds the regular
    files on disk by absolute path, [buffers] the text written to file
    objects that are open for writing (a file object is named by the
    absolute path it was opened at; [close] moves its buffer to disk).
    Directories, symbolic links and the normalisation of [.] and [..] are
    not modelled: a path names a file by its absolute spelling.  Whether a
    file can be created at a path (its directory exists and can be written
    to, and the path is not a directory) is a fact of the world,
    [can_create]: where it says no, opening the file for writing raises. *)
Record World : Type := {
  environ : gmap string string;    (* os.environ *)
  hostname : string;               (* socket.gethostname() *)
  cwd : string;                    (* os.getcwd() *)
  on_path : gmap string string;    (* executables that which() finds *)
  globals : gmap string pyval;     (* names bound in the recipe's module *)
  exit_ok : command → bool;        (* does the external process succeed? *)
  can_create : string → bool;      (* does open(path, 'w') succeed? *)
  files : gmap string (list string);
  buffers : gmap string (list string);
  stdout : list string;            (* print and tty.info *)
  commands : list command;         (* external processes launched so far *)
  installed : list (string * string); (* install(src, dest) calls *)
}.

Definition file_bytes (chunks : list string) : string :=
  String.concat EmptyString chunks.

Definition set_cwd (d : string) (w : World) : World :=
  {| environ := environ w; hostname := hostname w; cwd := d;
     on_path := on_path w; globals := globals w; exit_ok := exit_ok w;
     can_create := can_create w;
     files := files w; buffers := buffers w; stdout := stdout w;
     commands := commands w; installed := installed w |}.

Definition set_globals (g : gmap string pyval) (w : World) : World :=
  {| environ := environ w; hostname := hostname w; cwd := cwd w;
     on_path := on_path w; globals := g; exit_ok := exit_ok w;
     can_create := can_create w;
     files := files w; buffers := buffers w; stdout := stdout w;
     commands := commands w; installed := installed w |}.

Definition set_files (f : gmap string (list string)) (w : World) : World :=
  {| environ := environ w; hostname := hostname w; cwd := cwd w;
     on_path := on_path w; globals := globals w; exit_ok := exit_ok w;
     can_create := can_create w;
     files := f; buffers := buffers w; stdout := stdout w;
     commands := commands w; installed := installed w |}.

Definition set_buffers (b : gmap string (list string)) (w : World) : World :=
  {| environ := environ w; hostname := hostname w; cwd := cwd w;
     on_path := on_path w; globals := globals w; exit_ok := exit_ok w;
     can_create := can_create w;
     files := files w; buffers := b; stdout := stdout w;
     commands := commands w; installed := installed w |}.

Definition set_stdout (o : list string) (w : World) : World :=
  {| environ := environ w; hostname := hostname w; cwd := cwd w;
     on_path := on_path w; globals := globals w; exit_ok := exit_ok w;
     can_create := can_create w;
     files := files w; buffers := buffers w; stdout := o;
     commands := commands w; installed := installed w |}.

Definition set_commands (c : list command) (w : World) : World :=
  {| environ := environ w; hostname := hostname w; cwd := cwd w;
     on_path := on_path w; globals := globals w; exit_ok := exit_ok w;
     can_create := can_create w;
     files := files w; buffers := buffers w; stdout := stdout w;
     commands := c; installed := installed w |}.

Definition set_installed (i : list (string * string)) (w : World) : World :=
  {| environ := environ w; hostname := hostname w; cwd := cwd w;
     on_path := on_path w; globals := globals w; exit_ok := exit_ok w;
     can_create := can_create w;
     files := files w; buffers := buffers w; stdout := stdout w;
     commands := commands w; installed := i |}.

(** The buffer of the file object [h] replaced by [l]. *)
Definition set_buffer (h : string) (l : list string) (w : World) : World :=
  set_buffers (<[h := l]> (buffers w)) w.

(** ** The monad of the recipes: state and exceptions *)

Definition IO (A : Type) : Type := World → result A * World.

Definition io_ret {A} (a : A) : IO A := λ w, (Ok a, w).

Definition raise {A} (e : exn) : IO A := λ w, (Raise e, w).

Definition io_bind {A B} (m : IO A) (k : A → IO B) : IO B :=
  λ w, match m w with
       | (Ok a, w') => k a w'
       | (Raise e, w') => (Raise e, w')
       end.

Declare Scope io_scope.
Notation "x ← m ; k" := (io_bind m (λ x, k))
  (at level 20, m at level 100, k at level 200, only parsing) : io_scope.
Notation "m ;; k" := (io_bind m (λ _, k))
  (at level 100, k at level 200, right associativity, only parsing) : io_scope.
Delimit Scope io_scope with io.
Bind Scope io_scope with IO.
Local Open Scope io_scope.

(** A value or an exception computed without touching the world. *)
Definition lift {A} (r : result A) : IO A := λ w, (r, w).

(** *** Reading the environment and the specification *)

(** [env[key]] *)
Definition env_getitem (key : string) : IO string :=
  λ w, match environ w !! key with
       | Some v => (Ok v, w)
       | None => (Raise (KeyError key), w)
       end.

(** [key in env] *)
Definition env_contains (key : string) : IO bool :=
  λ w, (Ok (bool_decide (is_Some (environ w !! key))), w).

(** [spec[name]] *)
Definition spec_getitem (spec : Spec) (name : string) : IO DepSpec :=
  lift (match deps spec !! name with
        | Some d => Ok d
        | None => Raise (KeyError name)
        end).

(** [spec.compiler_flags[name]] *)
Definition flags_getitem (spec : Spec) (name : string) : IO (list string) :=
  lift (match compiler_flags spec !! name with
        | Some l => Ok l
        | None => Raise (KeyError name)
        end).

Definition socket_gethostname : IO string := λ w, (Ok (hostname w), w).

(** [which(name)]: the path of the executable, or [None]. *)
Definition which (name : string) : IO (option string) :=
  λ w, (Ok (on_path w !! name), w).

(** The value of a module-level name. *)
Definition load_global (name : string) : IO pyval :=
  λ w, match globals w !! name with
       | Some v => (Ok v, w)
       | None => (Raise (NameError name), w)
       end.

(** *** Files *)

(** [os.path.abspath(p)], without the normalisation step. *)
Definition abspath_in (dir p : string) : string := os_path_join dir p.

Definition os_path_abspath (p : string) : IO string :=
  λ w, (Ok (abspath_in (cwd w) p), w).

Definition isfile_in (w : World) (p : string) : bool :=
  bool_decide (is_Some (files w !! abspath_in (cwd w) p)).

(** [os.path.isfile(p)] *)
Definition os_path_isfile (p : string) : IO bool :=
  λ w, (Ok (isfile_in w p), w).

(** [open(name, 'w')]: the file is created or truncated, and a file object
    with an empty buffer is returned.  Where the file cannot be created
    Python raises FileNotFoundError, PermissionError or IsADirectoryError,
    all of them [OSError]s. *)
Definition open_w (name : string) : IO string :=
  λ w, let h := abspath_in (cwd w) name in
       if can_create w h
       then (Ok h, set_buffer h [] (set_files (<[h := []]> (files w)) w))
       else (Raise (OSError h), w).

(** [cfg.write(s)] *)
Definition cfg_write (cfg : string) (s : string) : IO unit :=
  λ w, match buffers w !! cfg with
       | Some l => (Ok tt, set_buffer cfg (l ++ [s]) w)
       | None => (Raise (ValueError "I/O operation on closed file"), w)
       end.

(** [cfg.close()] *)
Definition cfg_close (cfg : string) : IO unit :=
  λ w, match buffers w !! cfg with
       | Some l =>
           (Ok tt, set_buffers (delete cfg (buffers w))
                     (set_files (<[cfg := l]> (files w)) w))
       | None => (Ok tt, w)
       end.

(** *** Output, processes, the install helper *)

Definition print (msg : string) : IO unit :=
  λ w, (Ok tt, set_stdout (stdout w ++ [msg]) w).

Definition tty_info (msg : string) : IO unit :=
  λ w, (Ok tt, set_stdout (stdout w ++ [msg]) w).

(** An external process: it is recorded, and a non-zero exit status raises. *)
Definition run_command (c : command) : IO unit :=
  λ w, let w' := set_commands (commands w ++ [c]) w in
       if exit_ok w c then (Ok tt, w') else (Raise (ProcessError c), w').

Definition cmake (args : list string) : IO unit := run_command (Cmake args).
Definition make (args : list string) : IO unit := run_command (Make args).

(** [install(src, dest)] of the orchestrator. *)
Definition install_file (src dest : string) : IO unit :=
  λ w, (Ok tt, set_installed (installed w ++ [(src, dest)]) w).

(** [with working_dir(d, create=True): body].  The directory is made when
    it is missing; what can be created under it is what [can_create] says
    of the paths under it. *)
Definition with_working_dir {A} (d : string) (body : IO A) : IO A :=
  λ w, let orig := cwd w in
       match body (set_cwd (abspath_in orig d) w) with
       | (r, w') => (r, set_cwd orig w')
       end.

(** *** Module-level names

    A name that a function body reads without assigning it is looked up in
    the module namespace (and raises [NameError] when it is not bound
    there); the attributes of the enclosing class are not in scope. *)

(** A module-level name that holds a list of strings. *)
Definition load_list (name : string) : IO (list string) :=
  v ← load_global name;
  match v with
  | PList l => io_ret l
  | PStr _ => raise (TypeError name)
  end.

(** A module-level name that holds a string. *)
Definition load_str (name : string) : IO string :=
  v ← load_global name;
  match v with
  | PStr s => io_ret s
  | PList _ => raise (TypeError name)
  end.

(** [name.append(x)] for a module-level [name]: the list is changed in
    place. *)
Definition global_append (name x : string) : IO unit :=
  v ← load_global name;
  match v with
  | PList l => λ w, (Ok tt, set_globals (<[name := PList (l ++ [x])]> (globals w)) w)
  | PStr _ => raise (AttributeError "append")
  end.

(** ** The vtk-h recipe *)

Module VtkH.

(** [cmake_cache_entry(name, value, vtype=None)], lines 18-28. *)
Definition cmake_cache_entry (name value : string) (vtype : option string)
  : string :=
  let vtype :=
    match vtype with
    | None => if String.eqb value "ON" || String.eqb value "OFF"
              then "BOOL" else "PATH"
    | Some t => t
    end in
  "set(" +:+ name +:+ " " +:+ dq +:+ value +:+ dq +:+ " CACHE " +:+ vtype
         +:+ " " +:+ dq +:+ dq +:+ ")" +:+ nl +:+ nl.

(** The name of the generated file, lines 137-139. *)
Definition host_cfg_name (host sys_type comp : string) : string :=
  host +:+ "-" +:+ sys_type +:+ "-" +:+ comp +:+ "-vtkh.cmake".

Section emitter.
Variable self : Package.
Variable spec : Spec.
Variable cfg : string.

(** Lines 142-150. *)
Definition write_banner (sys_type cmake_exe : string) : IO unit :=
  cfg_write cfg ("##################################" +:+ nl);;
  cfg_write cfg ("# spack generated host-config" +:+ nl);;
  cfg_write cfg ("##################################" +:+ nl);;
  cfg_write cfg ("# " +:+ sys_type +:+ "-" +:+ compiler spec +:+ nl);;
  cfg_write cfg ("##################################" +:+ nl +:+ nl);;
  cfg_write cfg ("# cmake from spack " +:+ nl);;
  cfg_write cfg ("# cmake executable path: " +:+ cmake_exe +:+ nl +:+ nl).

(** Lines 156-162. *)
Definition write_compilers (c_compiler cpp_compiler : string) : IO unit :=
  cfg_write cfg ("#######" +:+ nl);;
  cfg_write cfg ("# using " +:+ compiler spec +:+ " compiler spec" +:+ nl);;
  cfg_write cfg ("#######" +:+ nl +:+ nl);;
  cfg_write cfg ("# c compiler used by spack" +:+ nl);;
  cfg_write cfg (cmake_cache_entry "CMAKE_C_COMPILER" c_compiler None);;
  cfg_write cfg ("# cpp compiler used by spack" +:+ nl);;
  cfg_write cfg (cmake_cache_entry "CMAKE_CXX_COMPILER" cpp_compiler None).

(** Lines 164-172: shared vs static libs. *)
Definition write_shared : IO unit :=
  if spec_contains spec "+cuda" then
    cfg_write cfg (cmake_cache_entry "BUILD_SHARED_LIBS" "OFF" None)
  else
    if spec_contains spec "+shared" then
      cfg_write cfg (cmake_cache_entry "BUILD_SHARED_LIBS" "ON" None)
    else
      cfg_write cfg (cmake_cache_entry "BUILD_SHARED_LIBS" "OFF" None).

(** Lines 177-189: the global compiler flags. *)
Definition write_flags : IO unit :=
  l ← flags_getitem spec "cppflags";
  let cppflags := str_join " " l in
  let cppflags := if str_truthy cppflags then cppflags +:+ " "
                  else cppflags in
  l ← flags_getitem spec "cflags";
  let cflags := cppflags +:+ str_join " " l in
  (if str_truthy cflags
   then cfg_write cfg (cmake_cache_entry "CMAKE_C_FLAGS" cflags None)
   else io_ret tt);;
  l ← flags_getitem spec "cxxflags";
  let cxxflags := cppflags +:+ str_join " " l in
  (if str_truthy cxxflags
   then cfg_write cfg (cmake_cache_entry "CMAKE_CXX_FLAGS" cxxflags None)
   else io_ret tt);;
  l ← flags_getitem spec "fflags";
  let fflags := str_join " " l in
  if str_truthy fflags
  then cfg_write cfg (cmake_cache_entry "CMAKE_Fortran_FLAGS" fflags None)
  else io_ret tt.

(** Lines 194-211: tests, logging, contour tree. *)
Definition write_options : IO unit :=
  (if spec_contains spec "+test" then
     cfg_write cfg (cmake_cache_entry "ENABLE_TESTS" "OFF" None);;
     cfg_write cfg (cmake_cache_entry "BUILD_TESTING" "OFF" None)
   else
     cfg_write cfg (cmake_cache_entry "ENABLE_TESTS" "ON" None);;
     cfg_write cfg (cmake_cache_entry "BUILD_TESTING" "ON" None));;
  (if spec_contains spec "+logging" then
     cfg_write cfg (cmake_cache_entry "ENABLE_LOGGING" "ON" None)
   else
     cfg_write cfg (cmake_cache_entry "ENABLE_LOGGING" "OFF" None));;
  if spec_contains spec "+contourtree" then
    cfg_write cfg (cmake_cache_entry "ENABLE_FILTER_CONTOUR_TREE" "ON" None)
  else
    cfg_write cfg (cmake_cache_entry "ENABLE_FILTER_CONTOUR_TREE" "OFF" None).

(** Lines 218-222. *)
Definition write_openmp : IO unit :=
  cfg_write cfg ("# enable openmp support" +:+ nl);;
  if spec_contains spec "+openmp" then
    cfg_write cfg (cmake_cache_entry "ENABLE_OPENMP" "ON" None)
  else
    cfg_write cfg (cmake_cache_entry "ENABLE_OPENMP" "OFF" None).

(** Lines 227-229. *)
Definition write_vtkm : IO unit :=
  cfg_write cfg ("# vtk-m support " +:+ nl);;
  cfg_write cfg ("# vtk-m from spack" +:+ nl);;
  vtkm ← spec_getitem spec "vtk-m";
  cfg_write cfg (cmake_cache_entry "VTKM_DIR" (dep_prefix vtkm) None).

(** Lines 239-242. *)
Definition write_serial : IO unit :=
  if spec_contains spec "+serial" then
    cfg_write cfg (cmake_cache_entry "ENABLE_SERIAL" "ON" None)
  else
    cfg_write cfg (cmake_cache_entry "ENABLE_SERIAL" "OFF" None).

(** Lines 247-250: logging, a second time. *)
Definition write_logging : IO unit :=
  if spec_contains spec "+logging" then
    cfg_write cfg (cmake_cache_entry "ENABLE_LOGGING" "ON" None)
  else
    cfg_write cfg (cmake_cache_entry "ENABLE_LOGGING" "OFF" None).

(** Lines 256-285. *)
Definition write_mpi (cpp_compiler : string) : IO unit :=
  cfg_write cfg ("# MPI Support" +:+ nl);;
  if spec_contains spec "+mpi" then
    mpi ← spec_getitem spec "mpi";
    let mpicc_path := mpicc mpi in
    mpi ← spec_getitem spec "mpi";
    let mpicxx_path := mpicxx mpi in
    mpi ← spec_getitem spec "mpi";
    let mpifc_path := mpifc mpi in
    let mpicc_path := if String.eqb cpp_compiler "CC" then "cc"
                      else mpicc_path in
    let mpicxx_path := if String.eqb cpp_compiler "CC" then "CC"
                       else mpicxx_path in
    let mpifc_path := if String.eqb cpp_compiler "CC" then "ftn"
                      else mpifc_path in
    cfg_write cfg (cmake_cache_entry "ENABLE_MPI" "ON" None);;
    cfg_write cfg (cmake_cache_entry "MPI_C_COMPILER" mpicc_path None);;
    cfg_write cfg (cmake_cache_entry "MPI_CXX_COMPILER" mpicxx_path None);;
    cfg_write cfg (cmake_cache_entry "MPI_Fortran_COMPILER" mpifc_path None);;
    mpi ← spec_getitem spec "mpi";
    let mpiexe_bin := join_path (prefix_bin (dep_prefix mpi)) "mpiexec" in
    found ← os_path_isfile mpiexe_bin;
    if found then
      cm ← spec_getitem (self_spec self) "cmake";
      if satisfies cm "@3.10:" then
        cfg_write cfg (cmake_cache_entry "MPIEXEC_EXECUTABLE" mpiexe_bin None)
      else
        cfg_write cfg (cmake_cache_entry "MPIEXEC" mpiexe_bin None)
    else io_ret tt
  else
    cfg_write cfg (cmake_cache_entry "ENABLE_MPI" "OFF" None).

(** Lines 290-298. *)
Definition write_cuda (cpp_compiler : string) : IO unit :=
  cfg_write cfg ("# CUDA Support" +:+ nl);;
  if spec_contains spec "+cuda" then
    cfg_write cfg (cmake_cache_entry "ENABLE_CUDA" "ON" None);;
    cfg_write cfg (cmake_cache_entry "VTKm_ENABLE_CUDA:BOOL" "ON" None);;
    cfg_write cfg (cmake_cache_entry "CMAKE_CUDA_HOST_COMPILER" cpp_compiler
                     None)
  else
    cfg_write cfg (cmake_cache_entry "VTKm_ENABLE_CUDA:BOOL" "OFF" None);;
    cfg_write cfg (cmake_cache_entry "ENABLE_CUDA" "OFF" None).

(** Lines 300-302. *)
Definition write_footer : IO unit :=
  cfg_write cfg ("##################################" +:+ nl);;
  cfg_write cfg ("# end spack generated host-config" +:+ nl);;
  cfg_write cfg ("##################################" +:+ nl).

(** Lines 142-303: everything written between [open] and [close]. *)
Definition write_all (c_compiler cpp_compiler sys_type cmake_exe : string)
  : IO unit :=
  write_banner sys_type cmake_exe;;
  write_compilers c_compiler cpp_compiler;;
  write_shared;;
  write_flags;;
  write_options;;
  write_openmp;;
  write_vtkm;;
  write_serial;;
  write_logging;;
  write_mpi cpp_compiler;;
  write_cuda cpp_compiler;;
  write_footer.
End emitter.

(** [VtkH.create_host_config(self, spec, prefix)], lines 114-307.  The
    writes are grouped as the banner comments of the source group them. *)
Definition create_host_config (self : Package) (spec : Spec) (prefix : string)
  : IO string :=
  c_compiler ← env_getitem "SPACK_CC";
  cpp_compiler ← env_getitem "SPACK_CXX";
  let sys_type := architecture spec in
  on_llnl ← env_contains "SYS_TYPE";
  sys_type ← (if on_llnl : bool then env_getitem "SYS_TYPE"
              else io_ret sys_type);
  cm ← spec_getitem spec "cmake";
  let cmake_exe := command_path cm in
  host ← socket_gethostname;
  let host_cfg_fname := host_cfg_name host sys_type (compiler spec) in
  cfg ← open_w host_cfg_fname;
  write_all self spec cfg c_compiler cpp_compiler sys_type cmake_exe;;
  cfg_close cfg;;
  host_cfg_fname ← os_path_abspath host_cfg_fname;
  tty_info ("spack generated host-config file: " +:+ host_cfg_fname);;
  io_ret host_cfg_fname.

(** The argument list of the configure step, lines 89-104. *)
Definition cmake_args (spec : Spec) (std_cmake_args : list string)
  (host_cfg_fname : string) : list string :=
  let cmake_args :=
    List.filter
      (λ arg,
         if Nat.eqb (str_count arg "CMAKE_BUILD_TYPE") 0 then
           if spec_contains spec "+shared" then true
           else Nat.eqb (str_count arg "RPATH") 0
         else false)
      std_cmake_args in
  let cmake_args := cmake_args ++ ["-DCMAKE_BUILD_TYPE=Release"] in
  cmake_args ++ ["-C"; host_cfg_fname; "../src"].

(** [VtkH.install(self, spec, prefix)], lines 85-112. *)
Definition install (self : Package) (spec : Spec) (prefix : string)
  : IO unit :=
  with_working_dir "spack-build"
    (host_cfg_fname ← create_host_config self spec prefix;
     std_cmake_args ← load_list "std_cmake_args";
     let cmake_args := cmake_args spec std_cmake_args host_cfg_fname in
     print "Configuring VTK-h...";;
     cmake cmake_args;;
     print "Building VTK-h...";;
     make [];;
     print "Installing VTK-h...";;
     make ["install"];;
     install_file host_cfg_fname prefix).

End VtkH.

(** ** The ascent recipe *)

Module Ascent.

(** [cmake_cache_entry(name, value)], lines 36-41. *)
Definition cmake_cache_entry (name value : string) : string :=
  "set(" +:+ name +:+ " " +:+ dq +:+ value +:+ dq +:+ " CACHE PATH "
         +:+ dq +:+ dq +:+ ")" +:+ nl +:+ nl.

(** The name of the generated file, lines 228-230. *)
Definition host_cfg_name (host sys_type comp : string) : string :=
  host +:+ "-" +:+ sys_type +:+ "-" +:+ comp +:+ "-ascent.cmake".

Section emitter.
Variable self : Package.
Variable spec : Spec.
Variable cfg : string.

(** Lines 233-241. *)
Definition write_banner (sys_type cmake_exe : string) : IO unit :=
  cfg_write cfg ("##################################" +:+ nl);;
  cfg_write cfg ("# spack generated host-config" +:+ nl);;
  cfg_write cfg ("##################################" +:+ nl);;
  cfg_write cfg ("# " +:+ sys_type +:+ "-" +:+ compiler spec +:+ nl);;
  cfg_write cfg ("##################################" +:+ nl +:+ nl);;
  cfg_write cfg ("# cmake from spack " +:+ nl);;
  cfg_write cfg ("# cmake executable path: " +:+ cmake_exe +:+ nl +:+ nl).

(** Lines 247-253. *)
Definition write_compilers (c_compiler cpp_compiler : string) : IO unit :=
  cfg_write cfg ("#######" +:+ nl);;
  cfg_write cfg ("# using " +:+ compiler spec +:+ " compiler spec" +:+ nl);;
  cfg_write cfg ("#######" +:+ nl +:+ nl);;
  cfg_write cfg ("# c compiler used by spack" +:+ nl);;
  cfg_write cfg (cmake_cache_entry "CMAKE_C_COMPILER" c_compiler);;
  cfg_write cfg ("# cpp compiler used by spack" +:+ nl);;
  cfg_write cfg (cmake_cache_entry "CMAKE_CXX_COMPILER" cpp_compiler).

(** Lines 255-261. *)
Definition write_fortran (f_compiler : option string) : IO unit :=
  cfg_write cfg ("# fortran compiler used by spack" +:+ nl);;
  match f_compiler with
  | Some f_compiler =>
      cfg_write cfg (cmake_cache_entry "ENABLE_FORTRAN" "ON");;
      cfg_write cfg (cmake_cache_entry "CMAKE_Fortran_COMPILER" f_compiler)
  | None =>
      cfg_write cfg ("# no fortran compiler found" +:+ nl +:+ nl);;
      cfg_write cfg (cmake_cache_entry "ENABLE_FORTRAN" "OFF")
  end.

(** Lines 263-267: shared vs static libs. *)
Definition write_shared : IO unit :=
  if spec_contains spec "+shared" then
    cfg_write cfg (cmake_cache_entry "BUILD_SHARED_LIBS" "ON")
  else
    cfg_write cfg (cmake_cache_entry "BUILD_SHARED_LIBS" "OFF").

(** Lines 277-278. *)
Definition write_conduit : IO unit :=
  cfg_write cfg ("# conduit from spack " +:+ nl);;
  conduit ← spec_getitem spec "conduit";
  cfg_write cfg (cmake_cache_entry "CONDUIT_DIR" (dep_prefix conduit)).

(** Lines 288-301. *)
Definition write_python (py_site_pkgs_dir : option string) : IO unit :=
  cfg_write cfg ("# Python Support" +:+ nl);;
  if spec_contains spec "+python" then
    cfg_write cfg ("# Enable python module builds" +:+ nl);;
    cfg_write cfg (cmake_cache_entry "ENABLE_PYTHON" "ON");;
    cfg_write cfg ("# python from spack " +:+ nl);;
    python ← spec_getitem spec "python";
    cfg_write cfg (cmake_cache_entry "PYTHON_EXECUTABLE"
                     (command_path python));;
    match py_site_pkgs_dir with
    | Some dir =>
        if str_truthy dir then
          cfg_write cfg (cmake_cache_entry "PYTHON_MODULE_INSTALL_PREFIX"
                           dir)
        else io_ret tt
    | None => io_ret tt
    end
  else
    cfg_write cfg (cmake_cache_entry "ENABLE_PYTHON" "OFF").

(** Lines 303-311. *)
Definition write_docs : IO unit :=
  if spec_contains spec "+doc" && spec_contains spec "+python" then
    cfg_write cfg (cmake_cache_entry "ENABLE_DOCS" "ON");;
    cfg_write cfg ("# sphinx from spack " +:+ nl);;
    sphinx ← spec_getitem spec "py-sphinx";
    let sphinx_build_exe :=
      join_path (prefix_bin (dep_prefix sphinx)) "sphinx-build" in
    cfg_write cfg (cmake_cache_entry "SPHINX_EXECUTABLE" sphinx_build_exe)
  else
    cfg_write cfg (cmake_cache_entry "ENABLE_DOCS" "OFF").

(** Lines 317-337. *)
Definition write_mpi : IO unit :=
  cfg_write cfg ("# MPI Support" +:+ nl);;
  if spec_contains spec "+mpi" then
    cfg_write cfg (cmake_cache_entry "ENABLE_MPI" "ON");;
    mpi ← spec_getitem spec "mpi";
    cfg_write cfg (cmake_cache_entry "MPI_C_COMPILER" (mpicc mpi));;
    mpi ← spec_getitem spec "mpi";
    cfg_write cfg (cmake_cache_entry "MPI_CXX_COMPILER" (mpicxx mpi));;
    mpi ← spec_getitem spec "mpi";
    cfg_write cfg (cmake_cache_entry "MPI_Fortran_COMPILER" (mpifc mpi));;
    mpi ← spec_getitem spec "mpi";
    let mpiexe_bin := join_path (prefix_bin (dep_prefix mpi)) "mpiexec" in
    found ← os_path_isfile mpiexe_bin;
    if found then
      cm ← spec_getitem (self_spec self) "cmake";
      if satisfies cm "@3.10:" then
        cfg_write cfg (cmake_cache_entry "MPIEXEC_EXECUTABLE" mpiexe_bin)
      else
        cfg_write cfg (cmake_cache_entry "MPIEXEC" mpiexe_bin)
    else io_ret tt
  else
    cfg_write cfg (cmake_cache_entry "ENABLE_MPI" "OFF").

(** Lines 343-353: cuda and openmp. *)
Definition write_cuda_openmp : IO unit :=
  cfg_write cfg ("# CUDA Support" +:+ nl);;
  (if spec_contains spec "+cuda" then
     cfg_write cfg (cmake_cache_entry "ENABLE_CUDA" "ON")
   else
     cfg_write cfg (cmake_cache_entry "ENABLE_CUDA" "OFF"));;
  if spec_contains spec "+openmp" then
    cfg_write cfg (cmake_cache_entry "ENABLE_OPENMP" "ON")
  else
    cfg_write cfg (cmake_cache_entry "ENABLE_OPENMP" "OFF").

(** Lines 359-368. *)
Definition write_vtkh : IO unit :=
  cfg_write cfg ("# vtk-h support " +:+ nl);;
  if spec_contains spec "+vtkh" then
    cfg_write cfg ("# vtk-m from spack" +:+ nl);;
    vtkm ← spec_getitem spec "vtkm";
    cfg_write cfg (cmake_cache_entry "VTKM_DIR" (dep_prefix vtkm));;
    cfg_write cfg ("# vtk-h from spack" +:+ nl);;
    vtkh ← spec_getitem spec "vtkh";
    cfg_write cfg (cmake_cache_entry "VTKH_DIR" (dep_prefix vtkh))
  else
    cfg_write cfg ("# vtk-h not built by spack " +:+ nl).

(** Lines 373-377. *)
Definition write_mfem : IO unit :=
  if spec_contains spec "+mfem" then
    cfg_write cfg ("# mfem from spack " +:+ nl);;
    mfem ← spec_getitem spec "mfem";
    cfg_write cfg (cmake_cache_entry "MFEM_DIR" (dep_prefix mfem))
  else
    cfg_write cfg ("# mfem not built by spack " +:+ nl).

(** Lines 387-392. *)
Definition write_adios : IO unit :=
  cfg_write cfg ("# adios support" +:+ nl);;
  if spec_contains spec "+adios" then
    adios ← spec_getitem spec "adios";
    cfg_write cfg (cmake_cache_entry "ADIOS_DIR" (dep_prefix adios))
  else
    cfg_write cfg ("# adios not built by spack " +:+ nl).

(** Lines 394-396. *)
Definition write_footer : IO unit :=
  cfg_write cfg ("##################################" +:+ nl);;
  cfg_write cfg ("# end spack generated host-config" +:+ nl);;
  cfg_write cfg ("##################################" +:+ nl).

(** Lines 233-396: everything written between [open] and [close]. *)
Definition write_all (c_compiler cpp_compiler : string)
  (f_compiler : option string) (sys_type cmake_exe : string)
  (py_site_pkgs_dir : option string) : IO unit :=
  write_banner sys_type cmake_exe;;
  write_compilers c_compiler cpp_compiler;;
  write_fortran f_compiler;;
  write_shared;;
  write_conduit;;
  write_python py_site_pkgs_dir;;
  write_docs;;
  write_mpi;;
  write_cuda_openmp;;
  write_vtkh;;
  write_mfem;;
  write_adios;;
  write_footer.
End emitter.

(** Lines 197-202: the Fortran compiler, when there is one. *)
Definition find_f_compiler (self : Package) : IO (option string) :=
  if opt_truthy (compiler_fc self) then
    p ← env_getitem "SPACK_FC";
    found ← os_path_isfile p;
    if found then
      p ← env_getitem "SPACK_FC";
      io_ret (Some p)
    else io_ret None
  else io_ret None.

(** Lines 219-226: the CMake executable. *)
Definition find_cmake (spec : Spec) : IO string :=
  if spec_contains spec "+cmake" then
    cm ← spec_getitem spec "cmake";
    io_ret (command_path cm)
  else
    cmake_exe ← which "cmake";
    match cmake_exe with
    | None =>
        let msg := "failed to find CMake (and cmake variant is off)" in
        raise (RuntimeError msg)
    | Some path => io_ret path
    end.

(** [Ascent.create_host_config(self, spec, prefix, py_site_pkgs_dir=None)],
    lines 173-401.  The writes are grouped as the banner comments of the
    source group them. *)
Definition create_host_config (self : Package) (spec : Spec) (prefix : string)
  (py_site_pkgs_dir : option string) : IO string :=
  c_compiler ← env_getitem "SPACK_CC";
  cpp_compiler ← env_getitem "SPACK_CXX";
  f_compiler ← find_f_compiler self;
  let sys_type := architecture spec in
  on_llnl ← env_contains "SYS_TYPE";
  sys_type ← (if on_llnl : bool then env_getitem "SYS_TYPE"
              else io_ret sys_type);
  cmake_exe ← find_cmake spec;
  host ← socket_gethostname;
  let host_cfg_fname := host_cfg_name host sys_type (compiler spec) in
  cfg ← open_w host_cfg_fname;
  write_all self spec cfg c_compiler cpp_compiler f_compiler sys_type
    cmake_exe py_site_pkgs_dir;;
  cfg_close cfg;;
  host_cfg_fname ← os_path_abspath host_cfg_fname;
  tty_info ("spack generated conduit host-config file: " +:+ host_cfg_fname);;
  io_ret host_cfg_fname.

(** The argument list of the configure step, lines 156-166. *)
Definition cmake_args (spec : Spec) (std_cmake_args : list string)
  (host_cfg_fname : string) : list string :=
  let cmake_args :=
    if spec_contains spec "+shared" then std_cmake_args
    else List.filter (λ arg, Nat.eqb (str_count arg "RPATH") 0)
           std_cmake_args in
  cmake_args ++ ["-C"; host_cfg_fname; "../src"].

(** [Ascent.install(self, spec, prefix)], lines 144-171. *)
Definition install (self : Package) (spec : Spec) (prefix : string)
  : IO unit :=
  with_working_dir "spack-build"
    (py_site_pkgs_dir ←
       (if spec_contains spec "+python"
        then s ← load_str "site_packages_dir"; io_ret (Some s)
        else io_ret None);
     host_cfg_fname ← create_host_config self spec prefix py_site_pkgs_dir;
     std_cmake_args ← load_list "std_cmake_args";
     let cmake_args := cmake_args spec std_cmake_args host_cfg_fname in
     cmake cmake_args;;
     make [];;
     make ["install"];;
     install_file host_cfg_fname prefix).

End Ascent.

(** ** The babelflow recipe *)

Module Babelflow.

(** [Babelflow.cmake_install(self, spec, prefix)], lines 31-37.  The body
    reads the name [cmake_args], which it does not assign. *)
Definition cmake_install (self : Package) (spec : Spec) (prefix : string)
  : IO unit :=
  (if spec_contains spec "+shared" then
     global_append "cmake_args" "-DBUILD_SHARED_LIBS=ON"
   else
     global_append "cmake_args" "-DBUILD_SHARED_LIBS=OFF");;
  make [];;
  make ["install"].

End Babelflow.

(** ** The pmt recipe *)

Module Pmt.

(** [Pmt.cmake_args(self)], lines 33-38: a method, that is an attribute of
    the class and not a name of the module. *)
Definition cmake_args (self : Package) : list string :=
  let args := [] in
  let args := args ++ ["-DLIBRARY_ONLY=ON"] in
  args.

(** [Pmt.cmake_install(self, spec, prefix)], lines 40-48. *)
Definition cmake_install (self : Package) (spec : Spec) (prefix : string)
  : IO unit :=
  (if spec_contains spec "+shared" then
     global_append "cmake_args" "-DBUILD_SHARED_LIBS=ON"
   else
     global_append "cmake_args" "-DBUILD_SHARED_LIBS=OFF");;
  make [];;
  make ["install"].

End Pmt.


(** * Part II: the vocabulary of the properties *)

(** ** Reading a host-config file back

    A chunk written by [cmake_cache_entry] starts with [set(] and the name
    of the cache variable; every other chunk the emitters write is a comment
    line. *)

Fixpoint until_space (s : string) : string :=
  match s with
  | EmptyString => EmptyString
  | String c s' =>
      if Ascii.eqb c " "%char then EmptyString else String c (until_space s')
  end.

(** The cache variable a chunk sets, if it is a cache entry. *)
Definition entry_name (chunk : string) : option string :=
  match chunk with
  | String "s"%char (String "e"%char (String "t"%char (String "("%char rest)))
      => Some (until_space rest)
  | _ => None
  end.

Definition is_entry_of (name chunk : string) : bool :=
  match entry_name chunk with
  | Some n => String.eqb n name
  | None => false
  end.

(** The cache entries of a file that set the variable [name], in order. *)
Definition entries_named (name : string) (chunks : list string)
  : list string :=
  List.filter (is_entry_of name) chunks.

(** The cache variables a file sets, in order, with repetitions. *)
Definition entry_names (chunks : list string) : list string :=
  omap entry_name chunks.

Definition is_comment (chunk : string) : bool := startswith "#" chunk.

(** The computation [m], started in [w], returns the path [p], and the file
    at [p] then holds [chunks]. *)
Definition generates (m : IO string) (w : World) (p : string)
  (chunks : list string) : Prop :=
  ∃ w', m w = (Ok p, w') ∧ files w' !! p = Some chunks.

(** Two worlds give a run the same inputs, the environment variables in
    [skip] aside: same host name, working directory and search path, the
    same files on disk (whatever they hold), files can be created at the
    same paths, the same environment. *)
Definition agree_except (skip : list string) (w w' : World) : Prop :=
  hostname w = hostname w'
  ∧ cwd w = cwd w'
  ∧ on_path w = on_path w'
  ∧ (∀ p, is_Some (files w !! p) ↔ is_Some (files w' !! p))
  ∧ (∀ p, can_create w p = can_create w' p)
  ∧ (∀ k, k ∉ skip → environ w !! k = environ w' !! k).

(** ** Runs between [open] and [close] *)

(** While the file object [h] is open the recipes only append to its buffer
    and read the rest of the world.  [sound w0 h m P a L] says so for the
    computation [m]: started in [w0] with any buffer for [h], it returns [a]
    and appends the chunks [L] exactly when [P] holds, and raises
    otherwise. *)
Definition sound (w0 : World) (h : string) {A} (m : IO A) (P : Prop) (a : A)
  (L : list string) : Prop :=
  ∀ l0, match m (set_buffer h l0 w0) with
        | (Ok a', w1) => P ∧ a' = a ∧ w1 = set_buffer h (l0 ++ L) w0
        | (Raise _, _) => ¬ P
        end.

(** The dependency [spec[name]], or a dependency with empty attributes when
    the specification has none of that name. *)
Definition no_dep : DepSpec :=
  {| dep_prefix := EmptyString; command_path := EmptyString;
     mpicc := EmptyString; mpicxx := EmptyString; mpifc := EmptyString;
     satisfies := λ _, false |}.

Definition dep_of (spec : Spec) (name : string) : DepSpec :=
  default no_dep (deps spec !! name).

Definition flags_of (spec : Spec) (name : string) : list string :=
  default [] (compiler_flags spec !! name).

(** ** What the vtk-h emitter writes *)

Module VtkHOut.

Definition entry (name value : string) : string :=
  VtkH.cmake_cache_entry name value None.

Definition on_off (b : bool) : string := if b then "ON" else "OFF".

Section chunks.
Variable self : Package.
Variable spec : Spec.
Variable w0 : World.

Definition banner (sys_type cmake_exe : string) : list string :=
  [ "##################################" +:+ nl;
    "# spack generated host-config" +:+ nl;
    "##################################" +:+ nl;
    "# " +:+ sys_type +:+ "-" +:+ compiler spec +:+ nl;
    "##################################" +:+ nl +:+ nl;
    "# cmake from spack " +:+ nl;
    "# cmake executable path: " +:+ cmake_exe +:+ nl +:+ nl ].

Definition compilers (c_compiler cpp_compiler : string) : list string :=
  [ "#######" +:+ nl;
    "# using " +:+ compiler spec +:+ " compiler spec" +:+ nl;
    "#######" +:+ nl +:+ nl;
    "# c compiler used by spack" +:+ nl;
    entry "CMAKE_C_COMPILER" c_compiler;
    "# cpp compiler used by spack" +:+ nl;
    entry "CMAKE_CXX_COMPILER" cpp_compiler ].

Definition shared : list string :=
  [ entry "BUILD_SHARED_LIBS"
      (on_off (negb (spec_contains spec "+cuda")
               && spec_contains spec "+shared")) ].

Definition cppflags : string :=
  let s := str_join " " (flags_of spec "cppflags") in
  if str_truthy s then s +:+ " " else s.
Definition cflags : string :=
  cppflags +:+ str_join " " (flags_of spec "cflags").
Definition cxxflags : string :=
  cppflags +:+ str_join " " (flags_of spec "cxxflags").
Definition fflags : string := str_join " " (flags_of spec "fflags").

Definition flags : list string :=
  (if str_truthy cflags then [entry "CMAKE_C_FLAGS" cflags] else [])
  ++ (if str_truthy cxxflags then [entry "CMAKE_CXX_FLAGS" cxxflags]
      else [])
  ++ (if str_truthy fflags then [entry "CMAKE_Fortran_FLAGS" fflags]
      else []).

Definition flags_pre : Prop :=
  is_Some (compiler_flags spec !! "cppflags")
  ∧ is_Some (compiler_flags spec !! "cflags")
  ∧ is_Some (compiler_flags spec !! "cxxflags")
  ∧ is_Some (compiler_flags spec !! "fflags").

Definition options : list string :=
  [ entry "ENABLE_TESTS" (on_off (negb (spec_contains spec "+test")));
    entry "BUILD_TESTING" (on_off (negb (spec_contains spec "+test")));
    entry "ENABLE_LOGGING" (on_off (spec_contains spec "+logging"));
    entry "ENABLE_FILTER_CONTOUR_TREE"
      (on_off (spec_contains spec "+contourtree")) ].

Definition openmp : list string :=
  [ "# enable openmp support" +:+ nl;
    entry "ENABLE_OPENMP" (on_off (spec_contains spec "+openmp")) ].

Definition vtkm : list string :=
  [ "# vtk-m support " +:+ nl;
    "# vtk-m from spack" +:+ nl;
    entry "VTKM_DIR" (dep_prefix (dep_of spec "vtk-m")) ].

Definition serial : list string :=
  [ entry "ENABLE_SERIAL" (on_off (spec_contains spec "+serial")) ].

Definition logging : list string :=
  [ entry "ENABLE_LOGGING" (on_off (spec_contains spec "+logging")) ].

Definition mpiexe_bin : string :=
  join_path (prefix_bin (dep_prefix (dep_of spec "mpi"))) "mpiexec".

Definition mpiexec : list string :=
  if isfile_in w0 mpiexe_bin then
    if satisfies (dep_of (self_spec self) "cmake") "@3.10:"
    then [ entry "MPIEXEC_EXECUTABLE" mpiexe_bin ]
    else [ entry "MPIEXEC" mpiexe_bin ]
  else [].

(** The wrapper to record: the Cray one when the C++ compiler is [CC]. *)
Definition wrapper (cpp_compiler cray from_spec : string) : string :=
  if String.eqb cpp_compiler "CC" then cray else from_spec.

Definition mpi (cpp_compiler : string) : list string :=
  ("# MPI Support" +:+ nl) ::
  if spec_contains spec "+mpi" then
    [ entry "ENABLE_MPI" "ON";
      entry "MPI_C_COMPILER"
        (wrapper cpp_compiler "cc" (mpicc (dep_of spec "mpi")));
      entry "MPI_CXX_COMPILER"
        (wrapper cpp_compiler "CC" (mpicxx (dep_of spec "mpi")));
      entry "MPI_Fortran_COMPILER"
        (wrapper cpp_compiler "ftn" (mpifc (dep_of spec "mpi"))) ]
    ++ mpiexec
  else [ entry "ENABLE_MPI" "OFF" ].

Definition mpi_pre : Prop :=
  spec_contains spec "+mpi" = true →
  is_Some (deps spec !! "mpi")
  ∧ (isfile_in w0 mpiexe_bin = true →
     is_Some (deps (self_spec self) !! "cmake")).

Definition cuda (cpp_compiler : string) : list string :=
  ("# CUDA Support" +:+ nl) ::
  if spec_contains spec "+cuda" then
    [ entry "ENABLE_CUDA" "ON";
      entry "VTKm_ENABLE_CUDA:BOOL" "ON";
      entry "CMAKE_CUDA_HOST_COMPILER" cpp_compiler ]
  else
    [ entry "VTKm_ENABLE_CUDA:BOOL" "OFF";
      entry "ENABLE_CUDA" "OFF" ].

Definition footer : list string :=
  [ "##################################" +:+ nl;
    "# end spack generated host-config" +:+ nl;
    "##################################" +:+ nl ].

(** The chunks of a complete file, in the order they are written. *)
Definition body (c_compiler cpp_compiler sys_type cmake_exe : string)
  : list string :=
  banner sys_type cmake_exe ++ compilers c_compiler cpp_compiler
  ++ shared ++ flags ++ options ++ openmp ++ vtkm ++ serial ++ logging
  ++ mpi cpp_compiler ++ cuda cpp_compiler ++ footer.

(** What the specification must provide for the writes to go through. *)
Definition body_pre : Prop :=
  flags_pre ∧ is_Some (deps spec !! "vtk-m") ∧ mpi_pre.

End chunks.

(** *** A whole run of [create_host_config] *)

Section run.
Variable self : Package.
Variable spec : Spec.
Variable prefix : string.
Variable w : World.

Definition sys_type : string :=
  default (architecture spec) (environ w !! "SYS_TYPE").
Definition c_compiler : string :=
  default EmptyString (environ w !! "SPACK_CC").
Definition cpp_compiler : string :=
  default EmptyString (environ w !! "SPACK_CXX").
Definition cmake_exe : string := command_path (dep_of spec "cmake").
Definition fname : string :=
  VtkH.host_cfg_name (hostname w) sys_type (compiler spec).
Definition path : string := abspath_in (cwd w) fname.

(** The world the writes run in: the file has just been created. *)
Definition opened : World := set_files (<[path := []]> (files w)) w.

Definition chunks : list string :=
  body self spec opened c_compiler cpp_compiler sys_type cmake_exe.

(** What the environment, the specification and the file system must
    provide. *)
Definition pre : Prop :=
  is_Some (environ w !! "SPACK_CC")
  ∧ is_Some (environ w !! "SPACK_CXX")
  ∧ is_Some (deps spec !! "cmake")
  ∧ can_create w path = true
  ∧ body_pre self spec opened.

Definition final : World :=
  set_stdout (stdout w ++ ["spack generated host-config file: " +:+ path])
    (set_buffers (delete path (buffers w))
       (set_files (<[path := chunks]> (files w)) w)).

End run.

End VtkHOut.

(** ** What the ascent emitter writes *)

Module AscentOut.

Definition entry (name value : string) : string :=
  Ascent.cmake_cache_entry name value.

Definition on_off (b : bool) : string := if b then "ON" else "OFF".

Section chunks.
Variable self : Package.
Variable spec : Spec.
Variable w0 : World.

Definition banner (sys_type cmake_exe : string) : list string :=
  [ "##################################" +:+ nl;
    "# spack generated host-config" +:+ nl;
    "##################################" +:+ nl;
    "# " +:+ sys_type +:+ "-" +:+ compiler spec +:+ nl;
    "##################################" +:+ nl +:+ nl;
    "# cmake from spack " +:+ nl;
    "# cmake executable path: " +:+ cmake_exe +:+ nl +:+ nl ].

Definition compilers (c_compiler cpp_compiler : string) : list string :=
  [ "#######" +:+ nl;
    "# using " +:+ compiler spec +:+ " compiler spec" +:+ nl;
    "#######" +:+ nl +:+ nl;
    "# c compiler used by spack" +:+ nl;
    entry "CMAKE_C_COMPILER" c_compiler;
    "# cpp compiler used by spack" +:+ nl;
    entry "CMAKE_CXX_COMPILER" cpp_compiler ].

Definition fortran (f_compiler : option string) : list string :=
  ("# fortran compiler used by spack" +:+ nl) ::
  match f_compiler with
  | Some f => [ entry "ENABLE_FORTRAN" "ON";
                entry "CMAKE_Fortran_COMPILER" f ]
  | None => [ "# no fortran compiler found" +:+ nl +:+ nl;
              entry "ENABLE_FORTRAN" "OFF" ]
  end.

Definition shared : list string :=
  [ entry "BUILD_SHARED_LIBS" (on_off (spec_contains spec "+shared")) ].

Definition conduit : list string :=
  [ "# conduit from spack " +:+ nl;
    entry "CONDUIT_DIR" (dep_prefix (dep_of spec "conduit")) ].

Definition site_packages (py_site_pkgs_dir : option string)
  : list string :=
  match py_site_pkgs_dir with
  | Some dir =>
      if str_truthy dir
      then [ entry "PYTHON_MODULE_INSTALL_PREFIX" dir ] else []
  | None => []
  end.

Definition python (py_site_pkgs_dir : option string) : list string :=
  ("# Python Support" +:+ nl) ::
  if spec_contains spec "+python" then
    [ "# Enable python module builds" +:+ nl;
      entry "ENABLE_PYTHON" "ON";
      "# python from spack " +:+ nl;
      entry "PYTHON_EXECUTABLE" (command_path (dep_of spec "python")) ]
    ++ site_packages py_site_pkgs_dir
  else [ entry "ENABLE_PYTHON" "OFF" ].

Definition with_docs : bool :=
  spec_contains spec "+doc" && spec_contains spec "+python".

Definition docs : list string :=
  if with_docs then
    [ entry "ENABLE_DOCS" "ON";
      "# sphinx from spack " +:+ nl;
      entry "SPHINX_EXECUTABLE"
        (join_path (prefix_bin (dep_prefix (dep_of spec "py-sphinx")))
           "sphinx-build") ]
  else [ entry "ENABLE_DOCS" "OFF" ].

Definition mpiexe_bin : string :=
  join_path (prefix_bin (dep_prefix (dep_of spec "mpi"))) "mpiexec".

Definition mpiexec : list string :=
  if isfile_in w0 mpiexe_bin then
    if satisfies (dep_of (self_spec self) "cmake") "@3.10:"
    then [ entry "MPIEXEC_EXECUTABLE" mpiexe_bin ]
    else [ entry "MPIEXEC" mpiexe_bin ]
  else [].

Definition mpi : list string :=
  ("# MPI Support" +:+ nl) ::
  if spec_contains spec "+mpi" then
    [ entry "ENABLE_MPI" "ON";
      entry "MPI_C_COMPILER" (mpicc (dep_of spec "mpi"));
      entry "MPI_CXX_COMPILER" (mpicxx (dep_of spec "mpi"));
      entry "MPI_Fortran_COMPILER" (mpifc (dep_of spec "mpi")) ]
    ++ mpiexec
  else [ entry "ENABLE_MPI" "OFF" ].

Definition mpi_pre : Prop :=
  spec_contains spec "+mpi" = true →
  is_Some (deps spec !! "mpi")
  ∧ (isfile_in w0 mpiexe_bin = true →
     is_Some (deps (self_spec self) !! "cmake")).

Definition cuda_openmp : list string :=
  [ "# CUDA Support" +:+ nl;
    entry "ENABLE_CUDA" (on_off (spec_contains spec "+cuda"));
    entry "ENABLE_OPENMP" (on_off (spec_contains spec "+openmp")) ].

Definition vtkh : list string :=
  ("# vtk-h support " +:+ nl) ::
  if spec_contains spec "+vtkh" then
    [ "# vtk-m from spack" +:+ nl;
      entry "VTKM_DIR" (dep_prefix (dep_of spec "vtkm"));
      "# vtk-h from spack" +:+ nl;
      entry "VTKH_DIR" (dep_prefix (dep_of spec "vtkh")) ]
  else [ "# vtk-h not built by spack " +:+ nl ].

Definition mfem : list string :=
  if spec_contains spec "+mfem" then
    [ "# mfem from spack " +:+ nl;
      entry "MFEM_DIR" (dep_prefix (dep_of spec "mfem")) ]
  else [ "# mfem not built by spack " +:+ nl ].

Definition adios : list string :=
  ("# adios support" +:+ nl) ::
  if spec_contains spec "+adios" then
    [ entry "ADIOS_DIR" (dep_prefix (dep_of spec "adios")) ]
  else [ "# adios not built by spack " +:+ nl ].

Definition footer : list string :=
  [ "##################################" +:+ nl;
    "# end spack generated host-config" +:+ nl;
    "##################################" +:+ nl ].

(** The chunks before and after the Fortran block. *)
Definition before (c_compiler cpp_compiler sys_type cmake_exe : string)
  : list string :=
  banner sys_type cmake_exe ++ compilers c_compiler cpp_compiler.

Definition after (py_site_pkgs_dir : option string) : list string :=
  shared ++ conduit ++ python py_site_pkgs_dir ++ docs ++ mpi
  ++ cuda_openmp ++ vtkh ++ mfem ++ adios ++ footer.

(** The chunks of a complete file, in the order they are written. *)
Definition body (c_compiler cpp_compiler : string)
  (f_compiler : option string) (sys_type cmake_exe : string)
  (py_site_pkgs_dir : option string) : list string :=
  before c_compiler cpp_compiler sys_type cmake_exe
  ++ fortran f_compiler ++ after py_site_pkgs_dir.

(** A dependency is looked up only under the flag that asks for it. *)
Definition needs (flag : bool) (name : string) : Prop :=
  flag = true → is_Some (deps spec !! name).

(** What the specification must provide for the writes to go through. *)
Definition body_pre : Prop :=
  is_Some (deps spec !! "conduit")
  ∧ needs (spec_contains spec "+python") "python"
  ∧ needs with_docs "py-sphinx"
  ∧ mpi_pre
  ∧ needs (spec_contains spec "+vtkh") "vtkm"
  ∧ needs (spec_contains spec "+vtkh") "vtkh"
  ∧ needs (spec_contains spec "+mfem") "mfem"
  ∧ needs (spec_contains spec "+adios") "adios".

End chunks.

(** *** A whole run of [create_host_config] *)

Section run.
Variable self : Package.
Variable spec : Spec.
Variable prefix : string.
Variable py_site_pkgs_dir : option string.
Variable w : World.

Definition sys_type : string :=
  default (architecture spec) (environ w !! "SYS_TYPE").
Definition c_compiler : string :=
  default EmptyString (environ w !! "SPACK_CC").
Definition cpp_compiler : string :=
  default EmptyString (environ w !! "SPACK_CXX").

(** The Fortran compiler the run records, if any. *)
Definition f_compiler : option string :=
  if opt_truthy (compiler_fc self) then
    match environ w !! "SPACK_FC" with
    | Some p => if isfile_in w p then Some p else None
    | None => None
    end
  else None.

Definition fortran_pre : Prop :=
  opt_truthy (compiler_fc self) = true → is_Some (environ w !! "SPACK_FC").

Definition cmake_exe : string :=
  if spec_contains spec "+cmake" then command_path (dep_of spec "cmake")
  else default EmptyString (on_path w !! "cmake").

Definition cmake_pre : Prop :=
  if spec_contains spec "+cmake" then is_Some (deps spec !! "cmake")
  else is_Some (on_path w !! "cmake").

Definition fname : string :=
  Ascent.host_cfg_name (hostname w) sys_type (compiler spec).
Definition path : string := abspath_in (cwd w) fname.

(** The world the writes run in: the file has just been created. *)
Definition opened : World := set_files (<[path := []]> (files w)) w.

Definition chunks : list string :=
  body self spec opened c_compiler cpp_compiler f_compiler sys_type
    cmake_exe py_site_pkgs_dir.

(** What the environment, the specification and the file system must
    provide. *)
Definition pre : Prop :=
  is_Some (environ w !! "SPACK_CC")
  ∧ is_Some (environ w !! "SPACK_CXX")
  ∧ fortran_pre
  ∧ cmake_pre
  ∧ can_create w path = true
  ∧ body_pre self spec opened.

Definition final : World :=
  set_stdout
    (stdout w ++ ["spack generated conduit host-config file: " +:+ path])
    (set_buffers (delete path (buffers w))
       (set_files (<[path := chunks]> (files w)) w)).

End run.

End AscentOut.

(** ** The words of the properties *)

(** What a run needs apart from the Fortran compiler. *)
Definition ascent_rest_pre (self : Package) (spec : Spec) (w : World)
  : Prop :=
  is_Some (environ w !! "SPACK_CC")
  ∧ is_Some (environ w !! "SPACK_CXX")
  ∧ AscentOut.cmake_pre spec w
  ∧ can_create w (AscentOut.path spec w) = true
  ∧ AscentOut.body_pre self spec (AscentOut.opened spec w).

(** The condition of C7: the compiler has no [fc] entry, or [SPACK_FC]
    names something that is not an existing file. *)
Definition no_fortran (self : Package) (w : World) : Prop :=
  opt_truthy (compiler_fc self) = false
  ∨ ∃ p, environ w !! "SPACK_FC" = Some p ∧ isfile_in w p = false.

(** The shape the specification gives for a cache entry: the statement
    [set(NAME <quote>VALUE<quote> CACHE TYPE <quote><quote>)], the end of
    its line, and a blank line. *)
Definition cache_entry_shape (name value vtype : string) : string :=
  "set(" +:+ name +:+ " " +:+ dq +:+ value +:+ dq +:+ " CACHE " +:+ vtype
         +:+ " " +:+ dq +:+ dq +:+ ")" +:+ nl +:+ nl.

(** The type vtk-h gives an entry when the caller names none. *)
Definition default_type (value : string) : string :=
  if bool_decide (value = "ON" ∨ value = "OFF") then "BOOL" else "PATH".

(** The pattern the specification gives for the name of the file. *)
Definition file_name_pattern (host platform comp package : string) : string :=
  host +:+ "-" +:+ platform +:+ "-" +:+ comp +:+ "-" +:+ package
       +:+ ".cmake".

(** A chunk of a vtk-h file: a comment line or a well-formed entry. *)
Definition vtkh_chunk_ok (c : string) : Prop :=
  is_comment c = true
  ∨ ∃ name value, c = cache_entry_shape name value (default_type value).

Definition ascent_chunk_ok (c : string) : Prop :=
  is_comment c = true
  ∨ ∃ name value, c = cache_entry_shape name value "PATH".

(** The list [args] without the arguments that contain [class]. *)
Definition without (class : string) (args : list string) : list string :=
  List.filter (λ arg, Nat.eqb (str_count arg class) 0) args.

(** The site-packages directory handed to the emitter by [Ascent.install]. *)
Definition py_site_pkgs_dir_of (spec : Spec) (w : World) : option string :=
  if spec_contains spec "+python" then
    match globals w !! "site_packages_dir" with
    | Some (PStr s) => Some s
    | _ => None
    end
  else None.

(** The world inside [with working_dir('spack-build', create=True)]. *)
Definition in_build_dir (w : World) : World :=
  set_cwd (abspath_in (cwd w) "spack-build") w.

(** The cache variables that stand for the feature flags of vtk-h. *)
Definition vtkh_flag_variables : list string :=
  [ "BUILD_SHARED_LIBS"; "ENABLE_TESTS"; "BUILD_TESTING"; "ENABLE_LOGGING";
    "ENABLE_FILTER_CONTOUR_TREE"; "ENABLE_OPENMP"; "ENABLE_SERIAL";
    "ENABLE_MPI"; "ENABLE_CUDA"; "VTKm_ENABLE_CUDA:BOOL" ].

(** The cache variables that stand for the feature flags of ascent that are
    always recorded (vtkh, mfem and adios are recorded by a directory, and
    only when enabled). *)
Definition ascent_flag_variables : list string :=
  [ "ENABLE_FORTRAN"; "BUILD_SHARED_LIBS"; "ENABLE_PYTHON"; "ENABLE_DOCS";
    "ENABLE_MPI"; "ENABLE_CUDA"; "ENABLE_OPENMP" ].

Fixpoint no_space (s : string) : bool :=
  match s with
  | EmptyString => true
  | String c s' => negb (Ascii.eqb c " "%char) && no_space s'
  end.

(** ** Concrete inputs

    A host with a Fortran compiler and an MPI launcher on disk, and one
    build specification per recipe. *)

Module Demo.

Definition dep (pfx : string) (newer_cmake : bool) : DepSpec :=
  {| dep_prefix := pfx;
     command_path := pfx +:+ "/bin/tool";
     mpicc := pfx +:+ "/bin/mpicc";
     mpicxx := pfx +:+ "/bin/mpicxx";
     mpifc := pfx +:+ "/bin/mpif90";
     satisfies := λ c, newer_cmake && String.eqb c "@3.10:" |}.

Definition no_flags : gmap string (list string) :=
  list_to_map [("cppflags", []); ("cflags", ["-O2"]); ("cxxflags", []);
               ("fflags", [])].

(** vtk-h with cuda, shared, test, mpi and serial enabled. *)
Definition vtkh_spec : Spec :=
  {| holds := list_to_set ["+cuda"; "+shared"; "+test"; "+mpi"; "+serial"];
     architecture := "linux-rhel7-x86_64";
     compiler := "gcc@8.3.1";
     compiler_flags := no_flags;
     deps := list_to_map [("cmake", dep "/opt/cmake" true);
                          ("vtk-m", dep "/opt/vtk-m" false);
                          ("mpi", dep "/opt/mpi" false)] |}.

(** ascent with cuda, shared, mpi and python enabled. *)
Definition ascent_spec : Spec :=
  {| holds := list_to_set ["+cuda"; "+shared"; "+mpi"; "+python"];
     architecture := "linux-rhel7-x86_64";
     compiler := "gcc@8.3.1";
     compiler_flags := no_flags;
     deps := list_to_map [("cmake", dep "/opt/cmake" false);
                          ("conduit", dep "/opt/conduit" false);
                          ("python", dep "/opt/python" false);
                          ("mpi", dep "/opt/mpi" false)] |}.

Definition vtkh_pkg : Package :=
  {| self_spec := vtkh_spec; compiler_fc := Some "/usr/bin/gfortran" |}.

Definition ascent_pkg : Package :=
  {| self_spec := ascent_spec; compiler_fc := Some "/usr/bin/gfortran" |}.

Definition std_cmake_args : list string :=
  [ "-DCMAKE_INSTALL_PREFIX:PATH=/opt/pkg";
    "-DCMAKE_BUILD_TYPE:STRING=RelWithDebInfo";
    "-DCMAKE_INSTALL_RPATH_USE_LINK_PATH:BOOL=FALSE";
    "-DCMAKE_INSTALL_RPATH:STRING=/opt/pkg/lib" ].

Definition world : World :=
  {| environ := list_to_map [("SPACK_CC", "/usr/bin/gcc");
                             ("SPACK_CXX", "/usr/bin/g++");
                             ("SPACK_FC", "/usr/bin/gfortran")];
     hostname := "quartz";
     cwd := "/tmp/stage";
     on_path := list_to_map [("cmake", "/usr/bin/cmake")];
     globals := list_to_map
                  [("std_cmake_args", PList std_cmake_args);
                   ("site_packages_dir", PStr "/opt/pkg/site-packages")];
     exit_ok := λ _, true;
     can_create := λ _, true;
     files := list_to_map [("/usr/bin/gfortran", ["ELF"]);
                           ("/opt/mpi/bin/mpiexec", ["ELF"])];
     buffers := ∅;
     stdout := [];
     commands := [];
     installed := [] |}.

(** The same host without a Fortran compiler on disk. *)
Definition world_no_fortran : World :=
  set_files (list_to_map [("/opt/mpi/bin/mpiexec", ["ELF"])]) world.

(** The same host with no [cmake] on the search path. *)
Definition world_no_cmake : World :=
  {| environ := environ world; hostname := hostname world; cwd := cwd world;
     on_path := ∅; globals := globals world; exit_ok := exit_ok world;
     can_create := can_create world;
     files := files world; buffers := buffers world; stdout := stdout world;
     commands := commands world; installed := installed world |}.

(** Two hosts that differ in what an earlier run left in the host-config
    file and on the terminal. *)
Definition stale_world (left_over : list string) (out : list string)
  : World :=
  set_stdout out
    (set_files
       (<["/tmp/stage/quartz-linux-rhel7-x86_64-gcc@8.3.1-vtkh.cmake"
          := left_over]> (files world))
       world).

End Demo.


(** ** What a run leaves alone *)

(** A computation that changes nothing but the buffers of open file
    objects, whether it returns or raises. *)
Definition quiet {A} (m : IO A) : Prop :=
  ∀ w, ∃ b, (m w).2 = set_buffers b w.

(** From [w] to [w'] nothing has changed but the file at [p], the buffers
    of open file objects, and the terminal, which has only grown: no
    process has been launched, nothing has been installed, and the
    environment, the working directory and the names of the module are as
    they were. *)
Definition touches_only (p : string) (w w' : World) : Prop :=
  environ w' = environ w
  ∧ hostname w' = hostname w
  ∧ cwd w' = cwd w
  ∧ on_path w' = on_path w
  ∧ globals w' = globals w
  ∧ commands w' = commands w
  ∧ installed w' = installed w
  ∧ stdout w `prefix_of` stdout w'
  ∧ ∀ q, q ≠ p → files w' !! q = files w !! q.

(** ** The build steps of an install *)

(** The steps that get launched: up to and including the first one that
    fails. *)
Fixpoint launched (ok : command → bool) (steps : list command)
  : list command :=
  match steps with
  | [] => []
  | c :: rest => c :: (if ok c then launched ok rest else [])
  end.

(** The first step that fails, if any. *)
Fixpoint first_failure (ok : command → bool) (steps : list command)
  : option command :=
  match steps with
  | [] => None
  | c :: rest => if ok c then first_failure ok rest else Some c
  end.

(** What an install returns: nothing, or the error of the step that
    failed. *)
Definition install_result (ok : command → bool) (steps : list command)
  : result unit :=
  match first_failure ok steps with
  | None => Ok tt
  | Some c => Raise (ProcessError c)
  end.

(** What an install copies into the prefix: the host-config file, when
    every step has succeeded. *)
Definition install_copy (ok : command → bool) (steps : list command)
  (cfg prefix : string) : list (string * string) :=
  match first_failure ok steps with
  | None => [(cfg, prefix)]
  | Some _ => []
  end.

(** ** A specification with another dependency *)

(** The specification [spec] with the dependency [name] replaced by [d], or
    removed when [d] is [None]; everything else is as in [spec]. *)
Definition with_dep (name : string) (d : option DepSpec) (spec : Spec)
  : Spec :=
  {| holds := holds spec;
     architecture := architecture spec;
     compiler := compiler spec;
     compiler_flags := compiler_flags spec;
     deps := partial_alter (λ _, d) name (deps spec) |}.

(** ** More concrete inputs *)

Module Cases.

(** vtk-h with only the serial flag enabled, an older cmake, and
    preprocessor and C++ flags. *)
Definition vtkh_plain : Spec :=
  {| holds := list_to_set ["+serial"];
     architecture := "cray-cnl7-haswell";
     compiler := "intel@19.0.4";
     compiler_flags :=
       list_to_map [("cppflags", ["-DNDEBUG"; "-I/opt/include"]);
                    ("cflags", []); ("cxxflags", ["-O3"]); ("fflags", [])];
     deps := list_to_map [("cmake", Demo.dep "/opt/cmake" false);
                          ("vtk-m", Demo.dep "/opt/vtk-m" false)] |}.

Definition vtkh_plain_pkg : Package :=
  {| self_spec := vtkh_plain; compiler_fc := None |}.

(** vtk-h with mpi and shared enabled, built with the Cray wrappers. *)
Definition vtkh_cray : Spec :=
  {| holds := list_to_set ["+mpi"; "+shared"];
     architecture := "cray-cnl7-haswell";
     compiler := "intel@19.0.4";
     compiler_flags := Demo.no_flags;
     deps := list_to_map [("cmake", Demo.dep "/opt/cmake" false);
                          ("vtk-m", Demo.dep "/opt/vtk-m" false);
                          ("mpi", Demo.dep "/opt/mpi" false)] |}.

Definition vtkh_cray_pkg : Package :=
  {| self_spec := vtkh_cray; compiler_fc := None |}.

(** A Cray login node: the compilers are the wrappers [cc] and [CC], and
    [SYS_TYPE] is set. *)
Definition cray_world : World :=
  {| environ := list_to_map [("SPACK_CC", "cc"); ("SPACK_CXX", "CC");
                             ("SYS_TYPE", "cray-xc40")];
     hostname := "cori";
     cwd := "/scratch/stage";
     on_path := ∅;
     globals := list_to_map [("std_cmake_args", PList Demo.std_cmake_args)];
     exit_ok := λ _, true;
     can_create := λ _, true;
     files := list_to_map [("/opt/mpi/bin/mpiexec", ["ELF"])];
     buffers := ∅;
     stdout := [];
     commands := [];
     installed := [] |}.

(** ascent with every optional feature enabled. *)
Definition ascent_full : Spec :=
  {| holds := list_to_set ["+shared"; "+mpi"; "+python"; "+doc"; "+vtkh";
                           "+mfem"; "+adios"; "+openmp"];
     architecture := "linux-rhel7-x86_64";
     compiler := "gcc@8.3.1";
     compiler_flags := Demo.no_flags;
     deps := list_to_map [("cmake", Demo.dep "/opt/cmake" false);
                          ("conduit", Demo.dep "/opt/conduit" false);
                          ("python", Demo.dep "/opt/python" false);
                          ("py-sphinx", Demo.dep "/opt/sphinx" false);
                          ("mpi", Demo.dep "/opt/mpi" false);
                          ("vtkm", Demo.dep "/opt/vtkm" false);
                          ("vtkh", Demo.dep "/opt/vtkh" false);
                          ("mfem", Demo.dep "/opt/mfem" false);
                          ("adios", Demo.dep "/opt/adios" false)] |}.

Definition ascent_full_pkg : Package :=
  {| self_spec := ascent_full; compiler_fc := Some "/usr/bin/gfortran" |}.

(** ascent with every flag disabled: only conduit is resolved. *)
Definition ascent_plain : Spec :=
  {| holds := ∅;
     architecture := "linux-rhel7-x86_64";
     compiler := "gcc@8.3.1";
     compiler_flags := Demo.no_flags;
     deps := list_to_map [("conduit", Demo.dep "/opt/conduit" false)] |}.

Definition ascent_plain_pkg : Package :=
  {| self_spec := ascent_plain; compiler_fc := None |}.



(** ascent with the vtkh flag enabled and no dependency resolved. *)
Definition ascent_unresolved : Spec :=
  {| holds := list_to_set ["+vtkh"];
     architecture := "linux-rhel7-x86_64";
     compiler := "gcc@8.3.1";
     compiler_flags := Demo.no_flags;
     deps := ∅ |}.

(** A host where make fails and a host where the configure step fails. *)
Definition with_exit (ok : command → bool) (w : World) : World :=
  {| environ := environ w; hostname := hostname w; cwd := cwd w;
     on_path := on_path w; globals := globals w; exit_ok := ok;
     can_create := can_create w;
     files := files w; buffers := buffers w; stdout := stdout w;
     commands := commands w; installed := installed w |}.

Definition cmake_fails (c : command) : bool :=
  match c with Cmake _ => false | Make _ => true end.

(** The host [w] with the environment [env]. *)
Definition with_environ (env : gmap string string) (w : World) : World :=
  {| environ := env; hostname := hostname w; cwd := cwd w;
     on_path := on_path w; globals := globals w; exit_ok := exit_ok w;
     can_create := can_create w;
     files := files w; buffers := buffers w; stdout := stdout w;
     commands := commands w; installed := installed w |}.

(** Environments that lack a compiler variable. *)
Definition world_no_cc : World := with_environ ∅ Demo.world.

Definition world_no_cxx : World :=
  with_environ (list_to_map [("SPACK_CC", "/usr/bin/gcc")]) Demo.world.

Definition world_no_fc : World :=
  with_environ (list_to_map [("SPACK_CC", "/usr/bin/gcc");
                             ("SPACK_CXX", "/usr/bin/g++")]) Demo.world.

(** A host whose [SYS_TYPE] holds a slash: the name of the host-config file
    then points into a directory [quartz-toss] of the working directory,
    which does not exist, so that nothing can be created there. *)
Definition world_toss : World :=
  {| environ := list_to_map [("SPACK_CC", "/usr/bin/gcc");
                             ("SPACK_CXX", "/usr/bin/g++");
                             ("SYS_TYPE", "toss/3")];
     hostname := "quartz";
     cwd := "/tmp/stage";
     on_path := list_to_map [("cmake", "/usr/bin/cmake")];
     globals := globals Demo.world;
     exit_ok := λ _, true;
     can_create := λ p, negb (startswith "/tmp/stage/quartz-toss/" p);
     files := files Demo.world;
     buffers := ∅;
     stdout := [];
     commands := [];
     installed := [] |}.

(** vtk-h with cmake resolved and vtk-m not. *)
Definition vtkh_no_vtkm : Spec :=
  {| holds := list_to_set ["+serial"];
     architecture := "linux-rhel7-x86_64";
     compiler := "gcc@8.3.1";
     compiler_flags := Demo.no_flags;
     deps := list_to_map [("cmake", Demo.dep "/opt/cmake" true)] |}.

End Cases.

(** * Part III: lemmas and theorems *)

(** ** Strings *)

Lemma append_cons c s t : String c s +:+ t = String c (s +:+ t).
Proof. reflexivity. Qed.

(** ** Reasoning about a run between [open] and [close] *)

Lemma set_buffer_twice h l l' w :
  set_buffer h l (set_buffer h l' w) = set_buffer h l w.
Proof.
  unfold set_buffer, set_buffers; cbn. f_equal. apply insert_insert_eq.
Qed.

Lemma buffers_set_buffer h l w : buffers (set_buffer h l w) !! h = Some l.
Proof. unfold set_buffer; cbn. apply lookup_insert_eq. Qed.

Section logic.
Variable w0 : World.
Variable h : string.

Local Abbreviation sound := (sound w0 h).

Lemma sound_ret {A} (a : A) : sound (io_ret a) True a [].
Proof. intros l0; cbn. by rewrite app_nil_r. Qed.

Lemma sound_write s : sound (cfg_write h s) True tt [s].
Proof.
  intros l0. unfold cfg_write. rewrite buffers_set_buffer.
  by rewrite set_buffer_twice.
Qed.

Lemma sound_bind {A B} (m : IO A) (k : A → IO B) P Q a b L1 L2 :
  sound m P a L1 → (P → sound (k a) Q b L2) →
  sound (io_bind m k) (P ∧ Q) b (L1 ++ L2).
Proof.
  intros Hm Hk l0. unfold io_bind. specialize (Hm l0).
  destruct (m (set_buffer h l0 w0)) as [[a'|e] w1].
  - destruct Hm as (HP & -> & ->). specialize (Hk HP (l0 ++ L1)).
    destruct (k a (set_buffer h (l0 ++ L1) w0)) as [[b'|e] w2].
    + destruct Hk as (HQ & -> & ->). by rewrite app_assoc.
    + tauto.
  - tauto.
Qed.

Lemma sound_if {A} (c : bool) (m1 m2 : IO A) P1 P2 a1 a2 L1 L2 :
  sound m1 P1 a1 L1 → sound m2 P2 a2 L2 →
  sound (if c then m1 else m2) (if c then P1 else P2)
    (if c then a1 else a2) (if c then L1 else L2).
Proof. by destruct c. Qed.

Lemma sound_conseq {A} (m : IO A) P P' a a' L L' :
  sound m P a L → (P ↔ P') → (P → a = a') → (P → L = L') →
  sound m P' a' L'.
Proof.
  intros Hm HP Ha HL l0. specialize (Hm l0).
  destruct (m (set_buffer h l0 w0)) as [[x|e] w1]; [|tauto].
  destruct Hm as (H & -> & ->). rewrite <- (Ha H), <- (HL H). tauto.
Qed.

Lemma sound_isfile p : sound (os_path_isfile p) True (isfile_in w0 p) [].
Proof. intros l0; cbn. by rewrite app_nil_r. Qed.

End logic.

(** The platform tag: [SYS_TYPE] when the environment has it. *)
Lemma env_or_default key dflt w :
  (if bool_decide (is_Some (environ w !! key))
   then env_getitem key else io_ret dflt) w
  = (Ok (default dflt (environ w !! key)), w).
Proof.
  unfold env_getitem, io_ret.
  destruct (environ w !! key) eqn:E; cbn; [|done]. by rewrite E.
Qed.

Lemma sound_spec_getitem w0 h spec name :
  sound w0 h (spec_getitem spec name) (is_Some (deps spec !! name))
    (dep_of spec name) [].
Proof.
  intros l0. unfold spec_getitem, lift, dep_of.
  destruct (deps spec !! name) as [d|]; cbn.
  - rewrite app_nil_r. eauto.
  - by intros [? ?].
Qed.

Lemma sound_flags_getitem w0 h spec name :
  sound w0 h (flags_getitem spec name)
    (is_Some (compiler_flags spec !! name)) (flags_of spec name) [].
Proof.
  intros l0. unfold flags_getitem, lift, flags_of.
  destruct (compiler_flags spec !! name) as [d|]; cbn.
  - rewrite app_nil_r. eauto.
  - by intros [? ?].
Qed.

(** One step of a derivation of [sound], by the shape of the program. *)
Ltac sound_step :=
  cbv beta zeta;
  lazymatch goal with
  | |- sound _ _ (io_bind _ _) _ _ _ => eapply sound_bind; [|intros ?]
  | |- sound _ _ (cfg_write _ _) _ _ _ => apply sound_write
  | |- sound _ _ (io_ret _) _ _ _ => apply sound_ret
  | |- sound _ _ (spec_getitem _ _) _ _ _ => apply sound_spec_getitem
  | |- sound _ _ (flags_getitem _ _) _ _ _ => apply sound_flags_getitem
  | |- sound _ _ (os_path_isfile _) _ _ _ => apply sound_isfile
  | |- sound _ _ (if _ then _ else _) _ _ _ => eapply sound_if
  end.

(** A block of the emitter against the chunks it is said to write. *)
Ltac sound_block :=
  eapply sound_conseq; [repeat sound_step | ..].

Ltac split_ifs :=
  repeat match goal with
    | |- context [if ?c then _ else _] => destruct c
    end.

(** ** The vtk-h emitter writes [VtkHOut.chunks] *)

Module VtkHFacts.
Import VtkHOut.

Section chunks.
Variable self : Package.
Variable spec : Spec.
Variable w0 : World.
Variable cfg : string.

Local Abbreviation banner := (VtkHOut.banner spec).
Local Abbreviation compilers := (VtkHOut.compilers spec).
Local Abbreviation shared := (VtkHOut.shared spec).
Local Abbreviation cppflags := (VtkHOut.cppflags spec).
Local Abbreviation cflags := (VtkHOut.cflags spec).
Local Abbreviation cxxflags := (VtkHOut.cxxflags spec).
Local Abbreviation fflags := (VtkHOut.fflags spec).
Local Abbreviation flags := (VtkHOut.flags spec).
Local Abbreviation flags_pre := (VtkHOut.flags_pre spec).
Local Abbreviation options := (VtkHOut.options spec).
Local Abbreviation openmp := (VtkHOut.openmp spec).
Local Abbreviation vtkm := (VtkHOut.vtkm spec).
Local Abbreviation serial := (VtkHOut.serial spec).
Local Abbreviation logging := (VtkHOut.logging spec).
Local Abbreviation mpiexe_bin := (VtkHOut.mpiexe_bin spec).
Local Abbreviation mpiexec := (VtkHOut.mpiexec self spec w0).
Local Abbreviation mpi := (VtkHOut.mpi self spec w0).
Local Abbreviation mpi_pre := (VtkHOut.mpi_pre self spec w0).
Local Abbreviation cuda := (VtkHOut.cuda spec).
Local Abbreviation body := (VtkHOut.body self spec w0).
Local Abbreviation body_pre := (VtkHOut.body_pre self spec w0).

Lemma vtkh_write_banner_sound sys_type cmake_exe :
  sound w0 cfg (VtkH.write_banner spec cfg sys_type cmake_exe) True tt
    (banner sys_type cmake_exe).
Proof. unfold VtkH.write_banner. sound_block; [tauto|done..]. Qed.

Lemma vtkh_write_compilers_sound cc cxx :
  sound w0 cfg (VtkH.write_compilers spec cfg cc cxx) True tt
    (compilers cc cxx).
Proof. unfold VtkH.write_compilers. sound_block; [tauto|done..]. Qed.

Lemma vtkh_write_shared_sound :
  sound w0 cfg (VtkH.write_shared spec cfg) True tt shared.
Proof.
  unfold VtkH.write_shared, shared. sound_block.
  - split_ifs; tauto.
  - intros _. by split_ifs.
  - intros _. by split_ifs.
Qed.

Lemma vtkh_write_flags_sound :
  sound w0 cfg (VtkH.write_flags spec cfg) flags_pre tt flags.
Proof.
  unfold VtkH.write_flags. sound_block.
  - unfold flags_pre. split_ifs; tauto.
  - intros _. by split_ifs.
  - intros _. reflexivity.
Qed.

Lemma vtkh_write_options_sound :
  sound w0 cfg (VtkH.write_options spec cfg) True tt options.
Proof.
  unfold VtkH.write_options, options. sound_block.
  - split_ifs; tauto.
  - intros _. by split_ifs.
  - intros _. by split_ifs.
Qed.

Lemma vtkh_write_openmp_sound :
  sound w0 cfg (VtkH.write_openmp spec cfg) True tt openmp.
Proof.
  unfold VtkH.write_openmp, openmp. sound_block.
  - split_ifs; tauto.
  - intros _. by split_ifs.
  - intros _. by split_ifs.
Qed.

Lemma vtkh_write_vtkm_sound :
  sound w0 cfg (VtkH.write_vtkm spec cfg) (is_Some (deps spec !! "vtk-m"))
    tt vtkm.
Proof. unfold VtkH.write_vtkm. sound_block; [tauto|done..]. Qed.

Lemma vtkh_write_serial_sound :
  sound w0 cfg (VtkH.write_serial spec cfg) True tt serial.
Proof.
  unfold VtkH.write_serial, serial. sound_block.
  - split_ifs; tauto.
  - intros _. by split_ifs.
  - intros _. by split_ifs.
Qed.

Lemma vtkh_write_logging_sound :
  sound w0 cfg (VtkH.write_logging spec cfg) True tt logging.
Proof.
  unfold VtkH.write_logging, logging. sound_block.
  - split_ifs; tauto.
  - intros _. by split_ifs.
  - intros _. by split_ifs.
Qed.

Lemma vtkh_write_mpi_sound cxx :
  sound w0 cfg (VtkH.write_mpi self spec cfg cxx) mpi_pre tt (mpi cxx).
Proof.
  unfold VtkH.write_mpi. sound_block.
  - unfold mpi_pre, mpiexe_bin.
    destruct (spec_contains spec "+mpi");
      destruct (isfile_in w0 _); split_ifs; intuition congruence.
  - intros _. by split_ifs.
  - intros _. unfold mpi, mpiexec, mpiexe_bin, wrapper.
    destruct (spec_contains spec "+mpi"); [|done].
    destruct (isfile_in w0 _); [|done]. by split_ifs.
Qed.

Lemma vtkh_write_cuda_sound cxx :
  sound w0 cfg (VtkH.write_cuda spec cfg cxx) True tt (cuda cxx).
Proof.
  unfold VtkH.write_cuda, cuda. sound_block.
  - split_ifs; tauto.
  - intros _. by split_ifs.
  - intros _. by split_ifs.
Qed.

Lemma vtkh_write_footer_sound :
  sound w0 cfg (VtkH.write_footer cfg) True tt footer.
Proof. unfold VtkH.write_footer. sound_block; [tauto|done..]. Qed.

Lemma vtkh_write_all_sound cc cxx sys_type cmake_exe :
  sound w0 cfg (VtkH.write_all self spec cfg cc cxx sys_type cmake_exe)
    body_pre tt (body cc cxx sys_type cmake_exe).
Proof.
  unfold VtkH.write_all.
  eapply sound_conseq.
  - eapply sound_bind; [apply vtkh_write_banner_sound | intros _].
    eapply sound_bind; [apply vtkh_write_compilers_sound | intros _].
    eapply sound_bind; [apply vtkh_write_shared_sound | intros _].
    eapply sound_bind; [apply vtkh_write_flags_sound | intros _].
    eapply sound_bind; [apply vtkh_write_options_sound | intros _].
    eapply sound_bind; [apply vtkh_write_openmp_sound | intros _].
    eapply sound_bind; [apply vtkh_write_vtkm_sound | intros _].
    eapply sound_bind; [apply vtkh_write_serial_sound | intros _].
    eapply sound_bind; [apply vtkh_write_logging_sound | intros _].
    eapply sound_bind; [apply vtkh_write_mpi_sound | intros _].
    eapply sound_bind; [apply vtkh_write_cuda_sound | intros _].
    apply vtkh_write_footer_sound.
  - unfold body_pre. tauto.
  - done.
  - intros _. reflexivity.
Qed.

End chunks.

Section run.
Variable self : Package.
Variable spec : Spec.
Variable prefix : string.
Variable w : World.

Local Abbreviation sys_type := (VtkHOut.sys_type spec w).
Local Abbreviation c_compiler := (VtkHOut.c_compiler w).
Local Abbreviation cpp_compiler := (VtkHOut.cpp_compiler w).
Local Abbreviation cmake_exe := (VtkHOut.cmake_exe spec).
Local Abbreviation fname := (VtkHOut.fname spec w).
Local Abbreviation path := (VtkHOut.path spec w).
Local Abbreviation opened := (VtkHOut.opened spec w).
Local Abbreviation chunks := (VtkHOut.chunks self spec w).
Local Abbreviation pre := (VtkHOut.pre self spec w).
Local Abbreviation final := (VtkHOut.final self spec w).

Lemma vtkh_create_host_config_run :
  match VtkH.create_host_config self spec prefix w with
  | (Ok p, w') => pre ∧ p = path ∧ w' = final
  | (Raise _, _) => ¬ pre
  end.
Proof.
  unfold VtkH.create_host_config.
  unfold io_bind at 1. unfold env_getitem at 1.
  destruct (environ w !! "SPACK_CC") as [cc|] eqn:Hcc.
  2:{ unfold pre. rewrite Hcc. intros ([? ?] & _). discriminate. }
  unfold io_bind at 1. unfold env_getitem at 1.
  destruct (environ w !! "SPACK_CXX") as [cxx|] eqn:Hcxx.
  2:{ unfold pre. rewrite Hcxx. intros (_ & [? ?] & _). discriminate. }
  unfold io_bind at 1. unfold env_contains at 1.
  unfold io_bind at 1. rewrite env_or_default.
  unfold io_bind at 1. unfold spec_getitem at 1, lift.
  destruct (deps spec !! "cmake") as [cm|] eqn:Hcm.
  2:{ unfold pre. rewrite Hcm. intros (_ & _ & [? ?] & _). discriminate. }
  unfold io_bind at 1. unfold socket_gethostname at 1.
  unfold io_bind at 1. unfold open_w at 1.
  fold sys_type. fold fname. fold path.
  destruct (can_create w path) eqn:Hopen.
  2:{ unfold pre. rewrite Hopen. intros (_ & _ & _ & ? & _). discriminate. }
  fold opened.
  unfold io_bind at 1.
  pose proof (vtkh_write_all_sound self spec opened path cc cxx sys_type
                (command_path cm) []) as Hrun.
  destruct (VtkH.write_all _ _ _ _ _ _ _ _) as [[[]|e] w1].
  2:{ unfold pre. tauto. }
  destruct Hrun as (Hpre & _ & ->).
  unfold io_bind at 1. unfold cfg_close at 1.
  rewrite buffers_set_buffer.
  unfold io_bind, os_path_abspath, tty_info, io_ret.
  assert (Hch : body self spec opened cc cxx sys_type (command_path cm)
                = chunks).
  { unfold chunks, c_compiler, cpp_compiler, cmake_exe, dep_of.
    by rewrite Hcc, Hcxx, Hcm. }
  split; [|split].
  - unfold pre. rewrite Hcc, Hcxx, Hcm, Hopen. eauto 10.
  - reflexivity.
  - rewrite app_nil_l, Hch.
    unfold final, opened, set_buffer, set_stdout, set_buffers, set_files.
    cbn [environ hostname cwd on_path globals exit_ok files buffers stdout
           commands installed].
    by rewrite insert_insert_eq, delete_insert_eq.
Qed.

(** A run that returns has written exactly [chunks] at [path]. *)
Lemma vtkh_generates_inv p l :
  generates (VtkH.create_host_config self spec prefix) w p l →
  pre ∧ p = path ∧ l = chunks.
Proof.
  intros (w' & Hrun & Hfile). pose proof vtkh_create_host_config_run as H.
  rewrite Hrun in H. destruct H as (Hpre & -> & ->).
  unfold final in Hfile; cbn in Hfile.
  rewrite lookup_insert_eq in Hfile. by injection Hfile as <-.
Qed.

(** With what it needs, the run returns. *)
Lemma vtkh_generates_total :
  pre → generates (VtkH.create_host_config self spec prefix) w path chunks.
Proof.
  intros Hpre. pose proof vtkh_create_host_config_run as H.
  destruct (VtkH.create_host_config self spec prefix w) as [[p|e] w']
    eqn:E; [|tauto].
  destruct H as (_ & -> & ->). exists final. split; [exact E|].
  unfold final; cbn. apply lookup_insert_eq.
Qed.

End run.

End VtkHFacts.

(** ** The ascent emitter writes [AscentOut.chunks] *)

Module AscentFacts.
Import AscentOut.

Section chunks.
Variable self : Package.
Variable spec : Spec.
Variable w0 : World.
Variable cfg : string.

Local Abbreviation banner := (AscentOut.banner spec).
Local Abbreviation compilers := (AscentOut.compilers spec).
Local Abbreviation shared := (AscentOut.shared spec).
Local Abbreviation conduit := (AscentOut.conduit spec).
Local Abbreviation python := (AscentOut.python spec).
Local Abbreviation with_docs := (AscentOut.with_docs spec).
Local Abbreviation docs := (AscentOut.docs spec).
Local Abbreviation mpiexe_bin := (AscentOut.mpiexe_bin spec).
Local Abbreviation mpiexec := (AscentOut.mpiexec self spec w0).
Local Abbreviation mpi := (AscentOut.mpi self spec w0).
Local Abbreviation mpi_pre := (AscentOut.mpi_pre self spec w0).
Local Abbreviation cuda_openmp := (AscentOut.cuda_openmp spec).
Local Abbreviation vtkh := (AscentOut.vtkh spec).
Local Abbreviation mfem := (AscentOut.mfem spec).
Local Abbreviation adios := (AscentOut.adios spec).
Local Abbreviation before := (AscentOut.before spec).
Local Abbreviation after := (AscentOut.after self spec w0).
Local Abbreviation body := (AscentOut.body self spec w0).
Local Abbreviation needs := (AscentOut.needs spec).
Local Abbreviation body_pre := (AscentOut.body_pre self spec w0).

Lemma ascent_write_banner_sound sys_type cmake_exe :
  sound w0 cfg (Ascent.write_banner spec cfg sys_type cmake_exe) True tt
    (banner sys_type cmake_exe).
Proof. unfold Ascent.write_banner. sound_block; [tauto|done..]. Qed.

Lemma ascent_write_compilers_sound cc cxx :
  sound w0 cfg (Ascent.write_compilers spec cfg cc cxx) True tt
    (compilers cc cxx).
Proof. unfold Ascent.write_compilers. sound_block; [tauto|done..]. Qed.

Lemma ascent_write_fortran_sound f :
  sound w0 cfg (Ascent.write_fortran cfg f) True tt (fortran f).
Proof.
  unfold Ascent.write_fortran, fortran.
  destruct f; (sound_block; [tauto|done..]).
Qed.

Lemma ascent_write_shared_sound :
  sound w0 cfg (Ascent.write_shared spec cfg) True tt shared.
Proof.
  unfold Ascent.write_shared, shared. sound_block.
  - split_ifs; tauto.
  - intros _. by split_ifs.
  - intros _. by split_ifs.
Qed.

Lemma ascent_write_conduit_sound :
  sound w0 cfg (Ascent.write_conduit spec cfg)
    (is_Some (deps spec !! "conduit")) tt conduit.
Proof. unfold Ascent.write_conduit. sound_block; [tauto|done..]. Qed.

Lemma ascent_write_python_sound py :
  sound w0 cfg (Ascent.write_python spec cfg py)
    (needs (spec_contains spec "+python") "python") tt (python py).
Proof.
  unfold Ascent.write_python, python, site_packages, needs.
  destruct py as [dir|]; sound_block.
  - split_ifs; intuition congruence.
  - intros _. by split_ifs.
  - intros _. by split_ifs.
  - split_ifs; intuition congruence.
  - intros _. by split_ifs.
  - intros _. by split_ifs.
Qed.

Lemma ascent_write_docs_sound :
  sound w0 cfg (Ascent.write_docs spec cfg) (needs with_docs "py-sphinx")
    tt docs.
Proof.
  unfold Ascent.write_docs, docs, needs, with_docs. sound_block.
  - split_ifs; intuition congruence.
  - intros _. by split_ifs.
  - intros _. by split_ifs.
Qed.

Lemma ascent_write_mpi_sound :
  sound w0 cfg (Ascent.write_mpi self spec cfg) mpi_pre tt mpi.
Proof.
  unfold Ascent.write_mpi. sound_block.
  - unfold mpi_pre, mpiexe_bin.
    destruct (spec_contains spec "+mpi");
      destruct (isfile_in w0 _); split_ifs; intuition congruence.
  - intros _. by split_ifs.
  - intros _. unfold mpi, mpiexec, mpiexe_bin.
    destruct (spec_contains spec "+mpi"); [|done].
    destruct (isfile_in w0 _); [|done]. by split_ifs.
Qed.

Lemma ascent_write_cuda_openmp_sound :
  sound w0 cfg (Ascent.write_cuda_openmp spec cfg) True tt cuda_openmp.
Proof.
  unfold Ascent.write_cuda_openmp, cuda_openmp. sound_block.
  - split_ifs; tauto.
  - intros _. by split_ifs.
  - intros _. by split_ifs.
Qed.

Lemma ascent_write_vtkh_sound :
  sound w0 cfg (Ascent.write_vtkh spec cfg)
    (needs (spec_contains spec "+vtkh") "vtkm"
     ∧ needs (spec_contains spec "+vtkh") "vtkh") tt vtkh.
Proof.
  unfold Ascent.write_vtkh, vtkh, needs. sound_block.
  - split_ifs; intuition congruence.
  - intros _. by split_ifs.
  - intros _. by split_ifs.
Qed.

Lemma ascent_write_mfem_sound :
  sound w0 cfg (Ascent.write_mfem spec cfg)
    (needs (spec_contains spec "+mfem") "mfem") tt mfem.
Proof.
  unfold Ascent.write_mfem, mfem, needs. sound_block.
  - split_ifs; intuition congruence.
  - intros _. by split_ifs.
  - intros _. by split_ifs.
Qed.

Lemma ascent_write_adios_sound :
  sound w0 cfg (Ascent.write_adios spec cfg)
    (needs (spec_contains spec "+adios") "adios") tt adios.
Proof.
  unfold Ascent.write_adios, adios, needs. sound_block.
  - split_ifs; intuition congruence.
  - intros _. by split_ifs.
  - intros _. by split_ifs.
Qed.

Lemma ascent_write_footer_sound :
  sound w0 cfg (Ascent.write_footer cfg) True tt footer.
Proof. unfold Ascent.write_footer. sound_block; [tauto|done..]. Qed.

Lemma ascent_write_all_sound cc cxx f sys_type cmake_exe py :
  sound w0 cfg
    (Ascent.write_all self spec cfg cc cxx f sys_type cmake_exe py)
    body_pre tt (body cc cxx f sys_type cmake_exe py).
Proof.
  unfold Ascent.write_all.
  eapply sound_conseq.
  - eapply sound_bind; [apply ascent_write_banner_sound | intros _].
    eapply sound_bind; [apply ascent_write_compilers_sound | intros _].
    eapply sound_bind; [apply ascent_write_fortran_sound | intros _].
    eapply sound_bind; [apply ascent_write_shared_sound | intros _].
    eapply sound_bind; [apply ascent_write_conduit_sound | intros _].
    eapply sound_bind; [apply ascent_write_python_sound | intros _].
    eapply sound_bind; [apply ascent_write_docs_sound | intros _].
    eapply sound_bind; [apply ascent_write_mpi_sound | intros _].
    eapply sound_bind; [apply ascent_write_cuda_openmp_sound | intros _].
    eapply sound_bind; [apply ascent_write_vtkh_sound | intros _].
    eapply sound_bind; [apply ascent_write_mfem_sound | intros _].
    eapply sound_bind; [apply ascent_write_adios_sound | intros _].
    apply ascent_write_footer_sound.
  - unfold body_pre. tauto.
  - done.
  - intros _. unfold body, before, after. by rewrite <- !app_assoc.
Qed.

End chunks.

Section run.
Variable self : Package.
Variable spec : Spec.
Variable prefix : string.
Variable py_site_pkgs_dir : option string.
Variable w : World.

Local Abbreviation sys_type := (AscentOut.sys_type spec w).
Local Abbreviation c_compiler := (AscentOut.c_compiler w).
Local Abbreviation cpp_compiler := (AscentOut.cpp_compiler w).
Local Abbreviation f_compiler := (AscentOut.f_compiler self w).
Local Abbreviation fortran_pre := (AscentOut.fortran_pre self w).
Local Abbreviation cmake_exe := (AscentOut.cmake_exe spec w).
Local Abbreviation cmake_pre := (AscentOut.cmake_pre spec w).
Local Abbreviation fname := (AscentOut.fname spec w).
Local Abbreviation path := (AscentOut.path spec w).
Local Abbreviation opened := (AscentOut.opened spec w).
Local Abbreviation chunks := (AscentOut.chunks self spec py_site_pkgs_dir w).
Local Abbreviation pre := (AscentOut.pre self spec w).
Local Abbreviation final := (AscentOut.final self spec py_site_pkgs_dir w).

Lemma ascent_find_f_compiler_run :
  match Ascent.find_f_compiler self w with
  | (Ok f, w') => fortran_pre ∧ f = f_compiler ∧ w' = w
  | (Raise _, w') => ¬ fortran_pre ∧ w' = w
  end.
Proof.
  unfold Ascent.find_f_compiler, fortran_pre, f_compiler.
  destruct (opt_truthy (compiler_fc self)); [|by cbn].
  unfold io_bind, env_getitem, os_path_isfile, io_ret.
  destruct (environ w !! "SPACK_FC") as [p|] eqn:E.
  - destruct (isfile_in w p); [rewrite E|]; eauto.
  - split; [|done]. intros H. by destruct (H eq_refl).
Qed.

Lemma ascent_find_cmake_run :
  match Ascent.find_cmake spec w with
  | (Ok exe, w') => cmake_pre ∧ exe = cmake_exe ∧ w' = w
  | (Raise _, w') => ¬ cmake_pre ∧ w' = w
  end.
Proof.
  unfold Ascent.find_cmake, cmake_pre, cmake_exe, dep_of.
  destruct (spec_contains spec "+cmake").
  - unfold io_bind, spec_getitem, lift, io_ret.
    destruct (deps spec !! "cmake"); cbn; [eauto|].
    split; [|done]. by intros [? ?].
  - unfold io_bind, which, raise, io_ret.
    destruct (on_path w !! "cmake"); cbn; [eauto|].
    split; [|done]. by intros [? ?].
Qed.

Lemma ascent_create_host_config_run :
  match Ascent.create_host_config self spec prefix py_site_pkgs_dir w with
  | (Ok p, w') => pre ∧ p = path ∧ w' = final
  | (Raise _, _) => ¬ pre
  end.
Proof.
  unfold Ascent.create_host_config.
  unfold io_bind at 1. unfold env_getitem at 1.
  destruct (environ w !! "SPACK_CC") as [cc|] eqn:Hcc.
  2:{ unfold pre. rewrite Hcc. intros ([? ?] & _). discriminate. }
  unfold io_bind at 1. unfold env_getitem at 1.
  destruct (environ w !! "SPACK_CXX") as [cxx|] eqn:Hcxx.
  2:{ unfold pre. rewrite Hcxx. intros (_ & [? ?] & _). discriminate. }
  unfold io_bind at 1.
  pose proof ascent_find_f_compiler_run as Hf.
  destruct (Ascent.find_f_compiler self w) as [[f|e] w1].
  2:{ unfold pre. tauto. }
  destruct Hf as (Hfpre & -> & ->).
  unfold io_bind at 1. unfold env_contains at 1.
  unfold io_bind at 1. rewrite env_or_default.
  unfold io_bind at 1.
  pose proof ascent_find_cmake_run as Hc.
  destruct (Ascent.find_cmake spec w) as [[exe|e] w1].
  2:{ unfold pre. tauto. }
  destruct Hc as (Hcpre & -> & ->).
  unfold io_bind at 1. unfold socket_gethostname at 1.
  unfold io_bind at 1. unfold open_w at 1.
  fold sys_type. fold fname. fold path.
  destruct (can_create w path) eqn:Hopen.
  2:{ unfold pre. rewrite Hopen. intros (_ & _ & _ & _ & ? & _). discriminate. }
  fold opened.
  unfold io_bind at 1.
  pose proof (ascent_write_all_sound self spec opened path cc cxx f_compiler
                sys_type cmake_exe py_site_pkgs_dir []) as Hrun.
  destruct (Ascent.write_all _ _ _ _ _ _ _ _ _ _) as [[[]|e] w1].
  2:{ unfold pre. tauto. }
  destruct Hrun as (Hpre & _ & ->).
  unfold io_bind at 1. unfold cfg_close at 1.
  rewrite buffers_set_buffer.
  unfold io_bind, os_path_abspath, tty_info, io_ret.
  assert (Hch : body self spec opened cc cxx f_compiler sys_type cmake_exe
                  py_site_pkgs_dir = chunks).
  { unfold chunks, c_compiler, cpp_compiler. by rewrite Hcc, Hcxx. }
  split; [|split].
  - unfold pre. rewrite Hcc, Hcxx, Hopen. eauto 10.
  - reflexivity.
  - rewrite app_nil_l, Hch.
    unfold final, opened, set_buffer, set_stdout, set_buffers, set_files.
    cbn [environ hostname cwd on_path globals exit_ok files buffers stdout
           commands installed].
    by rewrite insert_insert_eq, delete_insert_eq.
Qed.

(** A run that returns has written exactly [chunks] at [path]. *)
Lemma ascent_generates_inv p l :
  generates
    (Ascent.create_host_config self spec prefix py_site_pkgs_dir) w p l →
  pre ∧ p = path ∧ l = chunks.
Proof.
  intros (w' & Hrun & Hfile). pose proof ascent_create_host_config_run as H.
  rewrite Hrun in H. destruct H as (Hpre & -> & ->).
  unfold final in Hfile; cbn in Hfile.
  rewrite lookup_insert_eq in Hfile. by injection Hfile as <-.
Qed.

(** With what it needs, the run returns. *)
Lemma ascent_generates_total :
  pre →
  generates
    (Ascent.create_host_config self spec prefix py_site_pkgs_dir) w path
    chunks.
Proof.
  intros Hpre. pose proof ascent_create_host_config_run as H.
  destruct (Ascent.create_host_config self spec prefix py_site_pkgs_dir w)
    as [[p|e] w'] eqn:E; [|tauto].
  destruct H as (_ & -> & ->). exists final. split; [exact E|].
  unfold final; cbn. apply lookup_insert_eq.
Qed.

End run.

End AscentFacts.

Module DemoFacts.
Import Demo.

Ltac by_lookup := vm_compute; eauto.

Ltac solve_pre :=
  repeat match goal with
    | |- _ ∧ _ => split
    | |- _ → _ =>
        let H := fresh in
        intros H; try (vm_compute in H; discriminate H)
    end;
  by_lookup.

Lemma vtkh_pre : VtkHOut.pre vtkh_pkg vtkh_spec world.
Proof.
  unfold VtkHOut.pre, VtkHOut.body_pre, VtkHOut.flags_pre, VtkHOut.mpi_pre.
  solve_pre.
Qed.

Lemma ascent_pre w :
  w = world ∨ w = world_no_fortran →
  AscentOut.pre ascent_pkg ascent_spec w.
Proof.
  intros [-> | ->];
    unfold AscentOut.pre, AscentOut.body_pre, AscentOut.fortran_pre,
      AscentOut.cmake_pre, AscentOut.mpi_pre, AscentOut.needs;
    solve_pre.
Qed.

End DemoFacts.

(** ** Properties of the generated file *)

Lemma entries_named_app name l1 l2 :
  entries_named name (l1 ++ l2)
  = entries_named name l1 ++ entries_named name l2.
Proof. apply List.filter_app. Qed.

(** Unfold the chunks of a vtk-h file down to the list of writes. *)
Ltac vtkh_chunks :=
  unfold VtkHOut.chunks, VtkHOut.body, VtkHOut.banner, VtkHOut.compilers,
    VtkHOut.shared, VtkHOut.flags, VtkHOut.options, VtkHOut.openmp,
    VtkHOut.vtkm, VtkHOut.serial, VtkHOut.logging, VtkHOut.mpi,
    VtkHOut.mpiexec, VtkHOut.cuda, VtkHOut.footer.

(** Unfold the chunks of an ascent file down to the list of writes. *)
Ltac ascent_chunks :=
  unfold AscentOut.chunks, AscentOut.body, AscentOut.before,
    AscentOut.after, AscentOut.banner, AscentOut.compilers,
    AscentOut.fortran, AscentOut.shared, AscentOut.conduit,
    AscentOut.python, AscentOut.site_packages, AscentOut.docs,
    AscentOut.mpi, AscentOut.mpiexec, AscentOut.cuda_openmp, AscentOut.vtkh,
    AscentOut.mfem, AscentOut.adios, AscentOut.footer.

(** Decide which chunks are entries for a name, branch by branch. *)
Ltac eval_entries :=
  unfold entries_named;
  repeat match goal with
    | |- context [if ?c then _ else _] => destruct c
    | |- context [match ?o with Some _ => _ | None => _ end] => destruct o
    end;
  reflexivity.

(** The entries for a name are as many as the occurrences of the name among
    the variables the file sets. *)
Lemma entries_named_length name l :
  length (entries_named name l)
  = length (List.filter (λ n, String.eqb n name) (entry_names l)).
Proof.
  unfold entries_named, entry_names, is_entry_of.
  induction l as [|c l IH]; [done|]. cbn.
  destruct (entry_name c) as [n|]; cbn; [|done].
  destruct (String.eqb n name); cbn; by rewrite IH.
Qed.

Lemma until_space_name n rest :
  no_space n = true → until_space (n +:+ " " +:+ rest) = n.
Proof.
  induction n as [|c n IH]; [done|]. cbn [no_space].
  intros [Hc Hn]%andb_true_iff. rewrite append_cons. cbn [until_space].
  destruct (Ascii.eqb c " "); [done|]. by rewrite IH.
Qed.

Lemma entry_name_set rest :
  entry_name ("set(" +:+ rest) = Some (until_space rest).
Proof. reflexivity. Qed.

(** A cache entry is read back as an entry for its variable. *)
Lemma entry_name_cache_entry n v t :
  no_space n = true →
  entry_name (VtkH.cmake_cache_entry n v t) = Some n
  ∧ entry_name (Ascent.cmake_cache_entry n v) = Some n.
Proof.
  intros Hn. unfold VtkH.cmake_cache_entry, Ascent.cmake_cache_entry.
  split; by rewrite entry_name_set, until_space_name.
Qed.

(** A comment line is not read as a cache entry. *)
Lemma entry_name_comment c : is_comment c = true → entry_name c = None.
Proof.
  destruct c as [|a c]; [done|]. unfold is_comment. cbn [startswith].
  by destruct (Ascii.eqb_spec "#" a) as [<-|].
Qed.

(** Compute the variables a list of chunks sets. *)
Ltac eval_names :=
  match goal with
  | |- context [entry_names ?l] =>
      let r := eval lazy in (entry_names l) in
      change (entry_names l) with r
  end.

(** Every flag variable is set by the file, for every specification. *)
Lemma vtkh_flags_all_written self spec prefix w p l :
  generates (VtkH.create_host_config self spec prefix) w p l →
  Forall (λ n, n ∈ entry_names l) vtkh_flag_variables.
Proof.
  intros (_ & _ & ->)%VtkHFacts.vtkh_generates_inv.
  vtkh_chunks.
  repeat match goal with
    | |- context [if ?c then _ else _] => destruct c
    end;
    eval_names; compute_done.
Qed.

Lemma ascent_flags_all_written self spec prefix py w p l :
  generates (Ascent.create_host_config self spec prefix py) w p l →
  Forall (λ n, n ∈ entry_names l) ascent_flag_variables.
Proof.
  intros (_ & _ & ->)%AscentFacts.ascent_generates_inv.
  ascent_chunks.
  repeat match goal with
    | |- context [if ?c then _ else _] => destruct c
    | |- context [match ?o with Some _ => _ | None => _ end] => destruct o
    end;
    eval_names; compute_done.
Qed.

(** C4: in the vtk-h recipe the test flag is written inverted.  With the
    test flag enabled the generated file sets ENABLE_TESTS and BUILD_TESTING
    to OFF, with the flag disabled it sets both to ON; each variable is set
    once. *)
Theorem vtkh_test_entries_inverted self spec prefix w p l :
  generates (VtkH.create_host_config self spec prefix) w p l →
  let value := if spec_contains spec "+test" then "OFF" else "ON" in
  entries_named "ENABLE_TESTS" l
  = [VtkH.cmake_cache_entry "ENABLE_TESTS" value None]
  ∧ entries_named "BUILD_TESTING" l
    = [VtkH.cmake_cache_entry "BUILD_TESTING" value None].
Proof.
  intros (_ & _ & ->)%VtkHFacts.vtkh_generates_inv value. subst value.
  split; vtkh_chunks; eval_entries.
Qed.

Lemma vtkh_test_entries_inverted_witness :
  spec_contains Demo.vtkh_spec "+test" = true
  ∧ entries_named "ENABLE_TESTS"
      (VtkHOut.chunks Demo.vtkh_pkg Demo.vtkh_spec Demo.world)
    = [VtkH.cmake_cache_entry "ENABLE_TESTS" "OFF" None]
  ∧ entries_named "BUILD_TESTING"
      (VtkHOut.chunks Demo.vtkh_pkg Demo.vtkh_spec Demo.world)
    = [VtkH.cmake_cache_entry "BUILD_TESTING" "OFF" None].
Proof.
  split; [reflexivity|].
  apply (vtkh_test_entries_inverted Demo.vtkh_pkg Demo.vtkh_spec "/opt/pkg"
           Demo.world (VtkHOut.path Demo.vtkh_spec Demo.world)).
  apply VtkHFacts.vtkh_generates_total, DemoFacts.vtkh_pre.
Defined.

(** C1, vtk-h: the file sets ENABLE_LOGGING twice, both times to the value
    of the logging flag (lines 201-205 and 247-250 of the recipe), so it is
    not true that no cache variable is written more than once. *)
Theorem vtkh_logging_written_twice self spec prefix w p l :
  generates (VtkH.create_host_config self spec prefix) w p l →
  let value := if spec_contains spec "+logging" then "ON" else "OFF" in
  entries_named "ENABLE_LOGGING" l
  = [VtkH.cmake_cache_entry "ENABLE_LOGGING" value None;
     VtkH.cmake_cache_entry "ENABLE_LOGGING" value None].
Proof.
  intros (_ & _ & ->)%VtkHFacts.vtkh_generates_inv value. subst value.
  vtkh_chunks; eval_entries.
Qed.

Lemma vtkh_logging_written_twice_witness :
  length (entries_named "ENABLE_LOGGING"
            (VtkHOut.chunks Demo.vtkh_pkg Demo.vtkh_spec Demo.world)) = 2.
Proof.
  rewrite (vtkh_logging_written_twice Demo.vtkh_pkg Demo.vtkh_spec "/opt/pkg"
             Demo.world (VtkHOut.path Demo.vtkh_spec Demo.world)).
  - reflexivity.
  - apply VtkHFacts.vtkh_generates_total, DemoFacts.vtkh_pre.
Defined.

(** X23: apart from that repetition the vtk-h file sets every variable
    once, whatever the specification. *)
Lemma vtkh_other_entries_once self spec prefix w p l :
  generates (VtkH.create_host_config self spec prefix) w p l →
  NoDup (List.filter (λ n, negb (String.eqb n "ENABLE_LOGGING"))
           (entry_names l)).
Proof.
  intros (_ & _ & ->)%VtkHFacts.vtkh_generates_inv.
  vtkh_chunks.
  repeat match goal with
    | |- context [if ?c then _ else _] => destruct c
    end;
    eval_names; compute_done.
Qed.

(** X24: the ascent file sets every variable at most once, whatever the
    specification. *)
Lemma ascent_entries_once self spec prefix py w p l :
  generates (Ascent.create_host_config self spec prefix py) w p l →
  NoDup (entry_names l).
Proof.
  intros (_ & _ & ->)%AscentFacts.ascent_generates_inv.
  ascent_chunks.
  repeat match goal with
    | |- context [if ?c then _ else _] => destruct c
    | |- context [match ?o with Some _ => _ | None => _ end] => destruct o
    end;
    eval_names; compute_done.
Qed.

(** C2, as stated, fails for ascent: with cuda and shared both enabled the
    ascent file sets BUILD_SHARED_LIBS to ON, not to OFF. *)
Lemma ascent_cuda_keeps_shared_on :
  spec_contains Demo.ascent_spec "+cuda" = true
  ∧ generates
      (Ascent.create_host_config Demo.ascent_pkg Demo.ascent_spec "/opt/pkg"
         None)
      Demo.world
      "/tmp/stage/quartz-linux-rhel7-x86_64-gcc@8.3.1-ascent.cmake"
      (AscentOut.chunks Demo.ascent_pkg Demo.ascent_spec None Demo.world)
  ∧ entries_named "BUILD_SHARED_LIBS"
      (AscentOut.chunks Demo.ascent_pkg Demo.ascent_spec None Demo.world)
    = [Ascent.cmake_cache_entry "BUILD_SHARED_LIBS" "ON"]
  ∧ Ascent.cmake_cache_entry "BUILD_SHARED_LIBS" "ON"
    ≠ Ascent.cmake_cache_entry "BUILD_SHARED_LIBS" "OFF".
Proof.
  split; [reflexivity|]. split; [|split].
  - apply (AscentFacts.ascent_generates_total Demo.ascent_pkg Demo.ascent_spec
             "/opt/pkg" None Demo.world).
    apply DemoFacts.ascent_pre. by left.
  - by vm_compute.
  - by vm_compute.
Qed.

(** C2, amended: with cuda enabled the vtk-h file sets BUILD_SHARED_LIBS to
    OFF whatever the shared flag says; the ascent file sets it to ON when
    the shared flag is enabled and to OFF otherwise, whatever the cuda flag
    says.  Each file sets the variable once. *)
Theorem build_shared_libs_entry self spec prefix py w p l :
  (spec_contains spec "+cuda" = true →
   generates (VtkH.create_host_config self spec prefix) w p l →
   entries_named "BUILD_SHARED_LIBS" l
   = [VtkH.cmake_cache_entry "BUILD_SHARED_LIBS" "OFF" None])
  ∧ (generates (Ascent.create_host_config self spec prefix py) w p l →
     entries_named "BUILD_SHARED_LIBS" l
     = [Ascent.cmake_cache_entry "BUILD_SHARED_LIBS"
          (if spec_contains spec "+shared" then "ON" else "OFF")]).
Proof.
  split.
  - intros Hcuda (_ & _ & ->)%VtkHFacts.vtkh_generates_inv.
    vtkh_chunks. rewrite Hcuda. eval_entries.
  - intros (_ & _ & ->)%AscentFacts.ascent_generates_inv.
    ascent_chunks. eval_entries.
Qed.

Lemma build_shared_libs_entry_witness :
  entries_named "BUILD_SHARED_LIBS"
    (VtkHOut.chunks Demo.vtkh_pkg Demo.vtkh_spec Demo.world)
  = [VtkH.cmake_cache_entry "BUILD_SHARED_LIBS" "OFF" None]
  ∧ spec_contains Demo.vtkh_spec "+shared" = true.
Proof.
  split; [|reflexivity].
  apply (build_shared_libs_entry Demo.vtkh_pkg Demo.vtkh_spec "/opt/pkg" None
           Demo.world (VtkHOut.path Demo.vtkh_spec Demo.world)).
  - reflexivity.
  - apply VtkHFacts.vtkh_generates_total, DemoFacts.vtkh_pre.
Defined.

(** ** The cmake_install methods of babelflow and pmt *)

Lemma global_append_unbound name x w :
  globals w !! name = None →
  global_append name x w = (Raise (NameError name), w).
Proof.
  intros H. unfold global_append, io_bind, load_global. by rewrite H.
Qed.

(** C3: when the module namespace does not bind [cmake_args], calling
    cmake_install of babelflow or of pmt raises NameError for that name,
    for every specification and prefix; the world is left as it was, so no
    make process has been launched. *)
Theorem cmake_install_unbound_name self spec prefix w :
  globals w !! "cmake_args" = None →
  Babelflow.cmake_install self spec prefix w
  = (Raise (NameError "cmake_args"), w)
  ∧ Pmt.cmake_install self spec prefix w
    = (Raise (NameError "cmake_args"), w).
Proof.
  intros H. unfold Babelflow.cmake_install, Pmt.cmake_install.
  unfold io_bind at 1 3.
  destruct (spec_contains spec "+shared");
    by rewrite (global_append_unbound _ _ _ H).
Qed.

Lemma cmake_install_unbound_name_witness :
  Babelflow.cmake_install Demo.vtkh_pkg Demo.vtkh_spec "/opt/pkg" Demo.world
  = (Raise (NameError "cmake_args"), Demo.world)
  ∧ Pmt.cmake_install Demo.vtkh_pkg Demo.vtkh_spec "/opt/pkg" Demo.world
    = (Raise (NameError "cmake_args"), Demo.world).
Proof.
  apply (cmake_install_unbound_name Demo.vtkh_pkg Demo.vtkh_spec "/opt/pkg"
           Demo.world).
  reflexivity.
Defined.

(** Had the name been bound to a list, the method would have gone on to
    launch make: the error is what keeps the build steps from running. *)
Lemma cmake_install_bound_runs_make :
  commands
    (snd (Babelflow.cmake_install Demo.vtkh_pkg Demo.vtkh_spec "/opt/pkg"
            (set_globals (<["cmake_args" := PList []]> (globals Demo.world))
               Demo.world)))
  = [Make []; Make ["install"]].
Proof. by vm_compute. Qed.

(** ** The returned path and the file behind it *)







(** ** Errors of the ascent emitter *)

(** C6: with the cmake variant off and no cmake executable on the search
    path, create_host_config of ascent raises and leaves the world as it
    was, so no host-config file is written.  When the environment has the
    compiler variables the run reads first, the exception is the
    RuntimeError with the message of line 224. *)
Theorem ascent_missing_cmake_raises self spec prefix py w :
  spec_contains spec "+cmake" = false →
  on_path w !! "cmake" = None →
  ∃ e,
    Ascent.create_host_config self spec prefix py w = (Raise e, w)
    ∧ (is_Some (environ w !! "SPACK_CC") →
       is_Some (environ w !! "SPACK_CXX") →
       AscentOut.fortran_pre self w →
       e = RuntimeError "failed to find CMake (and cmake variant is off)").
Proof.
  intros Hvar Hwhich. unfold Ascent.create_host_config.
  unfold io_bind at 1. unfold env_getitem at 1.
  destruct (environ w !! "SPACK_CC") as [cc|].
  2:{ eexists. split; [done|]. by intros [? ?]. }
  unfold io_bind at 1. unfold env_getitem at 1.
  destruct (environ w !! "SPACK_CXX") as [cxx|].
  2:{ eexists. split; [done|]. by intros _ [? ?]. }
  unfold io_bind at 1.
  pose proof (AscentFacts.ascent_find_f_compiler_run self w) as Hf.
  destruct (Ascent.find_f_compiler self w) as [[f|e] w1].
  2:{ destruct Hf as (Hf & ->). eexists. split; [done|]. tauto. }
  destruct Hf as (_ & _ & ->).
  unfold io_bind at 1. unfold env_contains at 1.
  unfold io_bind at 1. rewrite env_or_default.
  unfold io_bind at 1. unfold Ascent.find_cmake. rewrite Hvar.
  unfold io_bind at 1. unfold which at 1. rewrite Hwhich.
  eexists. split; [reflexivity|done].
Qed.

Lemma ascent_missing_cmake_raises_witness :
  Ascent.create_host_config Demo.ascent_pkg Demo.ascent_spec "/opt/pkg" None
    Demo.world_no_cmake
  = (Raise (RuntimeError "failed to find CMake (and cmake variant is off)"),
     Demo.world_no_cmake).
Proof.
  destruct (ascent_missing_cmake_raises Demo.ascent_pkg Demo.ascent_spec
              "/opt/pkg" None Demo.world_no_cmake eq_refl eq_refl)
    as (e & Hrun & He).
  rewrite Hrun. f_equal. f_equal. apply He.
  - DemoFacts.by_lookup.
  - DemoFacts.by_lookup.
  - intros _. DemoFacts.by_lookup.
Defined.

(** ** Runs on the same inputs *)

Lemma isfile_agree skip w w' p :
  agree_except skip w w' → isfile_in w p = isfile_in w' p.
Proof.
  intros (_ & Hcwd & _ & Hfiles & _). unfold isfile_in.
  rewrite Hcwd. apply bool_decide_ext, Hfiles.
Qed.

Lemma isfile_created_agree skip w w' q p :
  agree_except skip w w' →
  isfile_in (set_files (<[q := []]> (files w)) w) p
  = isfile_in (set_files (<[q := []]> (files w')) w') p.
Proof.
  intros (_ & Hcwd & _ & Hfiles & _). unfold isfile_in; cbn.
  rewrite Hcwd. apply bool_decide_ext. rewrite !lookup_insert.
  case_decide; [by split; eauto|apply Hfiles].
Qed.

Lemma vtkh_body_ext self spec w0 w0' cc cxx st ce :
  (∀ p, isfile_in w0 p = isfile_in w0' p) →
  VtkHOut.body self spec w0 cc cxx st ce = VtkHOut.body self spec w0' cc cxx st ce
  ∧ (VtkHOut.body_pre self spec w0 ↔ VtkHOut.body_pre self spec w0').
Proof.
  intros H. unfold VtkHOut.body, VtkHOut.body_pre, VtkHOut.mpi, VtkHOut.mpi_pre, VtkHOut.mpiexec.
  by rewrite H.
Qed.

Lemma vtkh_run_ext self spec w w' :
  agree_except [] w w' →
  VtkHOut.path spec w = VtkHOut.path spec w'
  ∧ VtkHOut.chunks self spec w = VtkHOut.chunks self spec w'
  ∧ (VtkHOut.pre self spec w ↔ VtkHOut.pre self spec w').
Proof.
  intros Hagree.
  pose proof Hagree as (Hhost & Hcwd & Hpath & Hfiles & Hcan & Henv).
  assert (He : ∀ k, environ w !! k = environ w' !! k).
  { intros k. apply Henv, not_elem_of_nil. }
  assert (Hp : VtkHOut.path spec w = VtkHOut.path spec w').
  { unfold VtkHOut.path, VtkHOut.fname, VtkHOut.sys_type.
    by rewrite Hhost, Hcwd, He. }
  destruct (vtkh_body_ext self spec (VtkHOut.opened spec w) (VtkHOut.opened spec w')
     (VtkHOut.c_compiler w') (VtkHOut.cpp_compiler w') (VtkHOut.sys_type spec w')
     (VtkHOut.cmake_exe spec)) as (Hb & Hbp).
  { intros p. unfold VtkHOut.opened. rewrite Hp. by eapply isfile_created_agree. }
  split; [done|]. split.
  - unfold VtkHOut.chunks. rewrite <- Hb.
    unfold VtkHOut.c_compiler, VtkHOut.cpp_compiler, VtkHOut.sys_type.
    by rewrite !He.
  - unfold VtkHOut.pre. by rewrite !He, Hcan, Hp, Hbp.
Qed.

Lemma agree_except_weaken skip w w' :
  agree_except [] w w' → agree_except skip w w'.
Proof.
  intros (? & ? & ? & ? & ? & Henv). repeat split; try done; try apply H2.
  intros k _. apply Henv, not_elem_of_nil.
Qed.

Lemma ascent_after_ext self self' spec w0 w0' py :
  self_spec self = self_spec self' →
  (∀ p, isfile_in w0 p = isfile_in w0' p) →
  AscentOut.after self spec w0 py = AscentOut.after self' spec w0' py
  ∧ (AscentOut.body_pre self spec w0 ↔ AscentOut.body_pre self' spec w0').
Proof.
  intros Hs H.
  unfold AscentOut.after, AscentOut.body_pre, AscentOut.mpi,
    AscentOut.mpi_pre, AscentOut.mpiexec.
  by rewrite H, Hs.
Qed.

Lemma ascent_pre_split self spec w :
  AscentOut.pre self spec w
  ↔ AscentOut.fortran_pre self w ∧ ascent_rest_pre self spec w.
Proof. unfold AscentOut.pre, ascent_rest_pre. tauto. Qed.

Lemma ascent_rest_ext self self' spec py w w' :
  self_spec self = self_spec self' →
  agree_except ["SPACK_FC"] w w' →
  AscentOut.path spec w = AscentOut.path spec w'
  ∧ AscentOut.before spec (AscentOut.c_compiler w) (AscentOut.cpp_compiler w)
      (AscentOut.sys_type spec w) (AscentOut.cmake_exe spec w)
    = AscentOut.before spec (AscentOut.c_compiler w')
        (AscentOut.cpp_compiler w') (AscentOut.sys_type spec w')
        (AscentOut.cmake_exe spec w')
  ∧ AscentOut.after self spec (AscentOut.opened spec w) py
    = AscentOut.after self' spec (AscentOut.opened spec w') py
  ∧ (ascent_rest_pre self spec w ↔ ascent_rest_pre self' spec w').
Proof.
  intros Hs Hagree.
  pose proof Hagree as (Hhost & Hcwd & Hpath & Hfiles & Hcan & Henv).
  assert (Hcc : environ w !! "SPACK_CC" = environ w' !! "SPACK_CC").
  { apply Henv. by intros ?%list_elem_of_singleton. }
  assert (Hcxx : environ w !! "SPACK_CXX" = environ w' !! "SPACK_CXX").
  { apply Henv. by intros ?%list_elem_of_singleton. }
  assert (Hsys : environ w !! "SYS_TYPE" = environ w' !! "SYS_TYPE").
  { apply Henv. by intros ?%list_elem_of_singleton. }
  assert (Hp : AscentOut.path spec w = AscentOut.path spec w').
  { unfold AscentOut.path, AscentOut.fname, AscentOut.sys_type.
    by rewrite Hhost, Hcwd, Hsys. }
  destruct (ascent_after_ext self self' spec (AscentOut.opened spec w)
              (AscentOut.opened spec w') py Hs) as (Ha & Hbp).
  { intros p. unfold AscentOut.opened. rewrite Hp.
    by eapply isfile_created_agree. }
  split; [done|]. split; [|split; [done|]].
  - unfold AscentOut.c_compiler, AscentOut.cpp_compiler, AscentOut.sys_type,
      AscentOut.cmake_exe.
    by rewrite Hcc, Hcxx, Hsys, Hpath.
  - unfold ascent_rest_pre, AscentOut.cmake_pre.
    by rewrite Hcc, Hcxx, Hpath, Hcan, Hp, Hbp.
Qed.

Lemma ascent_run_ext self spec py w w' :
  agree_except [] w w' →
  AscentOut.path spec w = AscentOut.path spec w'
  ∧ AscentOut.chunks self spec py w = AscentOut.chunks self spec py w'
  ∧ (AscentOut.pre self spec w ↔ AscentOut.pre self spec w').
Proof.
  intros Hagree.
  destruct (ascent_rest_ext self self spec py w w' eq_refl
              (agree_except_weaken _ _ _ Hagree)) as (Hp & Hb & Ha & Hpre).
  pose proof Hagree as (_ & _ & _ & _ & _ & Henv).
  assert (Hfc : environ w !! "SPACK_FC" = environ w' !! "SPACK_FC").
  { apply Henv, not_elem_of_nil. }
  assert (Hf : AscentOut.f_compiler self w = AscentOut.f_compiler self w').
  { unfold AscentOut.f_compiler. rewrite Hfc.
    destruct (environ w' !! "SPACK_FC"); [|done].
    by rewrite (isfile_agree _ _ _ _ Hagree). }
  split; [done|]. split.
  - unfold AscentOut.chunks, AscentOut.body. by rewrite Hb, Ha, Hf.
  - rewrite !ascent_pre_split, Hpre. unfold AscentOut.fortran_pre.
    by rewrite Hfc.
Qed.

Lemma generates_functional m w p l p' l' :
  generates m w p l → generates m w p' l' → p' = p ∧ l' = l.
Proof.
  intros (w1 & H1 & Hf1) (w2 & H2 & Hf2).
  rewrite H1 in H2. injection H2 as <- <-.
  rewrite Hf1 in Hf2. by injection Hf2 as <-.
Qed.

(** C10: create_host_config of vtk-h and of ascent is a function of its
    inputs.  Two runs for the same specification in worlds with the same
    environment, host name, working directory, search path and set of
    existing files, in which files can be created at the same places,
    return the same path and write the same chunks, hence
    byte-identical files, whatever the files held before (an earlier
    host-config file included) and whatever else differs between the two
    worlds. *)
Theorem host_config_deterministic self spec prefix py w1 w2 p l :
  agree_except [] w1 w2 →
  (generates (VtkH.create_host_config self spec prefix) w1 p l →
   generates (VtkH.create_host_config self spec prefix) w2 p l
   ∧ ∀ p' l', generates (VtkH.create_host_config self spec prefix) w2 p' l' →
              p' = p ∧ file_bytes l' = file_bytes l)
  ∧ (generates (Ascent.create_host_config self spec prefix py) w1 p l →
     generates (Ascent.create_host_config self spec prefix py) w2 p l
     ∧ ∀ p' l',
         generates (Ascent.create_host_config self spec prefix py) w2 p' l' →
         p' = p ∧ file_bytes l' = file_bytes l).
Proof.
  intros Hagree. split.
  - intros (Hpre & -> & ->)%VtkHFacts.vtkh_generates_inv.
    destruct (vtkh_run_ext self spec w1 w2 Hagree) as (-> & -> & Hiff).
    assert (Hgen : generates (VtkH.create_host_config self spec prefix) w2
                     (VtkHOut.path spec w2) (VtkHOut.chunks self spec w2)).
    { apply VtkHFacts.vtkh_generates_total. tauto. }
    split; [done|]. intros p' l' H.
    by destruct (generates_functional _ _ _ _ _ _ Hgen H) as (-> & ->).
  - intros (Hpre & -> & ->)%AscentFacts.ascent_generates_inv.
    destruct (ascent_run_ext self spec py w1 w2 Hagree) as (-> & -> & Hiff).
    assert (Hgen : generates
                     (Ascent.create_host_config self spec prefix py) w2
                     (AscentOut.path spec w2)
                     (AscentOut.chunks self spec py w2)).
    { apply AscentFacts.ascent_generates_total. tauto. }
    split; [done|]. intros p' l' H.
    by destruct (generates_functional _ _ _ _ _ _ Hgen H) as (-> & ->).
Qed.

Lemma stale_worlds_agree l1 o1 l2 o2 :
  agree_except [] (Demo.stale_world l1 o1) (Demo.stale_world l2 o2).
Proof.
  repeat split; try done; cbn; rewrite !lookup_insert; case_decide; eauto.
Qed.

Lemma stale_world_pre l o :
  VtkHOut.pre Demo.vtkh_pkg Demo.vtkh_spec (Demo.stale_world l o).
Proof.
  unfold VtkHOut.pre, VtkHOut.body_pre, VtkHOut.flags_pre, VtkHOut.mpi_pre.
  DemoFacts.solve_pre.
Qed.

Lemma host_config_deterministic_witness :
  generates
    (VtkH.create_host_config Demo.vtkh_pkg Demo.vtkh_spec "/opt/pkg")
    (Demo.stale_world [] ["make: done"])
    "/tmp/stage/quartz-linux-rhel7-x86_64-gcc@8.3.1-vtkh.cmake"
    (VtkHOut.chunks Demo.vtkh_pkg Demo.vtkh_spec
       (Demo.stale_world ["# written by an earlier run"] [])).
Proof.
  apply (host_config_deterministic Demo.vtkh_pkg Demo.vtkh_spec "/opt/pkg"
           None (Demo.stale_world ["# written by an earlier run"] [])
           (Demo.stale_world [] ["make: done"])).
  - apply stale_worlds_agree.
  - apply (VtkHFacts.vtkh_generates_total Demo.vtkh_pkg Demo.vtkh_spec "/opt/pkg"
             (Demo.stale_world ["# written by an earlier run"] [])).
    apply stale_world_pre.
Defined.

(** *** Running again where a run has finished *)

Lemma isfile_opened_again w q l x :
  isfile_in
    (set_files (<[q := []]> (<[q := l]> (files w))) (set_files (<[q := l]> (files w)) w)) x
  = isfile_in (set_files (<[q := []]> (files w)) w) x.
Proof. unfold isfile_in; cbn. by rewrite insert_insert_eq. Qed.

(** X25: a second run of the vtk-h emitter, started where the first one
    ended, returns the same path and writes the same chunks again. *)
Lemma vtkh_rerun self spec prefix w p l :
  generates (VtkH.create_host_config self spec prefix) w p l →
  generates (VtkH.create_host_config self spec prefix)
    (VtkHOut.final self spec w) p l.
Proof.
  intros (Hpre & -> & ->)%VtkHFacts.vtkh_generates_inv.
  set (w1 := VtkHOut.final self spec w).
  assert (Hfile : ∀ x, isfile_in (VtkHOut.opened spec w1) x
                       = isfile_in (VtkHOut.opened spec w) x).
  { intros x. apply isfile_opened_again. }
  destruct (vtkh_body_ext self spec (VtkHOut.opened spec w1)
              (VtkHOut.opened spec w) (VtkHOut.c_compiler w)
              (VtkHOut.cpp_compiler w) (VtkHOut.sys_type spec w)
              (VtkHOut.cmake_exe spec) Hfile) as (Hb & Hbp).
  replace (VtkHOut.chunks self spec w) with (VtkHOut.chunks self spec w1)
    by exact Hb.
  apply (VtkHFacts.vtkh_generates_total self spec prefix w1).
  destruct Hpre as (H1 & H2 & H3 & H4 & H5).
  split; [exact H1|]. split; [exact H2|]. split; [exact H3|].
  split; [exact H4|]. by apply Hbp.
Qed.

(** X26: so does a second run of the ascent emitter, unless [SPACK_FC]
    names the host-config file itself. *)
Lemma ascent_rerun self spec prefix py w p l :
  AscentOut.f_compiler self (AscentOut.final self spec py w)
  = AscentOut.f_compiler self w →
  generates (Ascent.create_host_config self spec prefix py) w p l →
  generates (Ascent.create_host_config self spec prefix py)
    (AscentOut.final self spec py w) p l.
Proof.
  intros Hf (Hpre & -> & ->)%AscentFacts.ascent_generates_inv.
  set (w1 := AscentOut.final self spec py w) in *.
  assert (Hfile : ∀ x, isfile_in (AscentOut.opened spec w1) x
                       = isfile_in (AscentOut.opened spec w) x).
  { intros x. apply isfile_opened_again. }
  destruct (ascent_after_ext self self spec (AscentOut.opened spec w1)
              (AscentOut.opened spec w) py eq_refl Hfile) as (Ha & Hbp).
  replace (AscentOut.chunks self spec py w)
    with (AscentOut.chunks self spec py w1).
  - apply (AscentFacts.ascent_generates_total self spec prefix py w1).
    destruct Hpre as (H1 & H2 & H3 & H4 & H5 & H6).
    split; [exact H1|]. split; [exact H2|]. split; [exact H3|].
    split; [exact H4|]. split; [exact H5|]. by apply Hbp.
  - unfold AscentOut.chunks, AscentOut.body. rewrite Hf, Ha. reflexivity.
Qed.

(** ** A missing Fortran compiler *)

Lemma no_fortran_f_compiler self w :
  no_fortran self w →
  AscentOut.f_compiler self w = None ∧ AscentOut.fortran_pre self w.
Proof.
  unfold AscentOut.f_compiler, AscentOut.fortran_pre.
  intros [-> | (p & -> & ->)]; [done|].
  split; [by destruct (opt_truthy _)|eauto].
Qed.

(** C7: when there is no Fortran compiler (the compiler has no fc entry,
    or SPACK_FC names something that is not an existing file) the lookup of
    the Fortran compiler in create_host_config of ascent raises nothing and
    finds none; a file the run generates sets ENABLE_FORTRAN to OFF and has
    no CMAKE_Fortran_COMPILER entry; and the rest of the file is what a
    run with a Fortran compiler writes: whenever such a run (same
    specification, same world but for SPACK_FC and the fc entry) returns, the
    run without one returns the same path, and the two files differ in the
    Fortran block only. *)
Theorem ascent_no_fortran_degrades self spec prefix py w :
  no_fortran self w →
  let before :=
    AscentOut.before spec (AscentOut.c_compiler w) (AscentOut.cpp_compiler w)
      (AscentOut.sys_type spec w) (AscentOut.cmake_exe spec w) in
  let after := AscentOut.after self spec (AscentOut.opened spec w) py in
  let block :=
    [ "# fortran compiler used by spack" +:+ nl;
      "# no fortran compiler found" +:+ nl +:+ nl;
      Ascent.cmake_cache_entry "ENABLE_FORTRAN" "OFF" ] in
  Ascent.find_f_compiler self w = (Ok None, w)
  ∧ (∀ p l,
       generates (Ascent.create_host_config self spec prefix py) w p l →
       l = before ++ block ++ after
       ∧ entries_named "ENABLE_FORTRAN" l
         = [Ascent.cmake_cache_entry "ENABLE_FORTRAN" "OFF"]
       ∧ entries_named "CMAKE_Fortran_COMPILER" l = [])
  ∧ (∀ self' w' p' l',
       self_spec self' = self_spec self →
       agree_except ["SPACK_FC"] w w' →
       generates (Ascent.create_host_config self' spec prefix py) w' p' l' →
       generates (Ascent.create_host_config self spec prefix py) w p'
         (before ++ block ++ after)
       ∧ ∃ block', l' = before ++ block' ++ after).
Proof.
  intros Hno before after block.
  destruct (no_fortran_f_compiler self w Hno) as (Hnone & Hfpre).
  split; [|split].
  - pose proof (AscentFacts.ascent_find_f_compiler_run self w) as H.
    destruct (Ascent.find_f_compiler self w) as [[f|e] w1].
    + destruct H as (_ & -> & ->). by rewrite Hnone.
    + tauto.
  - intros p l (_ & _ & ->)%AscentFacts.ascent_generates_inv.
    unfold AscentOut.chunks, AscentOut.body. rewrite Hnone.
    split; [reflexivity|].
    split; ascent_chunks; eval_entries.
  - intros self' w' p' l' Hs Hagree
      (Hpre' & -> & ->)%AscentFacts.ascent_generates_inv.
    destruct (ascent_rest_ext self self' spec py w w' (eq_sym Hs) Hagree)
      as (Hp & Hb & Ha & Hrest).
    apply ascent_pre_split in Hpre' as (_ & Hrest').
    split.
    + rewrite <- Hp.
      replace (before ++ block ++ after)
        with (AscentOut.chunks self spec py w).
      * apply AscentFacts.ascent_generates_total, ascent_pre_split. tauto.
      * unfold AscentOut.chunks, AscentOut.body. by rewrite Hnone.
    + exists (AscentOut.fortran (AscentOut.f_compiler self' w')).
      unfold AscentOut.chunks, AscentOut.body. by rewrite <- Hb, <- Ha.
Qed.

Lemma ascent_no_fortran_degrades_witness :
  entries_named "ENABLE_FORTRAN"
    (AscentOut.chunks Demo.ascent_pkg Demo.ascent_spec None
       Demo.world_no_fortran)
  = [Ascent.cmake_cache_entry "ENABLE_FORTRAN" "OFF"]
  ∧ entries_named "CMAKE_Fortran_COMPILER"
      (AscentOut.chunks Demo.ascent_pkg Demo.ascent_spec None
         Demo.world_no_fortran)
    = [].
Proof.
  destruct (ascent_no_fortran_degrades Demo.ascent_pkg Demo.ascent_spec
              "/opt/pkg" None Demo.world_no_fortran) as (_ & H & _).
  - right. exists "/usr/bin/gfortran". by vm_compute.
  - eapply H, AscentFacts.ascent_generates_total, DemoFacts.ascent_pre. by right.
Defined.

(** ** The format of the file *)

Lemma vtkh_entry_shape name value :
  VtkH.cmake_cache_entry name value None
  = cache_entry_shape name value (default_type value).
Proof.
  unfold VtkH.cmake_cache_entry, cache_entry_shape, default_type.
  destruct (String.eqb_spec value "ON") as [->|H1]; [done|].
  destruct (String.eqb_spec value "OFF") as [->|H2]; [done|].
  rewrite bool_decide_eq_false_2; [done|]. intros [?|?]; congruence.
Qed.

Lemma host_cfg_name_pattern host platform comp :
  VtkH.host_cfg_name host platform comp
  = file_name_pattern host platform comp "vtkh"
  ∧ Ascent.host_cfg_name host platform comp
    = file_name_pattern host platform comp "ascent".
Proof. done. Qed.

Ltac chunk_ok :=
  lazymatch goal with
  | |- vtkh_chunk_ok (VtkHOut.entry ?n ?v) =>
      right; exists n, v; apply vtkh_entry_shape
  | |- ascent_chunk_ok (AscentOut.entry ?n ?v) =>
      right; by exists n, v
  | |- _ => by left
  end.

Ltac all_chunks_ok :=
  repeat first
    [ apply Forall_nil_2
    | apply Forall_cons_2; [chunk_ok|]
    | apply Forall_app_2
    | match goal with
      | |- Forall _ (if ?c then _ else _) => destruct c
      | |- Forall _ (match ?o with Some _ => _ | None => _ end) => destruct o
      end ].

(** C9: every chunk of a generated file is a comment line or a cache entry
    of the shape [cache_entry_shape]; cmake_cache_entry of vtk-h gives the
    entry the type it is passed and, when passed none, BOOL for the values
    ON and OFF and PATH for every other value, cmake_cache_entry of ascent
    always gives PATH; and the file is named
    hostname-platform-compiler-package.cmake in the working directory, the
    platform tag being SYS_TYPE when the environment has it and the
    architecture of the specification otherwise, the package being vtkh or
    ascent. *)
Theorem host_config_format self spec prefix py w p l :
  let platform := default (architecture spec) (environ w !! "SYS_TYPE") in
  (∀ name value vtype,
     VtkH.cmake_cache_entry name value (Some vtype)
     = cache_entry_shape name value vtype
     ∧ VtkH.cmake_cache_entry name value None
       = cache_entry_shape name value (default_type value)
     ∧ Ascent.cmake_cache_entry name value
       = cache_entry_shape name value "PATH")
  ∧ (generates (VtkH.create_host_config self spec prefix) w p l →
     Forall vtkh_chunk_ok l
     ∧ p = abspath_in (cwd w)
             (file_name_pattern (hostname w) platform (compiler spec) "vtkh"))
  ∧ (generates (Ascent.create_host_config self spec prefix py) w p l →
     Forall ascent_chunk_ok l
     ∧ p = abspath_in (cwd w)
             (file_name_pattern (hostname w) platform (compiler spec)
                "ascent")).
Proof.
  intros platform. split; [|split].
  - intros name value vtype. split; [done|]. split; [|done].
    apply vtkh_entry_shape.
  - intros (_ & -> & ->)%VtkHFacts.vtkh_generates_inv. split; [|done].
    vtkh_chunks. all_chunks_ok.
  - intros (_ & -> & ->)%AscentFacts.ascent_generates_inv. split; [|done].
    ascent_chunks. all_chunks_ok.
Qed.

Lemma host_config_format_witness :
  Forall vtkh_chunk_ok
    (VtkHOut.chunks Demo.vtkh_pkg Demo.vtkh_spec Demo.world)
  ∧ VtkHOut.path Demo.vtkh_spec Demo.world
    = "/tmp/stage/quartz-linux-rhel7-x86_64-gcc@8.3.1-vtkh.cmake".
Proof.
  apply (host_config_format Demo.vtkh_pkg Demo.vtkh_spec "/opt/pkg" None
           Demo.world).
  apply VtkHFacts.vtkh_generates_total, DemoFacts.vtkh_pre.
Defined.

(** ** The arguments of the configure step *)

Lemma startswith_spec sub s :
  startswith sub s = true ↔ ∃ post, s = sub +:+ post.
Proof.
  revert s. induction sub as [|a sub IH]; intros s; cbn.
  - split; eauto.
  - destruct s as [|b s].
    + split; [done|]. by intros (post & ?).
    + destruct (Ascii.eqb_spec a b) as [->|Hne].
      * rewrite IH. split; intros (post & H); exists post.
        -- by rewrite H.
        -- rewrite append_cons in H. by injection H.
      * split; [done|]. intros (post & H).
        rewrite append_cons in H. injection H as H _. congruence.
Qed.

Lemma count_from_zero sub s :
  count_from sub s 0 = 0 ↔ ¬ occurs_in sub s.
Proof.
  induction s as [|c s IH].
  - cbn. destruct (startswith sub EmptyString) eqn:E.
    + split; [done|]. intros H. exfalso. apply H.
      apply startswith_spec in E as (post & E). by exists EmptyString, post.
    + split; [|done]. intros _ (pre & post & H).
      destruct pre; [|done]. cbn in H.
      assert (startswith sub EmptyString = true); [|congruence].
      apply startswith_spec. eauto.
  - cbn [count_from]. destruct (startswith sub (String c s)) eqn:E.
    + split; [done|]. intros H. exfalso. apply H.
      apply startswith_spec in E as (post & E). by exists EmptyString, post.
    + rewrite IH. split; intros H (pre & post & Heq); apply H.
      * destruct pre as [|c' pre].
        -- cbn in Heq.
           assert (startswith sub (String c s) = true); [|congruence].
           apply startswith_spec. eauto.
        -- rewrite append_cons in Heq. injection Heq as _ ->. by exists pre, post.
      * exists (String c pre), post. by rewrite Heq.
Qed.

Lemma elem_of_without class args arg :
  arg ∈ without class args ↔ arg ∈ args ∧ ¬ occurs_in class arg.
Proof.
  unfold without. rewrite !list_elem_of_In, List.filter_In.
  unfold str_count. rewrite Nat.eqb_eq. by rewrite count_from_zero.
Qed.

Lemma without_sublist class args : without class args `sublist_of` args.
Proof.
  unfold without. induction args as [|a args IH]; cbn; [done|].
  destruct (Nat.eqb _ _); by constructor.
Qed.

Lemma vtkh_cmake_args_without spec std cfg :
  VtkH.cmake_args spec std cfg
  = (if spec_contains spec "+shared"
     then without "CMAKE_BUILD_TYPE" std
     else without "RPATH" (without "CMAKE_BUILD_TYPE" std))
    ++ ["-DCMAKE_BUILD_TYPE=Release"; "-C"; cfg; "../src"].
Proof.
  unfold VtkH.cmake_args, without. rewrite <- app_assoc. f_equal.
  destruct (spec_contains spec "+shared").
  - apply List.filter_ext. intros a. by destruct (Nat.eqb _ _).
  - induction std as [|a std IH]; cbn; [done|].
    destruct (Nat.eqb (str_count a "CMAKE_BUILD_TYPE") 0); cbn;
      [destruct (Nat.eqb (str_count a "RPATH") 0)|]; by rewrite IH.
Qed.

Lemma load_list_run name l w :
  globals w !! name = Some (PList l) → load_list name w = (Ok l, w).
Proof. intros H. unfold load_list, io_bind, load_global. by rewrite H. Qed.

Lemma load_str_run name s w :
  globals w !! name = Some (PStr s) → load_str name w = (Ok s, w).
Proof. intros H. unfold load_str, io_bind, load_global. by rewrite H. Qed.

(** Once the configure step has been launched, whatever follows only adds
    to the record of launched processes. *)
Lemma vtkh_install_run self spec prefix w std cfg w1 :
  globals w1 !! "std_cmake_args" = Some (PList std) →
  VtkH.create_host_config self spec prefix
    (set_cwd (abspath_in (cwd w) "spack-build") w) = (Ok cfg, w1) →
  ∃ r w' rest,
    VtkH.install self spec prefix w = (r, w')
    ∧ commands w'
      = commands w1 ++ Cmake (VtkH.cmake_args spec std cfg) :: rest.
Proof.
  intros Hstd Hrun. unfold VtkH.install, with_working_dir.
  unfold io_bind at 1. rewrite Hrun.
  unfold io_bind at 1. rewrite (load_list_run _ _ _ Hstd).
  unfold io_bind, print, cmake, make, run_command, install_file; cbn.
  repeat match goal with
    | |- context [if ?c then _ else _] => destruct c
    end;
    eexists _, _, _; (split; [reflexivity|]); cbn;
    rewrite <- ?app_assoc; reflexivity.
Qed.

Lemma ascent_install_run self spec prefix w std cfg w1 :
  (spec_contains spec "+python" = true →
   ∃ s, globals w !! "site_packages_dir" = Some (PStr s)) →
  globals w1 !! "std_cmake_args" = Some (PList std) →
  Ascent.create_host_config self spec prefix (py_site_pkgs_dir_of spec w)
    (set_cwd (abspath_in (cwd w) "spack-build") w) = (Ok cfg, w1) →
  ∃ r w' rest,
    Ascent.install self spec prefix w = (r, w')
    ∧ commands w'
      = commands w1 ++ Cmake (Ascent.cmake_args spec std cfg) :: rest.
Proof.
  intros Hpy Hstd Hrun. unfold Ascent.install, with_working_dir.
  unfold io_bind at 1.
  assert ((if spec_contains spec "+python"
           then io_bind (load_str "site_packages_dir")
                  (λ s, io_ret (Some s))
           else io_ret None)
            (set_cwd (abspath_in (cwd w) "spack-build") w)
          = (Ok (py_site_pkgs_dir_of spec w),
             set_cwd (abspath_in (cwd w) "spack-build") w)) as ->.
  { unfold py_site_pkgs_dir_of.
    destruct (spec_contains spec "+python"); [|done].
    destruct (Hpy eq_refl) as (s & Hs).
    unfold io_bind. rewrite (load_str_run _ s (set_cwd _ w) Hs). by rewrite Hs. }
  unfold io_bind at 1. rewrite Hrun.
  unfold io_bind at 1. rewrite (load_list_run _ _ _ Hstd).
  unfold io_bind, print, cmake, make, run_command, install_file; cbn.
  repeat match goal with
    | |- context [if ?c then _ else _] => destruct c
    end;
    eexists _, _, _; (split; [reflexivity|]); cbn;
    rewrite <- ?app_assoc; reflexivity.
Qed.

(** C8, as stated, fails for vtk-h: with the shared flag enabled the
    standard argument that sets CMAKE_BUILD_TYPE, which does not contain
    RPATH, is not passed to the configure step, and an argument of the
    recipe's own takes its place. *)
Lemma vtkh_install_drops_build_type :
  spec_contains Demo.vtkh_spec "+shared" = true
  ∧ globals Demo.world !! "std_cmake_args"
    = Some (PList Demo.std_cmake_args)
  ∧ In "-DCMAKE_BUILD_TYPE:STRING=RelWithDebInfo" Demo.std_cmake_args
  ∧ commands
      (snd (VtkH.install Demo.vtkh_pkg Demo.vtkh_spec "/opt/pkg" Demo.world))
    = [ Cmake
          [ "-DCMAKE_INSTALL_PREFIX:PATH=/opt/pkg";
            "-DCMAKE_INSTALL_RPATH_USE_LINK_PATH:BOOL=FALSE";
            "-DCMAKE_INSTALL_RPATH:STRING=/opt/pkg/lib";
            "-DCMAKE_BUILD_TYPE=Release";
            "-C";
            "/tmp/stage/spack-build/quartz-linux-rhel7-x86_64-gcc@8.3.1-vtkh.cmake";
            "../src" ];
        Make [];
        Make ["install"] ].
Proof.
  split; [reflexivity|]. split; [reflexivity|]. split.
  - cbn. tauto.
  - by vm_compute.
Qed.

(** C8, amended: once create_host_config has returned the path [cfg],
    install launches the configure step.  For ascent its arguments are the
    standard list, unchanged when the shared flag is enabled and without
    the arguments that contain RPATH when it is disabled, followed by
    -C cfg ../src.  For vtk-h the arguments that contain CMAKE_BUILD_TYPE
    are dropped as well, whatever the shared flag says, and
    -DCMAKE_BUILD_TYPE=Release is added before -C cfg ../src.  ([without]
    keeps the order and drops exactly the arguments that contain the text:
    [elem_of_without], [without_sublist].) *)
Theorem install_configure_args self spec prefix w std cfg w1 :
  globals w !! "std_cmake_args" = Some (PList std) →
  (VtkH.create_host_config self spec prefix (in_build_dir w) = (Ok cfg, w1) →
   ∃ r w' rest,
     VtkH.install self spec prefix w = (r, w')
     ∧ commands w'
       = commands w
         ++ Cmake ((if spec_contains spec "+shared"
                    then without "CMAKE_BUILD_TYPE" std
                    else without "RPATH" (without "CMAKE_BUILD_TYPE" std))
                   ++ ["-DCMAKE_BUILD_TYPE=Release"; "-C"; cfg; "../src"])
            :: rest)
  ∧ ((spec_contains spec "+python" = true →
      ∃ s, globals w !! "site_packages_dir" = Some (PStr s)) →
     Ascent.create_host_config self spec prefix (py_site_pkgs_dir_of spec w)
       (in_build_dir w) = (Ok cfg, w1) →
     ∃ r w' rest,
       Ascent.install self spec prefix w = (r, w')
       ∧ commands w'
         = commands w
           ++ Cmake ((if spec_contains spec "+shared" then std
                      else without "RPATH" std)
                     ++ ["-C"; cfg; "../src"])
              :: rest).
Proof.
  intros Hstd. split.
  - intros Hrun.
    pose proof (VtkHFacts.vtkh_create_host_config_run self spec prefix
                  (in_build_dir w)) as H.
    rewrite Hrun in H. destruct H as (_ & _ & Hw1).
    rewrite <- vtkh_cmake_args_without.
    replace (commands w) with (commands w1) by by rewrite Hw1.
    eapply vtkh_install_run; [|exact Hrun]. by rewrite Hw1.
  - intros Hpy Hrun.
    pose proof (AscentFacts.ascent_create_host_config_run self spec prefix
                  (py_site_pkgs_dir_of spec w) (in_build_dir w)) as H.
    rewrite Hrun in H. destruct H as (_ & _ & Hw1).
    replace (commands w) with (commands w1) by by rewrite Hw1.
    eapply ascent_install_run; [exact Hpy| |exact Hrun]. by rewrite Hw1.
Qed.

Lemma install_configure_args_witness :
  ∃ r w' rest,
    VtkH.install Demo.vtkh_pkg Demo.vtkh_spec "/opt/pkg" Demo.world = (r, w')
    ∧ commands w'
      = commands Demo.world
        ++ Cmake ((if spec_contains Demo.vtkh_spec "+shared"
                   then without "CMAKE_BUILD_TYPE" Demo.std_cmake_args
                   else without "RPATH"
                          (without "CMAKE_BUILD_TYPE" Demo.std_cmake_args))
                  ++ ["-DCMAKE_BUILD_TYPE=Release"; "-C";
                      "/tmp/stage/spack-build/quartz-linux-rhel7-x86_64-gcc@8.3.1-vtkh.cmake";
                      "../src"])
           :: rest.
Proof.
  apply (install_configure_args Demo.vtkh_pkg Demo.vtkh_spec "/opt/pkg"
           Demo.world Demo.std_cmake_args
           "/tmp/stage/spack-build/quartz-linux-rhel7-x86_64-gcc@8.3.1-vtkh.cmake"
           (snd (VtkH.create_host_config Demo.vtkh_pkg Demo.vtkh_spec
                   "/opt/pkg" (in_build_dir Demo.world)))).
  - reflexivity.
  - by vm_compute.
Defined.

(** * Part IV: further properties of the recipes *)

(** ** Reading single blocks of a file *)

Lemma entries_named_nil name : entries_named name [] = [].
Proof. reflexivity. Qed.

Lemma entries_named_hit name c l :
  is_entry_of name c = true →
  entries_named name (c :: l) = c :: entries_named name l.
Proof. intros H. unfold entries_named; cbn. by rewrite H. Qed.

Lemma entries_named_miss name c l :
  is_entry_of name c = false →
  entries_named name (c :: l) = entries_named name l.
Proof. intros H. unfold entries_named; cbn. by rewrite H. Qed.

Lemma entries_named_if name (c : bool) l1 l2 :
  entries_named name (if c then l1 else l2)
  = if c then entries_named name l1 else entries_named name l2.
Proof. by destruct c. Qed.

Lemma if_same {A} (c : bool) (x : A) : (if c then x else x) = x.
Proof. by destruct c. Qed.

(** The entries for a name, chunk by chunk: every chunk is decided by
    reading its first characters, and the branches of the emitter stay
    branches of the result. *)
Ltac read_chunks :=
  repeat first
    [ rewrite entries_named_app
    | rewrite entries_named_nil
    | rewrite entries_named_if
    | rewrite entries_named_miss by reflexivity
    | rewrite entries_named_hit by reflexivity ].

Ltac read_entries :=
  read_chunks;
  repeat match goal with
    | |- context [match ?o with Some _ => _ | None => _ end] =>
        destruct o; read_chunks
    end;
  rewrite ?if_same; cbn [app]; rewrite ?app_nil_r.

Lemma cases_vtkh_plain_pre :
  VtkHOut.pre Cases.vtkh_plain_pkg Cases.vtkh_plain Demo.world.
Proof.
  unfold VtkHOut.pre, VtkHOut.body_pre, VtkHOut.flags_pre, VtkHOut.mpi_pre.
  DemoFacts.solve_pre.
Qed.

Lemma cases_vtkh_cray_pre :
  VtkHOut.pre Cases.vtkh_cray_pkg Cases.vtkh_cray Cases.cray_world.
Proof.
  unfold VtkHOut.pre, VtkHOut.body_pre, VtkHOut.flags_pre, VtkHOut.mpi_pre.
  DemoFacts.solve_pre.
Qed.

Lemma cases_ascent_full_pre :
  AscentOut.pre Cases.ascent_full_pkg Cases.ascent_full Demo.world.
Proof.
  unfold AscentOut.pre, AscentOut.body_pre, AscentOut.fortran_pre,
    AscentOut.cmake_pre, AscentOut.mpi_pre, AscentOut.needs.
  DemoFacts.solve_pre.
Qed.

Lemma cases_ascent_plain_pre :
  AscentOut.pre Cases.ascent_plain_pkg Cases.ascent_plain Demo.world.
Proof.
  unfold AscentOut.pre, AscentOut.body_pre, AscentOut.fortran_pre,
    AscentOut.cmake_pre, AscentOut.mpi_pre, AscentOut.needs.
  DemoFacts.solve_pre.
Qed.

(** Settle what is left after the chunks have been read: the branches on
    the flags of the specification. *)
Ltac by_flags :=
  unfold andb, orb, negb;
  repeat match goal with
    | |- context [if ?c then _ else _] => destruct c
    end;
  reflexivity.

Lemma isfile_opened_mono w q x :
  isfile_in w x = true →
  isfile_in (set_files (<[q := []]> (files w)) w) x = true.
Proof.
  unfold isfile_in; cbn. intros H%bool_decide_eq_true.
  apply bool_decide_eq_true.
  destruct (decide (q = abspath_in (cwd w) x)) as [->|Hne].
  - rewrite lookup_insert_eq. eauto.
  - by rewrite lookup_insert_ne.
Qed.

Lemma isfile_opened_other w q x :
  abspath_in (cwd w) x ≠ q →
  isfile_in (set_files (<[q := []]> (files w)) w) x = isfile_in w x.
Proof.
  intros Hne. unfold isfile_in; cbn. by rewrite lookup_insert_ne.
Qed.

(** ** The vtk-h file, variable by variable *)

(** X1: the vtk-h host-config file records the feature flags contourtree,
    openmp, serial, mpi and cuda as they are in the specification: each of
    ENABLE_FILTER_CONTOUR_TREE, ENABLE_OPENMP, ENABLE_SERIAL, ENABLE_MPI,
    ENABLE_CUDA and VTKm_ENABLE_CUDA:BOOL is set exactly once, to ON when
    its flag is enabled and to OFF otherwise. *)
Theorem vtkh_feature_flags_recorded self spec prefix w p l :
  generates (VtkH.create_host_config self spec prefix) w p l →
  let recorded name flag :=
    entries_named name l
    = [VtkH.cmake_cache_entry name
         (if spec_contains spec flag then "ON" else "OFF") None] in
  recorded "ENABLE_FILTER_CONTOUR_TREE" "+contourtree"
  ∧ recorded "ENABLE_OPENMP" "+openmp"
  ∧ recorded "ENABLE_SERIAL" "+serial"
  ∧ recorded "ENABLE_MPI" "+mpi"
  ∧ recorded "ENABLE_CUDA" "+cuda"
  ∧ recorded "VTKm_ENABLE_CUDA:BOOL" "+cuda".
Proof.
  intros (_ & _ & ->)%VtkHFacts.vtkh_generates_inv recorded.
  subst recorded. cbv beta.
  split_and!; vtkh_chunks; read_entries; by_flags.
Qed.

Lemma vtkh_feature_flags_recorded_witness :
  let l := VtkHOut.chunks Cases.vtkh_plain_pkg Cases.vtkh_plain Demo.world in
  entries_named "ENABLE_FILTER_CONTOUR_TREE" l
  = [VtkH.cmake_cache_entry "ENABLE_FILTER_CONTOUR_TREE" "OFF" None]
  ∧ entries_named "ENABLE_OPENMP" l
    = [VtkH.cmake_cache_entry "ENABLE_OPENMP" "OFF" None]
  ∧ entries_named "ENABLE_SERIAL" l
    = [VtkH.cmake_cache_entry "ENABLE_SERIAL" "ON" None]
  ∧ entries_named "ENABLE_MPI" l
    = [VtkH.cmake_cache_entry "ENABLE_MPI" "OFF" None]
  ∧ entries_named "ENABLE_CUDA" l
    = [VtkH.cmake_cache_entry "ENABLE_CUDA" "OFF" None]
  ∧ entries_named "VTKm_ENABLE_CUDA:BOOL" l
    = [VtkH.cmake_cache_entry "VTKm_ENABLE_CUDA:BOOL" "OFF" None].
Proof.
  apply (vtkh_feature_flags_recorded Cases.vtkh_plain_pkg Cases.vtkh_plain
           "/opt/pkg" Demo.world
           (VtkHOut.path Cases.vtkh_plain Demo.world)).
  apply VtkHFacts.vtkh_generates_total, cases_vtkh_plain_pre.
Defined.

(** X2: the vtk-h file records the compilers of the environment and the
    vtk-m installation of the specification: CMAKE_C_COMPILER is the value
    of SPACK_CC, CMAKE_CXX_COMPILER the value of SPACK_CXX, VTKM_DIR the
    prefix of the vtk-m dependency, each set once; with the cuda flag
    enabled CMAKE_CUDA_HOST_COMPILER is the value of SPACK_CXX as well, and
    without it that variable is not set. *)
Theorem vtkh_compilers_recorded self spec prefix w p l cc cxx vtkm :
  generates (VtkH.create_host_config self spec prefix) w p l →
  environ w !! "SPACK_CC" = Some cc →
  environ w !! "SPACK_CXX" = Some cxx →
  deps spec !! "vtk-m" = Some vtkm →
  entries_named "CMAKE_C_COMPILER" l
  = [VtkH.cmake_cache_entry "CMAKE_C_COMPILER" cc None]
  ∧ entries_named "CMAKE_CXX_COMPILER" l
    = [VtkH.cmake_cache_entry "CMAKE_CXX_COMPILER" cxx None]
  ∧ entries_named "VTKM_DIR" l
    = [VtkH.cmake_cache_entry "VTKM_DIR" (dep_prefix vtkm) None]
  ∧ entries_named "CMAKE_CUDA_HOST_COMPILER" l
    = if spec_contains spec "+cuda"
      then [VtkH.cmake_cache_entry "CMAKE_CUDA_HOST_COMPILER" cxx None]
      else [].
Proof.
  intros (_ & _ & ->)%VtkHFacts.vtkh_generates_inv Hcc Hcxx Hvtkm.
  unfold VtkHOut.chunks, VtkHOut.c_compiler, VtkHOut.cpp_compiler.
  rewrite Hcc, Hcxx. cbn [default from_option].
  split_and!; vtkh_chunks; unfold dep_of; rewrite ?Hvtkm;
    cbn [default from_option]; read_entries; by_flags.
Qed.

Lemma vtkh_compilers_recorded_witness :
  let l := VtkHOut.chunks Demo.vtkh_pkg Demo.vtkh_spec Demo.world in
  entries_named "CMAKE_C_COMPILER" l
  = [VtkH.cmake_cache_entry "CMAKE_C_COMPILER" "/usr/bin/gcc" None]
  ∧ entries_named "CMAKE_CXX_COMPILER" l
    = [VtkH.cmake_cache_entry "CMAKE_CXX_COMPILER" "/usr/bin/g++" None]
  ∧ entries_named "VTKM_DIR" l
    = [VtkH.cmake_cache_entry "VTKM_DIR" "/opt/vtk-m" None]
  ∧ entries_named "CMAKE_CUDA_HOST_COMPILER" l
    = [VtkH.cmake_cache_entry "CMAKE_CUDA_HOST_COMPILER" "/usr/bin/g++"
         None].
Proof.
  apply (vtkh_compilers_recorded Demo.vtkh_pkg Demo.vtkh_spec "/opt/pkg"
           Demo.world (VtkHOut.path Demo.vtkh_spec Demo.world) _
           "/usr/bin/gcc" "/usr/bin/g++" (Demo.dep "/opt/vtk-m" false)).
  - apply VtkHFacts.vtkh_generates_total, DemoFacts.vtkh_pre.
  - reflexivity.
  - reflexivity.
  - reflexivity.
Defined.

(** X3: with the mpi flag enabled, the vtk-h file records the MPI compiler
    wrappers of the mpi dependency, unless the C++ compiler of the
    environment is the Cray wrapper CC: then it records cc, CC and ftn,
    whatever the dependency says. *)
Theorem vtkh_mpi_wrappers self spec prefix w p l cxx mpi :
  generates (VtkH.create_host_config self spec prefix) w p l →
  spec_contains spec "+mpi" = true →
  environ w !! "SPACK_CXX" = Some cxx →
  deps spec !! "mpi" = Some mpi →
  let cray := String.eqb cxx "CC" in
  entries_named "MPI_C_COMPILER" l
  = [VtkH.cmake_cache_entry "MPI_C_COMPILER"
       (if cray then "cc" else mpicc mpi) None]
  ∧ entries_named "MPI_CXX_COMPILER" l
    = [VtkH.cmake_cache_entry "MPI_CXX_COMPILER"
         (if cray then "CC" else mpicxx mpi) None]
  ∧ entries_named "MPI_Fortran_COMPILER" l
    = [VtkH.cmake_cache_entry "MPI_Fortran_COMPILER"
         (if cray then "ftn" else mpifc mpi) None].
Proof.
  intros (_ & _ & ->)%VtkHFacts.vtkh_generates_inv Hmpi Hcxx Hdep cray.
  subst cray.
  unfold VtkHOut.chunks, VtkHOut.cpp_compiler.
  rewrite Hcxx. cbn [default from_option].
  split_and!; vtkh_chunks; unfold VtkHOut.wrapper, dep_of;
    rewrite Hmpi, Hdep; cbn [default from_option]; read_entries;
    reflexivity.
Qed.

Lemma vtkh_mpi_wrappers_witness :
  (let l := VtkHOut.chunks Cases.vtkh_cray_pkg Cases.vtkh_cray
              Cases.cray_world in
   entries_named "MPI_C_COMPILER" l
   = [VtkH.cmake_cache_entry "MPI_C_COMPILER" "cc" None]
   ∧ entries_named "MPI_CXX_COMPILER" l
     = [VtkH.cmake_cache_entry "MPI_CXX_COMPILER" "CC" None]
   ∧ entries_named "MPI_Fortran_COMPILER" l
     = [VtkH.cmake_cache_entry "MPI_Fortran_COMPILER" "ftn" None])
  ∧ (let l := VtkHOut.chunks Demo.vtkh_pkg Demo.vtkh_spec Demo.world in
     entries_named "MPI_C_COMPILER" l
     = [VtkH.cmake_cache_entry "MPI_C_COMPILER" "/opt/mpi/bin/mpicc" None]
     ∧ entries_named "MPI_CXX_COMPILER" l
       = [VtkH.cmake_cache_entry "MPI_CXX_COMPILER" "/opt/mpi/bin/mpicxx"
            None]
     ∧ entries_named "MPI_Fortran_COMPILER" l
       = [VtkH.cmake_cache_entry "MPI_Fortran_COMPILER"
            "/opt/mpi/bin/mpif90" None]).
Proof.
  split.
  - apply (vtkh_mpi_wrappers Cases.vtkh_cray_pkg Cases.vtkh_cray "/opt/pkg"
             Cases.cray_world
             (VtkHOut.path Cases.vtkh_cray Cases.cray_world) _ "CC"
             (Demo.dep "/opt/mpi" false)).
    + apply VtkHFacts.vtkh_generates_total, cases_vtkh_cray_pre.
    + reflexivity.
    + reflexivity.
    + reflexivity.
  - apply (vtkh_mpi_wrappers Demo.vtkh_pkg Demo.vtkh_spec "/opt/pkg"
             Demo.world (VtkHOut.path Demo.vtkh_spec Demo.world) _
             "/usr/bin/g++" (Demo.dep "/opt/mpi" false)).
    + apply VtkHFacts.vtkh_generates_total, DemoFacts.vtkh_pre.
    + reflexivity.
    + reflexivity.
    + reflexivity.
Defined.

(** X4: with the mpi flag enabled and an mpiexec in the bin directory of the
    mpi dependency, the vtk-h file names that launcher under exactly one
    variable: MPIEXEC_EXECUTABLE when the cmake of the package satisfies
    @3.10:, MPIEXEC otherwise.  Without such a file (and the host-config
    file does not count) neither variable is set. *)
Theorem vtkh_mpiexec_entry self spec prefix w p l :
  generates (VtkH.create_host_config self spec prefix) w p l →
  spec_contains spec "+mpi" = true →
  let exe :=
    join_path (prefix_bin (dep_prefix (dep_of spec "mpi"))) "mpiexec" in
  let newer := satisfies (dep_of (self_spec self) "cmake") "@3.10:" in
  (isfile_in w exe = true →
   entries_named "MPIEXEC_EXECUTABLE" l
   = (if newer
      then [VtkH.cmake_cache_entry "MPIEXEC_EXECUTABLE" exe None] else [])
   ∧ entries_named "MPIEXEC" l
     = (if newer then [] else [VtkH.cmake_cache_entry "MPIEXEC" exe None]))
  ∧ (isfile_in w exe = false → abspath_in (cwd w) exe ≠ p →
     entries_named "MPIEXEC_EXECUTABLE" l = []
     ∧ entries_named "MPIEXEC" l = []).
Proof.
  intros (_ & -> & ->)%VtkHFacts.vtkh_generates_inv Hmpi exe newer.
  assert (Hread : ∀ b, isfile_in (VtkHOut.opened spec w) exe = b →
    entries_named "MPIEXEC_EXECUTABLE" (VtkHOut.chunks self spec w)
    = (if b then
         if newer
         then [VtkH.cmake_cache_entry "MPIEXEC_EXECUTABLE" exe None]
         else []
       else [])
    ∧ entries_named "MPIEXEC" (VtkHOut.chunks self spec w)
      = (if b then
           if newer then []
           else [VtkH.cmake_cache_entry "MPIEXEC" exe None]
         else [])).
  { intros b Hb. subst exe newer.
    split; vtkh_chunks; unfold VtkHOut.mpiexe_bin; rewrite Hmpi, Hb;
      read_entries; by_flags. }
  split.
  - intros Hfile. apply (Hread true). by apply isfile_opened_mono.
  - intros Hfile Hne. apply (Hread false).
    unfold VtkHOut.opened. by rewrite isfile_opened_other.
Qed.

Lemma vtkh_mpiexec_entry_witness :
  (let l := VtkHOut.chunks Demo.vtkh_pkg Demo.vtkh_spec Demo.world in
   entries_named "MPIEXEC_EXECUTABLE" l
   = [VtkH.cmake_cache_entry "MPIEXEC_EXECUTABLE" "/opt/mpi/bin/mpiexec"
        None]
   ∧ entries_named "MPIEXEC" l = [])
  ∧ (let l := VtkHOut.chunks Cases.vtkh_cray_pkg Cases.vtkh_cray
                Cases.cray_world in
     entries_named "MPIEXEC_EXECUTABLE" l = []
     ∧ entries_named "MPIEXEC" l
       = [VtkH.cmake_cache_entry "MPIEXEC" "/opt/mpi/bin/mpiexec" None]).
Proof.
  split.
  - apply (vtkh_mpiexec_entry Demo.vtkh_pkg Demo.vtkh_spec "/opt/pkg"
             Demo.world (VtkHOut.path Demo.vtkh_spec Demo.world)).
    + apply VtkHFacts.vtkh_generates_total, DemoFacts.vtkh_pre.
    + reflexivity.
    + reflexivity.
  - apply (vtkh_mpiexec_entry Cases.vtkh_cray_pkg Cases.vtkh_cray "/opt/pkg"
             Cases.cray_world
             (VtkHOut.path Cases.vtkh_cray Cases.cray_world)).
    + apply VtkHFacts.vtkh_generates_total, cases_vtkh_cray_pre.
    + reflexivity.
    + reflexivity.
Defined.

(** X5: the compiler flags of the specification in the vtk-h file.  The
    preprocessor flags, joined by spaces and followed by one space when
    there are any, are put in front of both the C and the C++ flags;
    the Fortran flags stand alone.  A flags variable is set exactly when
    its text is not empty, so preprocessor flags alone are enough for
    CMAKE_C_FLAGS and CMAKE_CXX_FLAGS to be set, and a specification
    without any flag sets none of the three. *)
Theorem vtkh_compiler_flags self spec prefix w p l cpp c cxx f :
  generates (VtkH.create_host_config self spec prefix) w p l →
  compiler_flags spec !! "cppflags" = Some cpp →
  compiler_flags spec !! "cflags" = Some c →
  compiler_flags spec !! "cxxflags" = Some cxx →
  compiler_flags spec !! "fflags" = Some f →
  let front :=
    if str_truthy (str_join " " cpp) then str_join " " cpp +:+ " "
    else EmptyString in
  let written name text :=
    entries_named name l
    = if str_truthy text then [VtkH.cmake_cache_entry name text None]
      else [] in
  written "CMAKE_C_FLAGS" (front +:+ str_join " " c)
  ∧ written "CMAKE_CXX_FLAGS" (front +:+ str_join " " cxx)
  ∧ written "CMAKE_Fortran_FLAGS" (str_join " " f).
Proof.
  intros (_ & _ & ->)%VtkHFacts.vtkh_generates_inv Hcpp Hc Hcxx Hf.
  intros front written. subst front written. cbv beta.
  assert (Hfront : VtkHOut.cppflags spec
                   = if str_truthy (str_join " " cpp)
                     then str_join " " cpp +:+ " " else EmptyString).
  { unfold VtkHOut.cppflags, flags_of. rewrite Hcpp.
    change (default [] (Some cpp)) with cpp.
    destruct (str_join " " cpp); reflexivity. }
  split_and!; vtkh_chunks;
    unfold VtkHOut.cflags, VtkHOut.cxxflags, VtkHOut.fflags;
    rewrite ?Hfront; unfold flags_of; rewrite ?Hc, ?Hcxx, ?Hf;
    change (default [] (Some c)) with c;
    change (default [] (Some cxx)) with cxx;
    change (default [] (Some f)) with f; read_entries; by_flags.
Qed.

Lemma vtkh_compiler_flags_witness :
  let l := VtkHOut.chunks Cases.vtkh_plain_pkg Cases.vtkh_plain Demo.world in
  entries_named "CMAKE_C_FLAGS" l
  = [VtkH.cmake_cache_entry "CMAKE_C_FLAGS" "-DNDEBUG -I/opt/include " None]
  ∧ entries_named "CMAKE_CXX_FLAGS" l
    = [VtkH.cmake_cache_entry "CMAKE_CXX_FLAGS"
         "-DNDEBUG -I/opt/include -O3" None]
  ∧ entries_named "CMAKE_Fortran_FLAGS" l = [].
Proof.
  apply (vtkh_compiler_flags Cases.vtkh_plain_pkg Cases.vtkh_plain "/opt/pkg"
           Demo.world (VtkHOut.path Cases.vtkh_plain Demo.world) _
           ["-DNDEBUG"; "-I/opt/include"] [] ["-O3"] []).
  - apply VtkHFacts.vtkh_generates_total, cases_vtkh_plain_pre.
  - reflexivity.
  - reflexivity.
  - reflexivity.
  - reflexivity.
Defined.

(** ** The ascent file, variable by variable *)

Lemma demo_ascent_pre :
  AscentOut.pre Demo.ascent_pkg Demo.ascent_spec Demo.world.
Proof. apply DemoFacts.ascent_pre. by left. Qed.

(** X6: the ascent host-config file records the feature flags python, mpi,
    cuda and openmp as they are in the specification, each exactly once;
    ENABLE_DOCS is ON only when both the doc and the python flag are
    enabled. *)
Theorem ascent_feature_flags_recorded self spec prefix py w p l :
  generates (Ascent.create_host_config self spec prefix py) w p l →
  let recorded name (on : bool) :=
    entries_named name l
    = [Ascent.cmake_cache_entry name (if on then "ON" else "OFF")] in
  recorded "ENABLE_PYTHON" (spec_contains spec "+python")
  ∧ recorded "ENABLE_MPI" (spec_contains spec "+mpi")
  ∧ recorded "ENABLE_CUDA" (spec_contains spec "+cuda")
  ∧ recorded "ENABLE_OPENMP" (spec_contains spec "+openmp")
  ∧ recorded "ENABLE_DOCS"
      (spec_contains spec "+doc" && spec_contains spec "+python").
Proof.
  intros (_ & _ & ->)%AscentFacts.ascent_generates_inv recorded.
  subst recorded. cbv beta.
  split_and!; ascent_chunks; unfold AscentOut.with_docs; read_entries;
    by_flags.
Qed.

Lemma ascent_feature_flags_recorded_witness :
  let l := AscentOut.chunks Demo.ascent_pkg Demo.ascent_spec
             (Some "/opt/pkg/site-packages") Demo.world in
  entries_named "ENABLE_PYTHON" l
  = [Ascent.cmake_cache_entry "ENABLE_PYTHON" "ON"]
  ∧ entries_named "ENABLE_MPI" l
    = [Ascent.cmake_cache_entry "ENABLE_MPI" "ON"]
  ∧ entries_named "ENABLE_CUDA" l
    = [Ascent.cmake_cache_entry "ENABLE_CUDA" "ON"]
  ∧ entries_named "ENABLE_OPENMP" l
    = [Ascent.cmake_cache_entry "ENABLE_OPENMP" "OFF"]
  ∧ entries_named "ENABLE_DOCS" l
    = [Ascent.cmake_cache_entry "ENABLE_DOCS" "OFF"].
Proof.
  apply (ascent_feature_flags_recorded Demo.ascent_pkg Demo.ascent_spec
           "/opt/pkg" (Some "/opt/pkg/site-packages") Demo.world
           (AscentOut.path Demo.ascent_spec Demo.world)).
  apply AscentFacts.ascent_generates_total, demo_ascent_pre.
Defined.

(** X7: the Python block of the ascent file.  With the python flag enabled
    PYTHON_EXECUTABLE is the command of the python dependency, and
    PYTHON_MODULE_INSTALL_PREFIX is set exactly when a non-empty
    site-packages directory is passed; with the flag disabled neither
    variable is set, whatever directory is passed. *)
Theorem ascent_python_entries self spec prefix py w p l :
  generates (Ascent.create_host_config self spec prefix py) w p l →
  let on := spec_contains spec "+python" in
  entries_named "PYTHON_EXECUTABLE" l
  = (if on
     then [Ascent.cmake_cache_entry "PYTHON_EXECUTABLE"
             (command_path (dep_of spec "python"))]
     else [])
  ∧ entries_named "PYTHON_MODULE_INSTALL_PREFIX" l
    = match py with
      | Some dir =>
          if on && str_truthy dir
          then [Ascent.cmake_cache_entry "PYTHON_MODULE_INSTALL_PREFIX" dir]
          else []
      | None => []
      end.
Proof.
  intros (_ & _ & ->)%AscentFacts.ascent_generates_inv on. subst on.
  split; ascent_chunks.
  - read_entries; by_flags.
  - destruct py as [dir|]; read_entries; by_flags.
Qed.

Lemma ascent_python_entries_witness :
  (let l := AscentOut.chunks Demo.ascent_pkg Demo.ascent_spec
              (Some "/opt/pkg/site-packages") Demo.world in
   entries_named "PYTHON_EXECUTABLE" l
   = [Ascent.cmake_cache_entry "PYTHON_EXECUTABLE" "/opt/python/bin/tool"]
   ∧ entries_named "PYTHON_MODULE_INSTALL_PREFIX" l
     = [Ascent.cmake_cache_entry "PYTHON_MODULE_INSTALL_PREFIX"
          "/opt/pkg/site-packages"])
  ∧ (let l := AscentOut.chunks Cases.ascent_plain_pkg Cases.ascent_plain
                (Some "/opt/pkg/site-packages") Demo.world in
     entries_named "PYTHON_EXECUTABLE" l = []
     ∧ entries_named "PYTHON_MODULE_INSTALL_PREFIX" l = []).
Proof.
  split.
  - apply (ascent_python_entries Demo.ascent_pkg Demo.ascent_spec "/opt/pkg"
             (Some "/opt/pkg/site-packages") Demo.world
             (AscentOut.path Demo.ascent_spec Demo.world)).
    apply AscentFacts.ascent_generates_total, demo_ascent_pre.
  - apply (ascent_python_entries Cases.ascent_plain_pkg Cases.ascent_plain
             "/opt/pkg" (Some "/opt/pkg/site-packages") Demo.world
             (AscentOut.path Cases.ascent_plain Demo.world)).
    apply AscentFacts.ascent_generates_total, cases_ascent_plain_pre.
Defined.

(** X8: the installations the ascent file points to.  CONDUIT_DIR is always
    the prefix of the conduit dependency.  VTKM_DIR and VTKH_DIR are set,
    to the prefixes of vtkm and vtkh, exactly when the vtkh flag is
    enabled; MFEM_DIR exactly when mfem is; ADIOS_DIR exactly when adios
    is; SPHINX_EXECUTABLE, the sphinx-build of py-sphinx, exactly when doc
    and python both are. *)
Theorem ascent_dependency_dirs self spec prefix py w p l :
  generates (Ascent.create_host_config self spec prefix py) w p l →
  let dir name flag dep :=
    entries_named name l
    = if spec_contains spec flag
      then [Ascent.cmake_cache_entry name (dep_prefix (dep_of spec dep))]
      else [] in
  entries_named "CONDUIT_DIR" l
  = [Ascent.cmake_cache_entry "CONDUIT_DIR"
       (dep_prefix (dep_of spec "conduit"))]
  ∧ dir "VTKM_DIR" "+vtkh" "vtkm"
  ∧ dir "VTKH_DIR" "+vtkh" "vtkh"
  ∧ dir "MFEM_DIR" "+mfem" "mfem"
  ∧ dir "ADIOS_DIR" "+adios" "adios"
  ∧ entries_named "SPHINX_EXECUTABLE" l
    = if spec_contains spec "+doc" && spec_contains spec "+python"
      then [Ascent.cmake_cache_entry "SPHINX_EXECUTABLE"
              (join_path (prefix_bin (dep_prefix (dep_of spec "py-sphinx")))
                 "sphinx-build")]
      else [].
Proof.
  intros (_ & _ & ->)%AscentFacts.ascent_generates_inv dir.
  subst dir. cbv beta.
  split_and!; ascent_chunks; unfold AscentOut.with_docs; read_entries;
    by_flags.
Qed.

Lemma ascent_dependency_dirs_witness :
  let l := AscentOut.chunks Cases.ascent_full_pkg Cases.ascent_full
             (Some "/opt/pkg/site-packages") Demo.world in
  entries_named "CONDUIT_DIR" l
  = [Ascent.cmake_cache_entry "CONDUIT_DIR" "/opt/conduit"]
  ∧ entries_named "VTKM_DIR" l
    = [Ascent.cmake_cache_entry "VTKM_DIR" "/opt/vtkm"]
  ∧ entries_named "VTKH_DIR" l
    = [Ascent.cmake_cache_entry "VTKH_DIR" "/opt/vtkh"]
  ∧ entries_named "MFEM_DIR" l
    = [Ascent.cmake_cache_entry "MFEM_DIR" "/opt/mfem"]
  ∧ entries_named "ADIOS_DIR" l
    = [Ascent.cmake_cache_entry "ADIOS_DIR" "/opt/adios"]
  ∧ entries_named "SPHINX_EXECUTABLE" l
    = [Ascent.cmake_cache_entry "SPHINX_EXECUTABLE"
         "/opt/sphinx/bin/sphinx-build"].
Proof.
  apply (ascent_dependency_dirs Cases.ascent_full_pkg Cases.ascent_full
           "/opt/pkg" (Some "/opt/pkg/site-packages") Demo.world
           (AscentOut.path Cases.ascent_full Demo.world)).
  apply AscentFacts.ascent_generates_total, cases_ascent_full_pre.
Defined.

(** X9: when the compiler has an fc entry and SPACK_FC names an existing
    file, the ascent file enables Fortran and records that file as the
    Fortran compiler; the compilers for C and C++ are the values of
    SPACK_CC and SPACK_CXX. *)
Theorem ascent_compilers_recorded self spec prefix py w p l cc cxx fc :
  generates (Ascent.create_host_config self spec prefix py) w p l →
  environ w !! "SPACK_CC" = Some cc →
  environ w !! "SPACK_CXX" = Some cxx →
  opt_truthy (compiler_fc self) = true →
  environ w !! "SPACK_FC" = Some fc →
  isfile_in w fc = true →
  entries_named "CMAKE_C_COMPILER" l
  = [Ascent.cmake_cache_entry "CMAKE_C_COMPILER" cc]
  ∧ entries_named "CMAKE_CXX_COMPILER" l
    = [Ascent.cmake_cache_entry "CMAKE_CXX_COMPILER" cxx]
  ∧ entries_named "ENABLE_FORTRAN" l
    = [Ascent.cmake_cache_entry "ENABLE_FORTRAN" "ON"]
  ∧ entries_named "CMAKE_Fortran_COMPILER" l
    = [Ascent.cmake_cache_entry "CMAKE_Fortran_COMPILER" fc].
Proof.
  intros (_ & _ & ->)%AscentFacts.ascent_generates_inv Hcc Hcxx Hfc Henv
    Hfile.
  unfold AscentOut.chunks, AscentOut.c_compiler, AscentOut.cpp_compiler,
    AscentOut.f_compiler.
  rewrite Hcc, Hcxx, Hfc, Henv, Hfile. cbn [default from_option].
  split_and!; ascent_chunks; read_entries; by_flags.
Qed.

Lemma ascent_compilers_recorded_witness :
  let l := AscentOut.chunks Demo.ascent_pkg Demo.ascent_spec
             (Some "/opt/pkg/site-packages") Demo.world in
  entries_named "CMAKE_C_COMPILER" l
  = [Ascent.cmake_cache_entry "CMAKE_C_COMPILER" "/usr/bin/gcc"]
  ∧ entries_named "CMAKE_CXX_COMPILER" l
    = [Ascent.cmake_cache_entry "CMAKE_CXX_COMPILER" "/usr/bin/g++"]
  ∧ entries_named "ENABLE_FORTRAN" l
    = [Ascent.cmake_cache_entry "ENABLE_FORTRAN" "ON"]
  ∧ entries_named "CMAKE_Fortran_COMPILER" l
    = [Ascent.cmake_cache_entry "CMAKE_Fortran_COMPILER"
         "/usr/bin/gfortran"].
Proof.
  apply (ascent_compilers_recorded Demo.ascent_pkg Demo.ascent_spec
           "/opt/pkg" (Some "/opt/pkg/site-packages") Demo.world
           (AscentOut.path Demo.ascent_spec Demo.world) _
           "/usr/bin/gcc" "/usr/bin/g++" "/usr/bin/gfortran").
  - apply AscentFacts.ascent_generates_total, demo_ascent_pre.
  - reflexivity.
  - reflexivity.
  - reflexivity.
  - reflexivity.
  - reflexivity.
Defined.

(** X10: with the mpi flag enabled the ascent file records the MPI compiler
    wrappers of the mpi dependency, also when the C++ compiler is the Cray
    wrapper CC (the vtk-h rule for Cray is not in this recipe), and names
    an existing mpiexec of that dependency under MPIEXEC_EXECUTABLE when
    the cmake of the package satisfies @3.10: and under MPIEXEC
    otherwise. *)
Theorem ascent_mpi_entries self spec prefix py w p l :
  generates (Ascent.create_host_config self spec prefix py) w p l →
  spec_contains spec "+mpi" = true →
  let mpi := dep_of spec "mpi" in
  let exe := join_path (prefix_bin (dep_prefix mpi)) "mpiexec" in
  let newer := satisfies (dep_of (self_spec self) "cmake") "@3.10:" in
  entries_named "MPI_C_COMPILER" l
  = [Ascent.cmake_cache_entry "MPI_C_COMPILER" (mpicc mpi)]
  ∧ entries_named "MPI_CXX_COMPILER" l
    = [Ascent.cmake_cache_entry "MPI_CXX_COMPILER" (mpicxx mpi)]
  ∧ entries_named "MPI_Fortran_COMPILER" l
    = [Ascent.cmake_cache_entry "MPI_Fortran_COMPILER" (mpifc mpi)]
  ∧ (isfile_in w exe = true →
     entries_named "MPIEXEC_EXECUTABLE" l
     = (if newer
        then [Ascent.cmake_cache_entry "MPIEXEC_EXECUTABLE" exe] else [])
     ∧ entries_named "MPIEXEC" l
       = (if newer then [] else [Ascent.cmake_cache_entry "MPIEXEC" exe]))
  ∧ (isfile_in w exe = false → abspath_in (cwd w) exe ≠ p →
     entries_named "MPIEXEC_EXECUTABLE" l = []
     ∧ entries_named "MPIEXEC" l = []).
Proof.
  intros (_ & -> & ->)%AscentFacts.ascent_generates_inv Hmpi mpi exe newer.
  assert (Hread : ∀ b, isfile_in (AscentOut.opened spec w) exe = b →
    entries_named "MPIEXEC_EXECUTABLE" (AscentOut.chunks self spec py w)
    = (if b then
         if newer
         then [Ascent.cmake_cache_entry "MPIEXEC_EXECUTABLE" exe]
         else []
       else [])
    ∧ entries_named "MPIEXEC" (AscentOut.chunks self spec py w)
      = (if b then
           if newer then []
           else [Ascent.cmake_cache_entry "MPIEXEC" exe]
         else [])).
  { intros b Hb. subst exe newer mpi.
    split; ascent_chunks; unfold AscentOut.mpiexe_bin; rewrite Hmpi, Hb;
      read_entries; by_flags. }
  split_and!.
  - subst mpi. ascent_chunks. rewrite Hmpi. read_entries; by_flags.
  - subst mpi. ascent_chunks. rewrite Hmpi. read_entries; by_flags.
  - subst mpi. ascent_chunks. rewrite Hmpi. read_entries; by_flags.
  - intros Hfile. apply (Hread true). by apply isfile_opened_mono.
  - intros Hfile Hne. apply (Hread false).
    unfold AscentOut.opened. by rewrite isfile_opened_other.
Qed.

Lemma ascent_mpi_entries_witness :
  let l := AscentOut.chunks Demo.ascent_pkg Demo.ascent_spec
             (Some "/opt/pkg/site-packages") Demo.world in
  entries_named "MPI_C_COMPILER" l
  = [Ascent.cmake_cache_entry "MPI_C_COMPILER" "/opt/mpi/bin/mpicc"]
  ∧ entries_named "MPI_CXX_COMPILER" l
    = [Ascent.cmake_cache_entry "MPI_CXX_COMPILER" "/opt/mpi/bin/mpicxx"]
  ∧ entries_named "MPI_Fortran_COMPILER" l
    = [Ascent.cmake_cache_entry "MPI_Fortran_COMPILER" "/opt/mpi/bin/mpif90"]
  ∧ entries_named "MPIEXEC_EXECUTABLE" l = []
  ∧ entries_named "MPIEXEC" l
    = [Ascent.cmake_cache_entry "MPIEXEC" "/opt/mpi/bin/mpiexec"].
Proof.
  destruct (ascent_mpi_entries Demo.ascent_pkg Demo.ascent_spec "/opt/pkg"
              (Some "/opt/pkg/site-packages") Demo.world
              (AscentOut.path Demo.ascent_spec Demo.world)
              (AscentOut.chunks Demo.ascent_pkg Demo.ascent_spec
                 (Some "/opt/pkg/site-packages") Demo.world))
    as (H1 & H2 & H3 & H4 & _).
  - apply AscentFacts.ascent_generates_total, demo_ascent_pre.
  - reflexivity.
  - split; [exact H1|]. split; [exact H2|]. split; [exact H3|].
    apply H4. reflexivity.
Defined.

(** Read a specification made by [with_dep] through to the one it was
    made from. *)
Ltac through_with_dep Hflag :=
  unfold dep_of, flags_of, spec_contains, with_dep in *;
  cbn [holds architecture compiler compiler_flags deps] in *;
  rewrite Hflag;
  repeat match goal with
    | |- context [partial_alter ?f ?i ?m !! ?j] =>
        rewrite (lookup_partial_alter_ne f m i j) by done
    end.

Lemma vtkh_run_without_mpi self spec w d :
  spec_contains spec "+mpi" = false →
  VtkHOut.path (with_dep "mpi" d spec) w = VtkHOut.path spec w
  ∧ VtkHOut.chunks self (with_dep "mpi" d spec) w
    = VtkHOut.chunks self spec w
  ∧ (VtkHOut.pre self spec w → VtkHOut.pre self (with_dep "mpi" d spec) w).
Proof.
  intros Hmpi. split; [reflexivity|]. split.
  - vtkh_chunks.
    unfold VtkHOut.cmake_exe, VtkHOut.sys_type, VtkHOut.c_compiler,
      VtkHOut.cpp_compiler, VtkHOut.cflags, VtkHOut.cxxflags,
      VtkHOut.fflags, VtkHOut.cppflags.
    through_with_dep Hmpi. reflexivity.
  - unfold VtkHOut.pre, VtkHOut.body_pre, VtkHOut.flags_pre,
      VtkHOut.mpi_pre, VtkHOut.path, VtkHOut.fname, VtkHOut.sys_type.
    through_with_dep Hmpi.
    intros (H1 & H2 & H3 & H4 & H5 & H6 & _).
    split_and!; try assumption; try tauto; intros ?; discriminate.
Qed.

Lemma ascent_run_without_mpi self spec py w d :
  spec_contains spec "+mpi" = false →
  AscentOut.path (with_dep "mpi" d spec) w = AscentOut.path spec w
  ∧ AscentOut.chunks self (with_dep "mpi" d spec) py w
    = AscentOut.chunks self spec py w
  ∧ (AscentOut.pre self spec w →
     AscentOut.pre self (with_dep "mpi" d spec) w).
Proof.
  intros Hmpi. split; [reflexivity|]. split.
  - ascent_chunks.
    unfold AscentOut.cmake_exe, AscentOut.sys_type, AscentOut.c_compiler,
      AscentOut.cpp_compiler, AscentOut.with_docs.
    through_with_dep Hmpi. reflexivity.
  - unfold AscentOut.pre, AscentOut.body_pre, AscentOut.cmake_pre,
      AscentOut.needs, AscentOut.with_docs, AscentOut.mpi_pre,
      AscentOut.path, AscentOut.fname, AscentOut.sys_type.
    through_with_dep Hmpi.
    intros (H1 & H2 & H3 & H4 & H5 & H6 & H7 & H8 & _ & H9).
    split_and!; try assumption; try tauto; intros ?; discriminate.
Qed.

(** X11: with the mpi flag disabled neither recipe looks at an mpi
    dependency.  A run that returns also returns, with the same path and
    the same file, for the specification with any other mpi dependency or
    with none at all; the file sets ENABLE_MPI to OFF and no variable
    whose name starts with MPI. *)
Theorem no_mpi_no_mpi_variables self spec prefix py w p l d :
  spec_contains spec "+mpi" = false →
  (generates (VtkH.create_host_config self spec prefix) w p l →
   generates (VtkH.create_host_config self (with_dep "mpi" d spec) prefix)
     w p l
   ∧ entries_named "ENABLE_MPI" l
     = [VtkH.cmake_cache_entry "ENABLE_MPI" "OFF" None]
   ∧ Forall (λ n, startswith "MPI" n = false) (entry_names l))
  ∧ (generates (Ascent.create_host_config self spec prefix py) w p l →
     generates
       (Ascent.create_host_config self (with_dep "mpi" d spec) prefix py)
       w p l
     ∧ entries_named "ENABLE_MPI" l
       = [Ascent.cmake_cache_entry "ENABLE_MPI" "OFF"]
     ∧ Forall (λ n, startswith "MPI" n = false) (entry_names l)).
Proof.
  intros Hmpi. split.
  - intros (Hpre & -> & ->)%VtkHFacts.vtkh_generates_inv. split_and!.
    + destruct (vtkh_run_without_mpi self spec w d Hmpi)
        as (<- & <- & Hpre').
      by apply VtkHFacts.vtkh_generates_total, Hpre'.
    + vtkh_chunks. rewrite Hmpi. read_entries. by_flags.
    + vtkh_chunks. rewrite Hmpi.
      repeat match goal with
        | |- context [if ?c then _ else _] => destruct c
        end;
        eval_names; compute_done.
  - intros (Hpre & -> & ->)%AscentFacts.ascent_generates_inv. split_and!.
    + destruct (ascent_run_without_mpi self spec py w d Hmpi)
        as (<- & <- & Hpre').
      by apply AscentFacts.ascent_generates_total, Hpre'.
    + ascent_chunks. rewrite Hmpi. read_entries; by_flags.
    + ascent_chunks. rewrite Hmpi.
      repeat match goal with
        | |- context [if ?c then _ else _] => destruct c
        | |- context [match ?o with Some _ => _ | None => _ end] =>
            destruct o
        end;
        eval_names; compute_done.
Qed.

Lemma no_mpi_no_mpi_variables_witness :
  (generates
     (VtkH.create_host_config Demo.vtkh_pkg
        (with_dep "mpi" None (with_dep "mpi" (Some (Demo.dep "/opt/mpi" false))
                                Cases.vtkh_plain))
        "/opt/pkg")
     Demo.world
     "/tmp/stage/quartz-cray-cnl7-haswell-intel@19.0.4-vtkh.cmake"
     (VtkHOut.chunks Demo.vtkh_pkg
        (with_dep "mpi" (Some (Demo.dep "/opt/mpi" false)) Cases.vtkh_plain)
        Demo.world)
   ∧ entries_named "ENABLE_MPI"
       (VtkHOut.chunks Demo.vtkh_pkg
          (with_dep "mpi" (Some (Demo.dep "/opt/mpi" false))
             Cases.vtkh_plain)
          Demo.world)
     = [VtkH.cmake_cache_entry "ENABLE_MPI" "OFF" None]
   ∧ Forall (λ n, startswith "MPI" n = false)
       (entry_names
          (VtkHOut.chunks Demo.vtkh_pkg
             (with_dep "mpi" (Some (Demo.dep "/opt/mpi" false))
                Cases.vtkh_plain)
             Demo.world)))
  ∧ (generates
       (Ascent.create_host_config Cases.ascent_plain_pkg
          (with_dep "mpi" (Some (Demo.dep "/opt/mpi" false))
             Cases.ascent_plain)
          "/opt/pkg" None)
       Demo.world
       "/tmp/stage/quartz-linux-rhel7-x86_64-gcc@8.3.1-ascent.cmake"
       (AscentOut.chunks Cases.ascent_plain_pkg Cases.ascent_plain None
          Demo.world)
     ∧ entries_named "ENABLE_MPI"
         (AscentOut.chunks Cases.ascent_plain_pkg Cases.ascent_plain None
            Demo.world)
       = [Ascent.cmake_cache_entry "ENABLE_MPI" "OFF"]
     ∧ Forall (λ n, startswith "MPI" n = false)
         (entry_names
            (AscentOut.chunks Cases.ascent_plain_pkg Cases.ascent_plain
               None Demo.world))).
Proof.
  split.
  - apply (proj1 (no_mpi_no_mpi_variables Demo.vtkh_pkg
                    (with_dep "mpi" (Some (Demo.dep "/opt/mpi" false))
                       Cases.vtkh_plain)
                    "/opt/pkg" None Demo.world _ _ None eq_refl)).
    apply (VtkHFacts.vtkh_generates_total Demo.vtkh_pkg
             (with_dep "mpi" (Some (Demo.dep "/opt/mpi" false))
                Cases.vtkh_plain) "/opt/pkg" Demo.world).
    unfold VtkHOut.pre, VtkHOut.body_pre, VtkHOut.flags_pre,
      VtkHOut.mpi_pre.
    DemoFacts.solve_pre.
  - apply (proj2 (no_mpi_no_mpi_variables Cases.ascent_plain_pkg
                    Cases.ascent_plain "/opt/pkg" None Demo.world _ _
                    (Some (Demo.dep "/opt/mpi" false)) eq_refl)).
    apply AscentFacts.ascent_generates_total, cases_ascent_plain_pre.
Defined.

(** ** What [create_host_config] leaves alone *)

Lemma set_buffers_twice b b' w :
  set_buffers b' (set_buffers b w) = set_buffers b' w.
Proof. reflexivity. Qed.

Lemma set_buffers_same w : set_buffers (buffers w) w = w.
Proof. by destruct w. Qed.

Lemma quiet_ret {A} (a : A) : quiet (io_ret a).
Proof. intros w. exists (buffers w). by rewrite set_buffers_same. Qed.

Lemma quiet_lift {A} (r : result A) : quiet (lift r).
Proof. intros w. exists (buffers w). by rewrite set_buffers_same. Qed.

Lemma quiet_isfile p : quiet (os_path_isfile p).
Proof. intros w. exists (buffers w). by rewrite set_buffers_same. Qed.

Lemma quiet_write cfg s : quiet (cfg_write cfg s).
Proof.
  intros w. unfold cfg_write. destruct (buffers w !! cfg) as [l|]; cbn.
  - by eexists.
  - exists (buffers w). by rewrite set_buffers_same.
Qed.

Lemma quiet_bind {A B} (m : IO A) (k : A → IO B) :
  quiet m → (∀ a, quiet (k a)) → quiet (io_bind m k).
Proof.
  intros Hm Hk w. unfold io_bind. destruct (Hm w) as [b Hb].
  destruct (m w) as [[a|e] w1]; cbn in Hb; subst w1.
  - destruct (Hk a (set_buffers b w)) as [b' Hb']. exists b'.
    by rewrite Hb', set_buffers_twice.
  - by exists b.
Qed.

(** One step of a derivation of [quiet], by the shape of the program. *)
Ltac quiet_step :=
  cbv beta zeta;
  lazymatch goal with
  | |- quiet (io_bind _ _) => apply quiet_bind; [|intros ?]
  | |- quiet (cfg_write _ _) => apply quiet_write
  | |- quiet (io_ret _) => apply quiet_ret
  | |- quiet (spec_getitem _ _) => apply quiet_lift
  | |- quiet (flags_getitem _ _) => apply quiet_lift
  | |- quiet (os_path_isfile _) => apply quiet_isfile
  | |- quiet (if ?c then _ else _) => destruct c
  | |- quiet (match ?o with Some _ => _ | None => _ end) => destruct o
  end.

Lemma vtkh_write_all_quiet self spec cfg cc cxx sys_type cmake_exe :
  quiet (VtkH.write_all self spec cfg cc cxx sys_type cmake_exe).
Proof.
  unfold VtkH.write_all, VtkH.write_banner, VtkH.write_compilers,
    VtkH.write_shared, VtkH.write_flags, VtkH.write_options,
    VtkH.write_openmp, VtkH.write_vtkm, VtkH.write_serial,
    VtkH.write_logging, VtkH.write_mpi, VtkH.write_cuda, VtkH.write_footer.
  repeat quiet_step.
Qed.

Lemma ascent_write_all_quiet self spec cfg cc cxx f sys_type cmake_exe py :
  quiet (Ascent.write_all self spec cfg cc cxx f sys_type cmake_exe py).
Proof.
  unfold Ascent.write_all, Ascent.write_banner, Ascent.write_compilers,
    Ascent.write_fortran, Ascent.write_shared, Ascent.write_conduit,
    Ascent.write_python, Ascent.write_docs, Ascent.write_mpi,
    Ascent.write_cuda_openmp, Ascent.write_vtkh, Ascent.write_mfem,
    Ascent.write_adios, Ascent.write_footer.
  repeat quiet_step.
Qed.

Lemma touches_only_refl p w : touches_only p w w.
Proof. by repeat split. Qed.

(** From the open file to the end of the run. *)
Lemma touches_only_tail (m : string → IO unit) name msg w :
  (∀ cfg, quiet (m cfg)) →
  let p := abspath_in (cwd w) name in
  touches_only p w
    (io_bind (open_w name)
       (λ cfg, io_bind (m cfg) (λ _, io_bind (cfg_close cfg) (λ _,
          io_bind (os_path_abspath name) (λ f,
            io_bind (tty_info (msg +:+ f)) (λ _, io_ret f)))))
       w).2.
Proof.
  intros Hm p. unfold io_bind at 1, open_w at 1. fold p.
  destruct (can_create w p); [|apply touches_only_refl].
  unfold io_bind at 1.
  destruct (Hm p (set_buffer p [] (set_files (<[p := []]> (files w)) w)))
    as [b Hb].
  destruct (m p _) as [[[]|e] w1]; cbn in Hb; subst w1.
  - unfold io_bind, cfg_close, os_path_abspath, tty_info, io_ret.
    cbn [buffers set_buffers set_buffer set_files].
    destruct (b !! p); unfold touches_only; cbn;
      (split_and!;
       [reflexivity.. | by apply prefix_app_r
       | intros q Hq; by rewrite !lookup_insert_ne]).
  - unfold touches_only; cbn.
    split_and!; [reflexivity..|]. intros q Hq. by rewrite lookup_insert_ne.
Qed.

Lemma vtkh_host_config_frame self spec prefix w :
  touches_only (VtkHOut.path spec w) w
    (VtkH.create_host_config self spec prefix w).2.
Proof.
  unfold VtkH.create_host_config.
  unfold io_bind at 1, env_getitem at 1.
  destruct (environ w !! "SPACK_CC") as [cc|]; [|apply touches_only_refl].
  unfold io_bind at 1, env_getitem at 1.
  destruct (environ w !! "SPACK_CXX") as [cxx|]; [|apply touches_only_refl].
  unfold io_bind at 1, env_contains at 1.
  unfold io_bind at 1. rewrite env_or_default.
  unfold io_bind at 1, spec_getitem at 1, lift.
  destruct (deps spec !! "cmake") as [cm|]; [|apply touches_only_refl].
  unfold io_bind at 1, socket_gethostname at 1.
  apply (touches_only_tail
           (λ cfg, VtkH.write_all self spec cfg _ _ _ _) _
           "spack generated host-config file: ").
  intros cfg. apply vtkh_write_all_quiet.
Qed.

Lemma ascent_host_config_frame self spec prefix py w :
  touches_only (AscentOut.path spec w) w
    (Ascent.create_host_config self spec prefix py w).2.
Proof.
  unfold Ascent.create_host_config.
  unfold io_bind at 1, env_getitem at 1.
  destruct (environ w !! "SPACK_CC") as [cc|]; [|apply touches_only_refl].
  unfold io_bind at 1, env_getitem at 1.
  destruct (environ w !! "SPACK_CXX") as [cxx|]; [|apply touches_only_refl].
  unfold io_bind at 1.
  pose proof (AscentFacts.ascent_find_f_compiler_run self w) as Hf.
  destruct (Ascent.find_f_compiler self w) as [[f|e] w1].
  2:{ destruct Hf as (_ & ->). apply touches_only_refl. }
  destruct Hf as (_ & _ & ->).
  unfold io_bind at 1, env_contains at 1.
  unfold io_bind at 1. rewrite env_or_default.
  unfold io_bind at 1.
  pose proof (AscentFacts.ascent_find_cmake_run spec w) as Hc.
  destruct (Ascent.find_cmake spec w) as [[exe|e] w1].
  2:{ destruct Hc as (_ & ->). apply touches_only_refl. }
  destruct Hc as (_ & _ & ->).
  unfold io_bind at 1, socket_gethostname at 1.
  apply (touches_only_tail
           (λ cfg, Ascent.write_all self spec cfg _ _ _ _ _ _) _
           "spack generated conduit host-config file: ").
  intros cfg. apply ascent_write_all_quiet.
Qed.

(** X12: whether it returns or raises, [create_host_config] of either
    recipe launches no process and installs nothing, leaves the
    environment, the working directory and the names of the module as they
    were, only adds to the terminal, and changes no file other than the
    host-config file. *)
Theorem host_config_touches_only_its_file self spec prefix py w :
  touches_only (VtkHOut.path spec w) w
    (VtkH.create_host_config self spec prefix w).2
  ∧ touches_only (AscentOut.path spec w) w
      (Ascent.create_host_config self spec prefix py w).2.
Proof.
  split; [apply vtkh_host_config_frame | apply ascent_host_config_frame].
Qed.

(** ** Runs that raise *)

(** A block whose precondition holds returns, and has appended its
    chunks. *)
Lemma sound_ok {w0 h A} {m : IO A} {P a L} l0 :
  sound w0 h m P a L → P →
  m (set_buffer h l0 w0) = (Ok a, set_buffer h (l0 ++ L) w0).
Proof.
  intros Hs HP. specialize (Hs l0).
  destruct (m (set_buffer h l0 w0)) as [[a'|e] w1]; [|tauto].
  by destruct Hs as (_ & -> & ->).
Qed.

(** Run the first block of a sequence, by its soundness lemma. *)
Ltac run_block lem :=
  unfold io_bind at 1; rewrite (sound_ok _ lem) by tauto.

Lemma cfg_write_open cfg s l w0 :
  cfg_write cfg s (set_buffer cfg l w0)
  = (Ok tt, set_buffer cfg (l ++ [s]) w0).
Proof.
  unfold cfg_write. by rewrite buffers_set_buffer, set_buffer_twice.
Qed.

(** X13: a compiler variable that is missing from the environment is
    reported as a KeyError that names it, before anything is written: both
    recipes read SPACK_CC first and SPACK_CXX second, and ascent reads
    SPACK_FC when the compiler has an fc entry.  The world is left as it
    was. *)
Theorem missing_compiler_variable self spec prefix py w :
  (environ w !! "SPACK_CC" = None →
   VtkH.create_host_config self spec prefix w
   = (Raise (KeyError "SPACK_CC"), w)
   ∧ Ascent.create_host_config self spec prefix py w
     = (Raise (KeyError "SPACK_CC"), w))
  ∧ (is_Some (environ w !! "SPACK_CC") →
     environ w !! "SPACK_CXX" = None →
     VtkH.create_host_config self spec prefix w
     = (Raise (KeyError "SPACK_CXX"), w)
     ∧ Ascent.create_host_config self spec prefix py w
       = (Raise (KeyError "SPACK_CXX"), w))
  ∧ (is_Some (environ w !! "SPACK_CC") →
     is_Some (environ w !! "SPACK_CXX") →
     opt_truthy (compiler_fc self) = true →
     environ w !! "SPACK_FC" = None →
     Ascent.create_host_config self spec prefix py w
     = (Raise (KeyError "SPACK_FC"), w)).
Proof.
  split_and!.
  - intros Hcc.
    unfold VtkH.create_host_config, Ascent.create_host_config.
    unfold io_bind at 1, env_getitem at 1. rewrite Hcc.
    unfold io_bind at 1, env_getitem at 1. by rewrite Hcc.
  - intros [cc Hcc] Hcxx.
    unfold VtkH.create_host_config, Ascent.create_host_config.
    unfold io_bind at 1, env_getitem at 1. rewrite Hcc.
    unfold io_bind at 1, env_getitem at 1. rewrite Hcxx.
    unfold io_bind at 1, env_getitem at 1. rewrite Hcc.
    unfold io_bind at 1, env_getitem at 1. by rewrite Hcxx.
  - intros [cc Hcc] [cxx Hcxx] Hfc Henv.
    unfold Ascent.create_host_config.
    unfold io_bind at 1, env_getitem at 1. rewrite Hcc.
    unfold io_bind at 1, env_getitem at 1. rewrite Hcxx.
    unfold io_bind at 1, Ascent.find_f_compiler. rewrite Hfc.
    unfold io_bind at 1, env_getitem at 1. by rewrite Henv.
Qed.

Lemma missing_compiler_variable_witness :
  (VtkH.create_host_config Demo.vtkh_pkg Demo.vtkh_spec "/opt/pkg"
     Cases.world_no_cc
   = (Raise (KeyError "SPACK_CC"), Cases.world_no_cc)
   ∧ Ascent.create_host_config Demo.ascent_pkg Demo.ascent_spec "/opt/pkg"
       None Cases.world_no_cxx
     = (Raise (KeyError "SPACK_CXX"), Cases.world_no_cxx))
  ∧ Ascent.create_host_config Demo.ascent_pkg Demo.ascent_spec "/opt/pkg"
      None Cases.world_no_fc
    = (Raise (KeyError "SPACK_FC"), Cases.world_no_fc).
Proof.
  split; [split|].
  - apply (missing_compiler_variable Demo.vtkh_pkg Demo.vtkh_spec "/opt/pkg"
             None Cases.world_no_cc).
    reflexivity.
  - apply (missing_compiler_variable Demo.ascent_pkg Demo.ascent_spec
             "/opt/pkg" None Cases.world_no_cxx).
    + by eexists.
    + reflexivity.
  - apply (missing_compiler_variable Demo.ascent_pkg Demo.ascent_spec
             "/opt/pkg" None Cases.world_no_fc).
    + by eexists.
    + by eexists.
    + reflexivity.
    + reflexivity.
Defined.

(** X14: a specification without a cmake dependency.  vtk-h always reads
    the cmake of the specification, and ascent reads it when the cmake flag
    is enabled: without that dependency the call raises KeyError for cmake
    before the file is opened, and the world is left as it was. *)
Theorem missing_cmake_dependency self spec prefix py w :
  is_Some (environ w !! "SPACK_CC") →
  is_Some (environ w !! "SPACK_CXX") →
  deps spec !! "cmake" = None →
  VtkH.create_host_config self spec prefix w = (Raise (KeyError "cmake"), w)
  ∧ (spec_contains spec "+cmake" = true →
     AscentOut.fortran_pre self w →
     Ascent.create_host_config self spec prefix py w
     = (Raise (KeyError "cmake"), w)).
Proof.
  intros [cc Hcc] [cxx Hcxx] Hcm. split.
  - unfold VtkH.create_host_config.
    unfold io_bind at 1, env_getitem at 1. rewrite Hcc.
    unfold io_bind at 1, env_getitem at 1. rewrite Hcxx.
    unfold io_bind at 1, env_contains at 1.
    unfold io_bind at 1. rewrite env_or_default.
    unfold io_bind at 1, spec_getitem at 1, lift. by rewrite Hcm.
  - intros Hflag Hfpre. unfold Ascent.create_host_config.
    unfold io_bind at 1, env_getitem at 1. rewrite Hcc.
    unfold io_bind at 1, env_getitem at 1. rewrite Hcxx.
    unfold io_bind at 1.
    pose proof (AscentFacts.ascent_find_f_compiler_run self w) as Hf.
    destruct (Ascent.find_f_compiler self w) as [[f|e] w1]; [|tauto].
    destruct Hf as (_ & _ & ->).
    unfold io_bind at 1, env_contains at 1.
    unfold io_bind at 1. rewrite env_or_default.
    unfold io_bind at 1, Ascent.find_cmake. rewrite Hflag.
    unfold io_bind at 1, spec_getitem at 1, lift. by rewrite Hcm.
Qed.

Lemma missing_cmake_dependency_witness :
  VtkH.create_host_config Cases.ascent_plain_pkg Cases.ascent_plain
    "/opt/pkg" Demo.world
  = (Raise (KeyError "cmake"), Demo.world).
Proof.
  apply (missing_cmake_dependency Cases.ascent_plain_pkg Cases.ascent_plain
           "/opt/pkg" None Demo.world).
  - by eexists.
  - by eexists.
  - reflexivity.
Defined.

Lemma vtkh_write_all_no_vtkm self spec w0 cfg cc cxx st ce :
  VtkHOut.flags_pre spec → deps spec !! "vtk-m" = None →
  ∃ L, VtkH.write_all self spec cfg cc cxx st ce (set_buffer cfg [] w0)
       = (Raise (KeyError "vtk-m"), set_buffer cfg L w0).
Proof.
  intros Hflags Hvtkm. unfold VtkH.write_all.
  run_block (VtkHFacts.vtkh_write_banner_sound spec w0 cfg st ce).
  run_block (VtkHFacts.vtkh_write_compilers_sound spec w0 cfg cc cxx).
  run_block (VtkHFacts.vtkh_write_shared_sound spec w0 cfg).
  run_block (VtkHFacts.vtkh_write_flags_sound spec w0 cfg).
  run_block (VtkHFacts.vtkh_write_options_sound spec w0 cfg).
  run_block (VtkHFacts.vtkh_write_openmp_sound spec w0 cfg).
  unfold io_bind at 1, VtkH.write_vtkm.
  unfold io_bind at 1. rewrite cfg_write_open.
  unfold io_bind at 1. rewrite cfg_write_open.
  unfold io_bind at 1, spec_getitem, lift. rewrite Hvtkm.
  by eexists.
Qed.

Lemma ascent_write_all_no_conduit self spec w0 cfg cc cxx f st ce py :
  deps spec !! "conduit" = None →
  ∃ L, Ascent.write_all self spec cfg cc cxx f st ce py
         (set_buffer cfg [] w0)
       = (Raise (KeyError "conduit"), set_buffer cfg L w0).
Proof.
  intros Hconduit. unfold Ascent.write_all.
  run_block (AscentFacts.ascent_write_banner_sound spec w0 cfg st ce).
  run_block (AscentFacts.ascent_write_compilers_sound spec w0 cfg cc cxx).
  run_block (AscentFacts.ascent_write_fortran_sound w0 cfg f).
  run_block (AscentFacts.ascent_write_shared_sound spec w0 cfg).
  unfold io_bind at 1, Ascent.write_conduit.
  unfold io_bind at 1. rewrite cfg_write_open.
  unfold io_bind at 1, spec_getitem, lift. rewrite Hconduit.
  by eexists.
Qed.

Lemma vtkh_missing_vtkm_run self spec prefix w :
  is_Some (environ w !! "SPACK_CC") →
  is_Some (environ w !! "SPACK_CXX") →
  is_Some (deps spec !! "cmake") →
  can_create w (VtkHOut.path spec w) = true →
  VtkHOut.flags_pre spec →
  deps spec !! "vtk-m" = None →
  ∃ w', VtkH.create_host_config self spec prefix w
        = (Raise (KeyError "vtk-m"), w')
        ∧ is_Some (files w' !! VtkHOut.path spec w).
Proof.
  intros [cc Hcc] [cxx Hcxx] [cm Hcm] Hopen Hflags Hvtkm.
  unfold VtkH.create_host_config.
  unfold io_bind at 1, env_getitem at 1. rewrite Hcc.
  unfold io_bind at 1, env_getitem at 1. rewrite Hcxx.
  unfold io_bind at 1, env_contains at 1.
  unfold io_bind at 1. rewrite env_or_default.
  unfold io_bind at 1, spec_getitem at 1, lift. rewrite Hcm.
  unfold io_bind at 1, socket_gethostname at 1.
  unfold io_bind at 1, open_w at 1.
  fold (VtkHOut.sys_type spec w). fold (VtkHOut.fname spec w).
  fold (VtkHOut.path spec w). rewrite Hopen.
  unfold io_bind at 1.
  destruct (vtkh_write_all_no_vtkm self spec
              (set_files (<[VtkHOut.path spec w := []]> (files w)) w)
              (VtkHOut.path spec w) cc cxx (VtkHOut.sys_type spec w)
              (command_path cm) Hflags Hvtkm) as [L ->].
  eexists. split; [reflexivity|]. cbn. rewrite lookup_insert_eq. eauto.
Qed.

Lemma ascent_missing_conduit_run self spec prefix py w :
  is_Some (environ w !! "SPACK_CC") →
  is_Some (environ w !! "SPACK_CXX") →
  AscentOut.fortran_pre self w →
  AscentOut.cmake_pre spec w →
  can_create w (AscentOut.path spec w) = true →
  deps spec !! "conduit" = None →
  ∃ w', Ascent.create_host_config self spec prefix py w
        = (Raise (KeyError "conduit"), w')
        ∧ is_Some (files w' !! AscentOut.path spec w).
Proof.
  intros [cc Hcc] [cxx Hcxx] Hfpre Hcpre Hopen Hconduit.
  unfold Ascent.create_host_config.
  unfold io_bind at 1, env_getitem at 1. rewrite Hcc.
  unfold io_bind at 1, env_getitem at 1. rewrite Hcxx.
  unfold io_bind at 1.
  pose proof (AscentFacts.ascent_find_f_compiler_run self w) as Hf.
  destruct (Ascent.find_f_compiler self w) as [[f|e] w1]; [|tauto].
  destruct Hf as (_ & _ & ->).
  unfold io_bind at 1, env_contains at 1.
  unfold io_bind at 1. rewrite env_or_default.
  unfold io_bind at 1.
  pose proof (AscentFacts.ascent_find_cmake_run spec w) as Hc.
  destruct (Ascent.find_cmake spec w) as [[exe|e] w1]; [|tauto].
  destruct Hc as (_ & _ & ->).
  unfold io_bind at 1, socket_gethostname at 1.
  unfold io_bind at 1, open_w at 1.
  fold (AscentOut.sys_type spec w). fold (AscentOut.fname spec w).
  fold (AscentOut.path spec w). rewrite Hopen.
  unfold io_bind at 1.
  destruct (ascent_write_all_no_conduit self spec
              (set_files (<[AscentOut.path spec w := []]> (files w)) w)
              (AscentOut.path spec w) cc cxx f (AscentOut.sys_type spec w)
              exe py Hconduit) as [L ->].
  eexists. split; [reflexivity|]. cbn. rewrite lookup_insert_eq. eauto.
Qed.

(** X15: a dependency that turns out to be missing while the file is being
    written.  Once the host-config file has been opened (it can be created
    where it is to go), vtk-h without a vtk-m dependency, and ascent
    without a conduit dependency, raise KeyError for that dependency: no
    path is returned, and the file is left behind (it exists afterwards,
    whether or not it did before). *)
Theorem missing_dependency_leaves_file self spec prefix py w :
  is_Some (environ w !! "SPACK_CC") →
  is_Some (environ w !! "SPACK_CXX") →
  (is_Some (deps spec !! "cmake") →
   can_create w (VtkHOut.path spec w) = true →
   VtkHOut.flags_pre spec →
   deps spec !! "vtk-m" = None →
   ∃ w', VtkH.create_host_config self spec prefix w
         = (Raise (KeyError "vtk-m"), w')
         ∧ is_Some (files w' !! VtkHOut.path spec w))
  ∧ (AscentOut.fortran_pre self w →
     AscentOut.cmake_pre spec w →
     can_create w (AscentOut.path spec w) = true →
     deps spec !! "conduit" = None →
     ∃ w', Ascent.create_host_config self spec prefix py w
           = (Raise (KeyError "conduit"), w')
           ∧ is_Some (files w' !! AscentOut.path spec w)).
Proof.
  intros Hcc Hcxx. split.
  - intros. by apply vtkh_missing_vtkm_run.
  - intros. by apply ascent_missing_conduit_run.
Qed.

Lemma missing_dependency_leaves_file_witness :
  (files Demo.world
   !! "/tmp/stage/quartz-linux-rhel7-x86_64-gcc@8.3.1-vtkh.cmake" = None
   ∧ ∃ w', VtkH.create_host_config Demo.vtkh_pkg Cases.vtkh_no_vtkm
             "/opt/pkg" Demo.world
           = (Raise (KeyError "vtk-m"), w')
           ∧ is_Some
               (files w'
                !! "/tmp/stage/quartz-linux-rhel7-x86_64-gcc@8.3.1-vtkh.cmake"))
  ∧ ∃ w', Ascent.create_host_config Demo.ascent_pkg Cases.ascent_unresolved
            "/opt/pkg" None Demo.world
          = (Raise (KeyError "conduit"), w')
          ∧ is_Some
              (files w'
               !! "/tmp/stage/quartz-linux-rhel7-x86_64-gcc@8.3.1-ascent.cmake").
Proof.
  split; [split; [reflexivity|]|].
  - apply (missing_dependency_leaves_file Demo.vtkh_pkg Cases.vtkh_no_vtkm
             "/opt/pkg" None Demo.world).
    + by eexists.
    + by eexists.
    + by eexists.
    + reflexivity.
    + unfold VtkHOut.flags_pre. DemoFacts.solve_pre.
    + reflexivity.
  - apply (missing_dependency_leaves_file Demo.ascent_pkg
             Cases.ascent_unresolved "/opt/pkg" None Demo.world).
    + by eexists.
    + by eexists.
    + intros _. by eexists.
    + unfold AscentOut.cmake_pre. DemoFacts.solve_pre.
    + reflexivity.
    + reflexivity.
Defined.

(** X27: when the host-config file cannot be created where it is to go (the
    directory does not exist or cannot be written to; a [SYS_TYPE] with a
    slash in it is enough), [create_host_config] of either recipe raises
    the error of [open] and leaves the world as it was: nothing is written
    and no path is returned. *)
Theorem host_config_cannot_be_created self spec prefix py w :
  is_Some (environ w !! "SPACK_CC") →
  is_Some (environ w !! "SPACK_CXX") →
  (is_Some (deps spec !! "cmake") →
   can_create w (VtkHOut.path spec w) = false →
   VtkH.create_host_config self spec prefix w
   = (Raise (OSError (VtkHOut.path spec w)), w))
  ∧ (AscentOut.fortran_pre self w →
     AscentOut.cmake_pre spec w →
     can_create w (AscentOut.path spec w) = false →
     Ascent.create_host_config self spec prefix py w
     = (Raise (OSError (AscentOut.path spec w)), w)).
Proof.
  intros [cc Hcc] [cxx Hcxx]. split.
  - intros [cm Hcm] Hopen. unfold VtkH.create_host_config.
    unfold io_bind at 1, env_getitem at 1. rewrite Hcc.
    unfold io_bind at 1, env_getitem at 1. rewrite Hcxx.
    unfold io_bind at 1, env_contains at 1.
    unfold io_bind at 1. rewrite env_or_default.
    unfold io_bind at 1, spec_getitem at 1, lift. rewrite Hcm.
    unfold io_bind at 1, socket_gethostname at 1.
    unfold io_bind at 1, open_w at 1.
    fold (VtkHOut.sys_type spec w). fold (VtkHOut.fname spec w).
    fold (VtkHOut.path spec w). by rewrite Hopen.
  - intros Hfpre Hcpre Hopen. unfold Ascent.create_host_config.
    unfold io_bind at 1, env_getitem at 1. rewrite Hcc.
    unfold io_bind at 1, env_getitem at 1. rewrite Hcxx.
    unfold io_bind at 1.
    pose proof (AscentFacts.ascent_find_f_compiler_run self w) as Hf.
    destruct (Ascent.find_f_compiler self w) as [[f|e] w1]; [|tauto].
    destruct Hf as (_ & _ & ->).
    unfold io_bind at 1, env_contains at 1.
    unfold io_bind at 1. rewrite env_or_default.
    unfold io_bind at 1.
    pose proof (AscentFacts.ascent_find_cmake_run spec w) as Hc.
    destruct (Ascent.find_cmake spec w) as [[exe|e] w1]; [|tauto].
    destruct Hc as (_ & _ & ->).
    unfold io_bind at 1, socket_gethostname at 1.
    unfold io_bind at 1, open_w at 1.
    fold (AscentOut.sys_type spec w). fold (AscentOut.fname spec w).
    fold (AscentOut.path spec w). by rewrite Hopen.
Qed.

Lemma host_config_cannot_be_created_witness :
  VtkH.create_host_config Demo.vtkh_pkg Demo.vtkh_spec "/opt/pkg"
    Cases.world_toss
  = (Raise (OSError "/tmp/stage/quartz-toss/3-gcc@8.3.1-vtkh.cmake"),
     Cases.world_toss)
  ∧ Ascent.create_host_config Cases.ascent_plain_pkg Cases.ascent_plain
      "/opt/pkg" None Cases.world_toss
    = (Raise (OSError "/tmp/stage/quartz-toss/3-gcc@8.3.1-ascent.cmake"),
       Cases.world_toss).
Proof.
  split.
  - apply (host_config_cannot_be_created Demo.vtkh_pkg Demo.vtkh_spec
             "/opt/pkg" None Cases.world_toss).
    + by eexists.
    + by eexists.
    + by eexists.
    + reflexivity.
  - apply (host_config_cannot_be_created Cases.ascent_plain_pkg
             Cases.ascent_plain "/opt/pkg" None Cases.world_toss).
    + by eexists.
    + by eexists.
    + intros H. discriminate H.
    + unfold AscentOut.cmake_pre. DemoFacts.solve_pre.
    + reflexivity.
Defined.

(** ** The install drivers, step by step *)

(** X16: the install driver of vtk-h, once the host-config file is written
    and the standard arguments are at hand.  It launches the configure
    step with the arguments of [cmake_args], which name the file just
    written in the build directory, then the build and then the install
    step, and stops at the first step that fails, raising its error; only
    when all three have succeeded does it copy the host-config file into
    the prefix, and it is then back in the directory it started from. *)
Theorem vtkh_install_steps self spec prefix w std :
  globals w !! "std_cmake_args" = Some (PList std) →
  VtkHOut.pre self spec (in_build_dir w) →
  let cfg := VtkHOut.path spec (in_build_dir w) in
  let steps :=
    [Cmake (VtkH.cmake_args spec std cfg); Make []; Make ["install"]] in
  ∃ w', VtkH.install self spec prefix w
        = (install_result (exit_ok w) steps, w')
        ∧ commands w' = commands w ++ launched (exit_ok w) steps
        ∧ installed w'
          = installed w ++ install_copy (exit_ok w) steps cfg prefix
        ∧ files w' !! cfg = Some (VtkHOut.chunks self spec (in_build_dir w))
        ∧ (first_failure (exit_ok w) steps = None → cwd w' = cwd w).
Proof.
  intros Hstd Hpre cfg steps. subst steps.
  unfold VtkH.install, with_working_dir.
  change (set_cwd (abspath_in (cwd w) "spack-build") w)
    with (in_build_dir w).
  pose proof (VtkHFacts.vtkh_create_host_config_run self spec prefix
                (in_build_dir w)) as Hrun.
  unfold io_bind at 1.
  destruct (VtkH.create_host_config self spec prefix (in_build_dir w))
    as [[p|e] w1]; [|tauto].
  destruct Hrun as (_ & -> & ->). fold cfg.
  unfold io_bind at 1.
  rewrite (load_list_run "std_cmake_args" std
             (VtkHOut.final self spec (in_build_dir w)) Hstd).
  cbv beta zeta. generalize (VtkH.cmake_args spec std cfg). intros args.
  unfold install_result, install_copy.
  unfold io_bind, print, cmake, make, run_command, install_file.
  cbn -[VtkHOut.chunks].
  destruct (exit_ok w (Cmake args)); cbn -[VtkHOut.chunks];
    [destruct (exit_ok w (Make [])); cbn -[VtkHOut.chunks];
     [destruct (exit_ok w (Make ["install"])); cbn -[VtkHOut.chunks]|]|];
    (eexists; split_and!;
     [reflexivity
     |cbn; rewrite <- ?app_assoc; reflexivity
     |cbn; rewrite ?app_nil_r; reflexivity
     |cbn; apply lookup_insert_eq
     |done]).
Qed.

(** X17: the install driver of ascent does the same, with the
    site-packages directory of the module handed to the emitter when the
    python flag is enabled. *)
Theorem ascent_install_steps self spec prefix w std :
  globals w !! "std_cmake_args" = Some (PList std) →
  (spec_contains spec "+python" = true →
   ∃ s, globals w !! "site_packages_dir" = Some (PStr s)) →
  AscentOut.pre self spec (in_build_dir w) →
  let cfg := AscentOut.path spec (in_build_dir w) in
  let steps :=
    [Cmake (Ascent.cmake_args spec std cfg); Make []; Make ["install"]] in
  ∃ w', Ascent.install self spec prefix w
        = (install_result (exit_ok w) steps, w')
        ∧ commands w' = commands w ++ launched (exit_ok w) steps
        ∧ installed w'
          = installed w ++ install_copy (exit_ok w) steps cfg prefix
        ∧ files w' !! cfg
          = Some (AscentOut.chunks self spec (py_site_pkgs_dir_of spec w)
                    (in_build_dir w))
        ∧ (first_failure (exit_ok w) steps = None → cwd w' = cwd w).
Proof.
  intros Hstd Hpy Hpre cfg steps. subst steps.
  unfold Ascent.install, with_working_dir.
  change (set_cwd (abspath_in (cwd w) "spack-build") w)
    with (in_build_dir w).
  unfold io_bind at 1.
  assert ((if spec_contains spec "+python"
           then io_bind (load_str "site_packages_dir")
                  (λ s, io_ret (Some s))
           else io_ret None) (in_build_dir w)
          = (Ok (py_site_pkgs_dir_of spec w), in_build_dir w)) as ->.
  { unfold py_site_pkgs_dir_of.
    destruct (spec_contains spec "+python"); [|done].
    destruct (Hpy eq_refl) as (s & Hs).
    unfold io_bind. rewrite (load_str_run _ s (in_build_dir w) Hs).
    by rewrite Hs. }
  pose proof (AscentFacts.ascent_create_host_config_run self spec prefix
                (py_site_pkgs_dir_of spec w) (in_build_dir w)) as Hrun.
  unfold io_bind at 1.
  destruct (Ascent.create_host_config self spec prefix
              (py_site_pkgs_dir_of spec w) (in_build_dir w))
    as [[p|e] w1]; [|tauto].
  destruct Hrun as (_ & -> & ->). fold cfg.
  unfold io_bind at 1.
  rewrite (load_list_run "std_cmake_args" std
             (AscentOut.final self spec (py_site_pkgs_dir_of spec w)
                (in_build_dir w)) Hstd).
  cbv beta zeta. generalize (Ascent.cmake_args spec std cfg). intros args.
  unfold install_result, install_copy.
  unfold io_bind, print, cmake, make, run_command, install_file.
  cbn -[AscentOut.chunks].
  destruct (exit_ok w (Cmake args)); cbn -[AscentOut.chunks];
    [destruct (exit_ok w (Make [])); cbn -[AscentOut.chunks];
     [destruct (exit_ok w (Make ["install"])); cbn -[AscentOut.chunks]|]|];
    (eexists; split_and!;
     [reflexivity
     |cbn; rewrite <- ?app_assoc; reflexivity
     |cbn; rewrite ?app_nil_r; reflexivity
     |cbn; apply lookup_insert_eq
     |done]).
Qed.

Lemma demo_vtkh_build_pre w :
  w = Demo.world ∨ w = Cases.with_exit Cases.cmake_fails Demo.world →
  VtkHOut.pre Demo.vtkh_pkg Demo.vtkh_spec (in_build_dir w).
Proof.
  intros [-> | ->];
    unfold VtkHOut.pre, VtkHOut.body_pre, VtkHOut.flags_pre,
      VtkHOut.mpi_pre;
    DemoFacts.solve_pre.
Qed.

Lemma demo_ascent_build_pre w :
  w = Demo.world ∨ w = Cases.with_exit Cases.cmake_fails Demo.world →
  AscentOut.pre Demo.ascent_pkg Demo.ascent_spec (in_build_dir w).
Proof.
  intros [-> | ->];
    unfold AscentOut.pre, AscentOut.body_pre, AscentOut.fortran_pre,
      AscentOut.cmake_pre, AscentOut.mpi_pre, AscentOut.needs;
    DemoFacts.solve_pre.
Qed.

Lemma vtkh_install_steps_witness :
  (∃ w', VtkH.install Demo.vtkh_pkg Demo.vtkh_spec "/opt/pkg" Demo.world
         = (Ok tt, w')
         ∧ commands w'
           = [Cmake
                ["-DCMAKE_INSTALL_PREFIX:PATH=/opt/pkg";
                 "-DCMAKE_INSTALL_RPATH_USE_LINK_PATH:BOOL=FALSE";
                 "-DCMAKE_INSTALL_RPATH:STRING=/opt/pkg/lib";
                 "-DCMAKE_BUILD_TYPE=Release"; "-C";
                 "/tmp/stage/spack-build/quartz-linux-rhel7-x86_64-gcc@8.3.1-vtkh.cmake";
                 "../src"];
              Make []; Make ["install"]]
         ∧ installed w'
           = [("/tmp/stage/spack-build/quartz-linux-rhel7-x86_64-gcc@8.3.1-vtkh.cmake",
               "/opt/pkg")]
         ∧ cwd w' = "/tmp/stage")
  ∧ (∃ w', VtkH.install Demo.vtkh_pkg Demo.vtkh_spec "/opt/pkg"
             (Cases.with_exit Cases.cmake_fails Demo.world)
           = (Raise
                (ProcessError
                   (Cmake
                      (VtkH.cmake_args Demo.vtkh_spec Demo.std_cmake_args
                         "/tmp/stage/spack-build/quartz-linux-rhel7-x86_64-gcc@8.3.1-vtkh.cmake"))),
              w')
           ∧ length (commands w') = 1
           ∧ installed w' = []).
Proof.
  split.
  - destruct (vtkh_install_steps Demo.vtkh_pkg Demo.vtkh_spec "/opt/pkg"
                Demo.world Demo.std_cmake_args)
      as (w' & H1 & H2 & H3 & _ & H5).
    + reflexivity.
    + apply demo_vtkh_build_pre. by left.
    + exists w'. split; [exact H1|]. split; [exact H2|].
      split; [exact H3|]. exact (H5 eq_refl).
  - destruct (vtkh_install_steps Demo.vtkh_pkg Demo.vtkh_spec "/opt/pkg"
                (Cases.with_exit Cases.cmake_fails Demo.world)
                Demo.std_cmake_args)
      as (w' & H1 & H2 & H3 & _).
    + reflexivity.
    + apply demo_vtkh_build_pre. by right.
    + exists w'. split; [exact H1|]. split; [by rewrite H2|]. exact H3.
Defined.

Lemma ascent_install_steps_witness :
  (∃ w', Ascent.install Demo.ascent_pkg Demo.ascent_spec "/opt/pkg"
           Demo.world
         = (Ok tt, w')
         ∧ commands w'
           = [Cmake
                ["-DCMAKE_INSTALL_PREFIX:PATH=/opt/pkg";
                 "-DCMAKE_BUILD_TYPE:STRING=RelWithDebInfo";
                 "-DCMAKE_INSTALL_RPATH_USE_LINK_PATH:BOOL=FALSE";
                 "-DCMAKE_INSTALL_RPATH:STRING=/opt/pkg/lib"; "-C";
                 "/tmp/stage/spack-build/quartz-linux-rhel7-x86_64-gcc@8.3.1-ascent.cmake";
                 "../src"];
              Make []; Make ["install"]]
         ∧ installed w'
           = [("/tmp/stage/spack-build/quartz-linux-rhel7-x86_64-gcc@8.3.1-ascent.cmake",
               "/opt/pkg")]
         ∧ cwd w' = "/tmp/stage")
  ∧ (∃ w', Ascent.install Demo.ascent_pkg Demo.ascent_spec "/opt/pkg"
             (Cases.with_exit Cases.cmake_fails Demo.world)
           = (Raise
                (ProcessError
                   (Cmake
                      (Ascent.cmake_args Demo.ascent_spec
                         Demo.std_cmake_args
                         "/tmp/stage/spack-build/quartz-linux-rhel7-x86_64-gcc@8.3.1-ascent.cmake"))),
              w')
           ∧ length (commands w') = 1
           ∧ installed w' = []).
Proof.
  split.
  - destruct (ascent_install_steps Demo.ascent_pkg Demo.ascent_spec
                "/opt/pkg" Demo.world Demo.std_cmake_args)
      as (w' & H1 & H2 & H3 & _ & H5).
    + reflexivity.
    + intros _. by eexists.
    + apply demo_ascent_build_pre. by left.
    + exists w'. split; [exact H1|]. split; [exact H2|].
      split; [exact H3|]. exact (H5 eq_refl).
  - destruct (ascent_install_steps Demo.ascent_pkg Demo.ascent_spec
                "/opt/pkg" (Cases.with_exit Cases.cmake_fails Demo.world)
                Demo.std_cmake_args)
      as (w' & H1 & H2 & H3 & _).
    + reflexivity.
    + intros _. by eexists.
    + apply demo_ascent_build_pre. by right.
    + exists w'. split; [exact H1|]. split; [by rewrite H2|]. exact H3.
Defined.

(** X18: when [create_host_config] raises, the install driver raises the
    same error without launching any process and without installing
    anything. *)
Theorem install_stops_without_host_config self spec prefix w e :
  (∀ w1, VtkH.create_host_config self spec prefix (in_build_dir w)
         = (Raise e, w1) →
     ∃ w', VtkH.install self spec prefix w = (Raise e, w')
           ∧ commands w' = commands w ∧ installed w' = installed w)
  ∧ (∀ w1, (spec_contains spec "+python" = true →
            ∃ s, globals w !! "site_packages_dir" = Some (PStr s)) →
           Ascent.create_host_config self spec prefix
             (py_site_pkgs_dir_of spec w) (in_build_dir w)
           = (Raise e, w1) →
     ∃ w', Ascent.install self spec prefix w = (Raise e, w')
           ∧ commands w' = commands w ∧ installed w' = installed w).
Proof.
  split.
  - intros w1 Hrun.
    pose proof (vtkh_host_config_frame self spec prefix (in_build_dir w))
      as Hframe.
    unfold VtkH.install, with_working_dir.
    change (set_cwd (abspath_in (cwd w) "spack-build") w)
      with (in_build_dir w).
    unfold io_bind at 1. rewrite Hrun in Hframe |- *.
    destruct Hframe as (_ & _ & _ & _ & _ & Hc & Hi & _).
    eexists. split; [reflexivity|]. split; [exact Hc | exact Hi].
  - intros w1 Hpy Hrun.
    pose proof (ascent_host_config_frame self spec prefix
                  (py_site_pkgs_dir_of spec w) (in_build_dir w)) as Hframe.
    unfold Ascent.install, with_working_dir.
    change (set_cwd (abspath_in (cwd w) "spack-build") w)
      with (in_build_dir w).
    unfold io_bind at 1.
    assert ((if spec_contains spec "+python"
             then io_bind (load_str "site_packages_dir")
                    (λ s, io_ret (Some s))
             else io_ret None) (in_build_dir w)
            = (Ok (py_site_pkgs_dir_of spec w), in_build_dir w)) as ->.
    { unfold py_site_pkgs_dir_of.
      destruct (spec_contains spec "+python"); [|done].
      destruct (Hpy eq_refl) as (s & Hs).
      unfold io_bind. rewrite (load_str_run _ s (in_build_dir w) Hs).
      by rewrite Hs. }
    unfold io_bind at 1. rewrite Hrun in Hframe |- *.
    destruct Hframe as (_ & _ & _ & _ & _ & Hc & Hi & _).
    eexists. split; [reflexivity|]. split; [exact Hc | exact Hi].
Qed.

Lemma install_stops_without_host_config_witness :
  ∃ w', VtkH.install Demo.vtkh_pkg Cases.vtkh_no_vtkm "/opt/pkg" Demo.world
        = (Raise (KeyError "vtk-m"), w')
        ∧ commands w' = [] ∧ installed w' = [].
Proof.
  destruct (vtkh_missing_vtkm_run Demo.vtkh_pkg Cases.vtkh_no_vtkm
              "/opt/pkg" (in_build_dir Demo.world)) as (w1 & Hrun & _);
    [by eexists | by eexists | by eexists | reflexivity
    | unfold VtkHOut.flags_pre; DemoFacts.solve_pre | reflexivity |].
  apply (proj1 (install_stops_without_host_config Demo.vtkh_pkg
                  Cases.vtkh_no_vtkm "/opt/pkg" Demo.world
                  (KeyError "vtk-m")) w1 Hrun).
Defined.

(** X19: the names the install drivers read from the module.  When the
    python flag is enabled and [site_packages_dir] is not bound, the ascent
    driver raises NameError for it before anything is written or launched.
    When [std_cmake_args] is not bound, both drivers raise NameError for it
    after the host-config file has been written, and launch nothing. *)
Theorem install_unbound_names self spec prefix w :
  (spec_contains spec "+python" = true →
   globals w !! "site_packages_dir" = None →
   ∃ w', Ascent.install self spec prefix w
         = (Raise (NameError "site_packages_dir"), w')
         ∧ files w' = files w
         ∧ commands w' = commands w ∧ installed w' = installed w)
  ∧ (globals w !! "std_cmake_args" = None →
     (VtkHOut.pre self spec (in_build_dir w) →
      ∃ w', VtkH.install self spec prefix w
            = (Raise (NameError "std_cmake_args"), w')
            ∧ is_Some (files w' !! VtkHOut.path spec (in_build_dir w))
            ∧ commands w' = commands w ∧ installed w' = installed w)
     ∧ ((spec_contains spec "+python" = true →
         ∃ s, globals w !! "site_packages_dir" = Some (PStr s)) →
        AscentOut.pre self spec (in_build_dir w) →
        ∃ w', Ascent.install self spec prefix w
              = (Raise (NameError "std_cmake_args"), w')
              ∧ is_Some (files w' !! AscentOut.path spec (in_build_dir w))
              ∧ commands w' = commands w ∧ installed w' = installed w)).
Proof.
  split; [|intros Hstd; split].
  - intros Hpy Hname. unfold Ascent.install, with_working_dir.
    unfold io_bind at 1. rewrite Hpy.
    unfold io_bind at 1, load_str, io_bind, load_global; cbn.
    rewrite Hname. by eexists.
  - intros Hpre. unfold VtkH.install, with_working_dir.
    change (set_cwd (abspath_in (cwd w) "spack-build") w)
      with (in_build_dir w).
    pose proof (VtkHFacts.vtkh_create_host_config_run self spec prefix
                  (in_build_dir w)) as Hrun.
    unfold io_bind at 1.
    destruct (VtkH.create_host_config self spec prefix (in_build_dir w))
      as [[p|e] w1]; [|tauto].
    destruct Hrun as (_ & -> & ->).
    unfold io_bind at 1, load_list, io_bind, load_global.
    cbn -[VtkHOut.chunks]. rewrite Hstd.
    eexists. split; [reflexivity|]. cbn -[VtkHOut.chunks].
    rewrite lookup_insert_eq. eauto.
  - intros Hpy Hpre. unfold Ascent.install, with_working_dir.
    change (set_cwd (abspath_in (cwd w) "spack-build") w)
      with (in_build_dir w).
    unfold io_bind at 1.
    assert ((if spec_contains spec "+python"
             then io_bind (load_str "site_packages_dir")
                    (λ s, io_ret (Some s))
             else io_ret None) (in_build_dir w)
            = (Ok (py_site_pkgs_dir_of spec w), in_build_dir w)) as ->.
    { unfold py_site_pkgs_dir_of.
      destruct (spec_contains spec "+python"); [|done].
      destruct (Hpy eq_refl) as (s & Hs).
      unfold io_bind. rewrite (load_str_run _ s (in_build_dir w) Hs).
      by rewrite Hs. }
    pose proof (AscentFacts.ascent_create_host_config_run self spec prefix
                  (py_site_pkgs_dir_of spec w) (in_build_dir w)) as Hrun.
    unfold io_bind at 1.
    destruct (Ascent.create_host_config self spec prefix
                (py_site_pkgs_dir_of spec w) (in_build_dir w))
      as [[p|e] w1]; [|tauto].
    destruct Hrun as (_ & -> & ->).
    unfold io_bind at 1, load_list, io_bind, load_global.
    cbn -[AscentOut.chunks]. rewrite Hstd.
    eexists. split; [reflexivity|]. cbn -[AscentOut.chunks].
    rewrite lookup_insert_eq. eauto.
Qed.

Lemma install_unbound_names_witness :
  ∃ w', Ascent.install Demo.ascent_pkg Demo.ascent_spec "/opt/pkg"
          (set_globals ∅ Demo.world)
        = (Raise (NameError "site_packages_dir"), w')
        ∧ files w' = files (set_globals ∅ Demo.world)
        ∧ commands w' = commands (set_globals ∅ Demo.world)
        ∧ installed w' = installed (set_globals ∅ Demo.world).
Proof.
  apply (proj1 (install_unbound_names Demo.ascent_pkg Demo.ascent_spec
                  "/opt/pkg" (set_globals ∅ Demo.world))).
  - reflexivity.
  - reflexivity.
Defined.

(** X20: vtk-h with both the cuda and the shared flag enabled.  The
    host-config file says the build is static, yet the install driver
    decides by the shared flag alone whether to keep the RPATH arguments:
    every standard argument that does not contain CMAKE_BUILD_TYPE, the
    RPATH ones included, is passed to the configure step. *)
Theorem vtkh_cuda_static_keeps_rpath self spec prefix w p l std arg :
  generates (VtkH.create_host_config self spec prefix) w p l →
  spec_contains spec "+cuda" = true →
  spec_contains spec "+shared" = true →
  arg ∈ std →
  str_count arg "CMAKE_BUILD_TYPE" = 0 →
  entries_named "BUILD_SHARED_LIBS" l
  = [VtkH.cmake_cache_entry "BUILD_SHARED_LIBS" "OFF" None]
  ∧ arg ∈ VtkH.cmake_args spec std p.
Proof.
  intros (_ & _ & ->)%VtkHFacts.vtkh_generates_inv Hcuda Hshared Harg Hbt.
  split.
  - vtkh_chunks. rewrite Hcuda. cbn [negb andb]. read_entries. by_flags.
  - rewrite vtkh_cmake_args_without, Hshared.
    apply elem_of_app. left. unfold without.
    apply list_elem_of_In, List.filter_In. split.
    + by apply list_elem_of_In.
    + by rewrite Hbt.
Qed.

Lemma vtkh_cuda_static_keeps_rpath_witness :
  entries_named "BUILD_SHARED_LIBS"
    (VtkHOut.chunks Demo.vtkh_pkg Demo.vtkh_spec Demo.world)
  = [VtkH.cmake_cache_entry "BUILD_SHARED_LIBS" "OFF" None]
  ∧ "-DCMAKE_INSTALL_RPATH:STRING=/opt/pkg/lib"
    ∈ VtkH.cmake_args Demo.vtkh_spec Demo.std_cmake_args
        (VtkHOut.path Demo.vtkh_spec Demo.world).
Proof.
  apply (vtkh_cuda_static_keeps_rpath Demo.vtkh_pkg Demo.vtkh_spec
           "/opt/pkg" Demo.world).
  - apply VtkHFacts.vtkh_generates_total, DemoFacts.vtkh_pre.
  - reflexivity.
  - reflexivity.
  - unfold Demo.std_cmake_args. set_solver.
  - reflexivity.
Defined.

(** ** The babelflow and pmt recipes with the name bound *)

(** X21: [cmake_install] of babelflow and of pmt when the module does bind
    [cmake_args] to a list.  The method appends the BUILD_SHARED_LIBS
    argument for the shared flag to that list and hands the list to
    nobody: it launches the build and the install step of make, stopping
    at the first that fails, and never a configure step. *)
Theorem cmake_install_bound_list self spec prefix w l :
  globals w !! "cmake_args" = Some (PList l) →
  let arg :=
    if spec_contains spec "+shared" then "-DBUILD_SHARED_LIBS=ON"
    else "-DBUILD_SHARED_LIBS=OFF" in
  let steps := [Make []; Make ["install"]] in
  let w' :=
    set_commands (commands w ++ launched (exit_ok w) steps)
      (set_globals (<["cmake_args" := PList (l ++ [arg])]> (globals w)) w) in
  Babelflow.cmake_install self spec prefix w
  = (install_result (exit_ok w) steps, w')
  ∧ Pmt.cmake_install self spec prefix w
    = (install_result (exit_ok w) steps, w').
Proof.
  intros Hl arg steps w'. subst arg steps w'.
  assert (∀ x, global_append "cmake_args" x w
               = (Ok tt, set_globals
                           (<["cmake_args" := PList (l ++ [x])]> (globals w))
                           w)) as Happ.
  { intros x. unfold global_append, io_bind, load_global. by rewrite Hl. }
  unfold Babelflow.cmake_install, Pmt.cmake_install, install_result.
  split; unfold io_bind at 1;
    (destruct (spec_contains spec "+shared"); rewrite Happ;
     unfold io_bind, make, run_command; cbn;
     destruct (exit_ok w (Make [])); cbn;
     try destruct (exit_ok w (Make ["install"])); cbn;
     unfold set_commands; cbn; rewrite <- ?app_assoc; reflexivity).
Qed.

Lemma cmake_install_bound_list_witness :
  let w := set_globals (<["cmake_args" := PList ["-DLIBRARY_ONLY=ON"]]>
                          (globals Demo.world)) Demo.world in
  let w' :=
    set_commands [Make []; Make ["install"]]
      (set_globals
         (<["cmake_args" := PList ["-DLIBRARY_ONLY=ON";
                                   "-DBUILD_SHARED_LIBS=ON"]]> (globals w))
         w) in
  Babelflow.cmake_install Demo.vtkh_pkg Demo.vtkh_spec "/opt/pkg" w
  = (Ok tt, w')
  ∧ Pmt.cmake_install Demo.vtkh_pkg Demo.vtkh_spec "/opt/pkg" w
    = (Ok tt, w').
Proof.
  apply (cmake_install_bound_list Demo.vtkh_pkg Demo.vtkh_spec "/opt/pkg"
           (set_globals (<["cmake_args" := PList ["-DLIBRARY_ONLY=ON"]]>
                           (globals Demo.world)) Demo.world)
           ["-DLIBRARY_ONLY=ON"]).
  reflexivity.
Defined.

(** ** The two host-config files side by side *)

Lemma list_ascii_of_string_app a b :
  Strings.String.list_ascii_of_string (a +:+ b)
  = Strings.String.list_ascii_of_string a ++ Strings.String.list_ascii_of_string b.
Proof.
  induction a as [|c a IH]; [done|]. rewrite append_cons. cbn.
  by rewrite IH.
Qed.

Lemma string_app_assoc a b c : (a +:+ b) +:+ c = a +:+ (b +:+ c).
Proof.
  induction a as [|x a IH]; [done|]. rewrite !append_cons. by rewrite IH.
Qed.

(** No name ends both in the tag of vtk-h and in the tag of ascent. *)
Lemma host_cfg_tags_differ x y :
  x +:+ "-vtkh.cmake" ≠ y +:+ "-ascent.cmake".
Proof.
  intros H. apply (f_equal Strings.String.list_ascii_of_string) in H.
  change "-ascent.cmake" with ("-a" +:+ "scent.cmake") in H.
  rewrite <- string_app_assoc, !list_ascii_of_string_app in H.
  apply app_inj_2 in H as [_ H]; [discriminate|reflexivity].
Qed.

Lemma os_path_join_tail a b tag :
  ∃ x, os_path_join a (b +:+ tag) = x +:+ tag.
Proof.
  unfold os_path_join. destruct (is_abs (b +:+ tag)).
  - by exists b.
  - destruct (negb (str_truthy a) || endswith_slash a).
    + exists (a +:+ b). by rewrite string_app_assoc.
    + exists (a +:+ "/" +:+ b). by rewrite !string_app_assoc.
Qed.

Lemma host_config_paths_differ spec w spec' w' :
  VtkHOut.path spec w ≠ AscentOut.path spec' w'.
Proof.
  unfold VtkHOut.path, AscentOut.path, VtkHOut.fname, AscentOut.fname,
    VtkH.host_cfg_name, Ascent.host_cfg_name, abspath_in.
  destruct (os_path_join_tail (cwd w)
              (hostname w +:+ "-" +:+ VtkHOut.sys_type spec w +:+ "-"
               +:+ compiler spec) "-vtkh.cmake") as [x Hx].
  destruct (os_path_join_tail (cwd w')
              (hostname w' +:+ "-" +:+ AscentOut.sys_type spec' w' +:+ "-"
               +:+ compiler spec') "-ascent.cmake") as [y Hy].
  rewrite !string_app_assoc in Hx, Hy.
  rewrite Hx, Hy. apply host_cfg_tags_differ.
Qed.

(** X22: the two recipes do not get in each other's way.  When one of them
    has written its host-config file, a run of the other, with whatever
    specification and whatever its outcome, leaves that file as it is:
    the names of the two files always differ. *)
Theorem host_configs_coexist self spec prefix self' spec' prefix' py w p l :
  (generates (VtkH.create_host_config self spec prefix) w p l →
   files (Ascent.create_host_config self' spec' prefix' py
            (VtkHOut.final self spec w)).2 !! p = Some l)
  ∧ (generates (Ascent.create_host_config self spec prefix py) w p l →
     files (VtkH.create_host_config self' spec' prefix'
              (AscentOut.final self spec py w)).2 !! p = Some l).
Proof.
  split.
  - intros (_ & -> & ->)%VtkHFacts.vtkh_generates_inv.
    destruct (ascent_host_config_frame self' spec' prefix' py
                (VtkHOut.final self spec w))
      as (_ & _ & _ & _ & _ & _ & _ & _ & Hfiles).
    rewrite Hfiles by apply host_config_paths_differ.
    unfold VtkHOut.final; cbn. apply lookup_insert_eq.
  - intros (_ & -> & ->)%AscentFacts.ascent_generates_inv.
    destruct (vtkh_host_config_frame self' spec' prefix'
                (AscentOut.final self spec py w))
      as (_ & _ & _ & _ & _ & _ & _ & _ & Hfiles).
    rewrite Hfiles.
    + unfold AscentOut.final; cbn. apply lookup_insert_eq.
    + intros H. by apply (host_config_paths_differ spec'
                            (AscentOut.final self spec py w) spec w).
Qed.

Lemma host_configs_coexist_witness :
  files (Ascent.create_host_config Demo.ascent_pkg Demo.ascent_spec
           "/opt/pkg" None
           (VtkHOut.final Demo.vtkh_pkg Demo.vtkh_spec Demo.world)).2
  !! VtkHOut.path Demo.vtkh_spec Demo.world
  = Some (VtkHOut.chunks Demo.vtkh_pkg Demo.vtkh_spec Demo.world).
Proof.
  apply (proj1 (host_configs_coexist Demo.vtkh_pkg Demo.vtkh_spec "/opt/pkg"
                  Demo.ascent_pkg Demo.ascent_spec "/opt/pkg" None
                  Demo.world (VtkHOut.path Demo.vtkh_spec Demo.world)
                  (VtkHOut.chunks Demo.vtkh_pkg Demo.vtkh_spec
                     Demo.world))).
  apply VtkHFacts.vtkh_generates_total, DemoFacts.vtkh_pre.
Defined.

(** ** Concrete runs for the properties of Part III *)

Lemma vtkh_other_entries_once_witness :
  NoDup (List.filter (λ n, negb (String.eqb n "ENABLE_LOGGING"))
           (entry_names
              (VtkHOut.chunks Demo.vtkh_pkg Demo.vtkh_spec Demo.world))).
Proof.
  apply (vtkh_other_entries_once Demo.vtkh_pkg Demo.vtkh_spec "/opt/pkg"
           Demo.world (VtkHOut.path Demo.vtkh_spec Demo.world)).
  apply VtkHFacts.vtkh_generates_total, DemoFacts.vtkh_pre.
Defined.

Lemma ascent_entries_once_witness :
  NoDup (entry_names
           (AscentOut.chunks Cases.ascent_full_pkg Cases.ascent_full
              (Some "/opt/pkg/site-packages") Demo.world)).
Proof.
  apply (ascent_entries_once Cases.ascent_full_pkg Cases.ascent_full
           "/opt/pkg" (Some "/opt/pkg/site-packages") Demo.world
           (AscentOut.path Cases.ascent_full Demo.world)).
  apply AscentFacts.ascent_generates_total, cases_ascent_full_pre.
Defined.

Lemma vtkh_rerun_witness :
  generates (VtkH.create_host_config Demo.vtkh_pkg Demo.vtkh_spec "/opt/pkg")
    (VtkHOut.final Demo.vtkh_pkg Demo.vtkh_spec Demo.world)
    (VtkHOut.path Demo.vtkh_spec Demo.world)
    (VtkHOut.chunks Demo.vtkh_pkg Demo.vtkh_spec Demo.world).
Proof.
  apply (vtkh_rerun Demo.vtkh_pkg Demo.vtkh_spec "/opt/pkg" Demo.world).
  apply VtkHFacts.vtkh_generates_total, DemoFacts.vtkh_pre.
Defined.

Lemma ascent_rerun_witness :
  generates
    (Ascent.create_host_config Demo.ascent_pkg Demo.ascent_spec "/opt/pkg"
       None)
    (AscentOut.final Demo.ascent_pkg Demo.ascent_spec None Demo.world)
    (AscentOut.path Demo.ascent_spec Demo.world)
    (AscentOut.chunks Demo.ascent_pkg Demo.ascent_spec None Demo.world).
Proof.
  apply (ascent_rerun Demo.ascent_pkg Demo.ascent_spec "/opt/pkg" None
           Demo.world).
  - by vm_compute.
  - apply AscentFacts.ascent_generates_total, demo_ascent_pre.
Defined.
